(** * nwd: a WebDriver wire-protocol client (lib/webDriver.js)

    Shallow embedding of the command dispatcher ([_cmd]), the selector
    resolution engine ([_getIds], [jqueryGetElementIds], [get], [getList]),
    the session set-up ([init], [setTimeout], [setTimeouts]), the
    delegated element surface ([_initElement]), the URL-change wait
    ([waitForUrlChange]) and the polling engine ([waitFor]).

    Conventions of the embedding.
    - JavaScript values that travel over the wire are [json]; [None] of
      type [option json] stands for [undefined].
    - Strings are [string], read as the UTF-8 bytes of the JavaScript
      string: what the wire carries and what [Content-Length] counts.
      The code looks for ASCII characters only ([/], [?], [:], the
      character of code 0), which are the same bytes in either reading.
    - The HTTP transport is a deterministic stub: a function from the
      requests issued so far to the outcome of the latest one. A command
      is therefore run to completion before the next one is issued, which
      is the sequencing the library asks of its callers.
    - A Node-style callback invocation [callback(err, value)] is the
      constructor [Callback err value]; an exception that escapes is
      [Throw]. *)

From Stdlib Require Import String Ascii List ZArith Bool Lia Arith DecimalString.
Import ListNotations.
Open Scope string_scope.

Set Warnings "-register-all".

(** ** JSON values and JavaScript coercions *)

Inductive json : Type :=
| JNull
| JBool (b : bool)
| JNum (n : Z)
| JStr (s : string)
| JArr (items : list json)
| JObj (fields : list (string * json)).

(** Own-property lookup on an object literal: the first binding wins. *)
Fixpoint assoc {A : Type} (k : string) (l : list (string * A)) : option A :=
  match l with
  | [] => None
  | (k', v) :: tl => if String.eqb k k' then Some v else assoc k tl
  end.

(** [obj[k] = v] on a plain object: replaces in place, or appends a new
    key at the end (insertion order is what [for..in] enumerates). *)
Fixpoint obj_set {A : Type} (k : string) (v : A) (l : list (string * A))
  : list (string * A) :=
  match l with
  | [] => [(k, v)]
  | (k', v') :: tl =>
      if String.eqb k k' then (k', v) :: tl else (k', v') :: obj_set k v tl
  end.

(** [j.k] for a non-null [j]; a primitive or an array has no such field. *)
Definition prop (j : json) (k : string) : option json :=
  match j with
  | JObj fields => assoc k fields
  | _ => None
  end.

(** ToBoolean. *)
Definition truthy (j : json) : bool :=
  match j with
  | JNull => false
  | JBool b => b
  | JNum n => negb (Z.eqb n 0)
  | JStr s => negb (String.eqb s "")
  | JArr _ | JObj _ => true
  end.

Definition truthy_opt (o : option json) : bool :=
  match o with
  | None => false
  | Some j => truthy j
  end.

Definition str_truthy (s : string) : bool := negb (String.eqb s "").

Definition Array_isArray (j : json) : bool :=
  match j with
  | JArr _ => true
  | _ => false
  end.

(** Modelled from the spec: [utils.isObject], the collaborator's type
    predicate "is a plain object" (module [./utils] is not part of the
    sources at hand). *)
Definition isObject (j : json) : bool :=
  match j with
  | JObj _ => true
  | _ => false
  end.

(** Modelled from the spec: [utils.isEmptyObject], the collaborator's type
    predicate "is an empty plain object". *)
Definition isEmptyObject (j : json) : bool :=
  match j with
  | JObj [] => true
  | _ => false
  end.

(** ** Error taxonomy *)

(** Context recorded on an error by [parametrize]. *)
Definition context := list (string * json).

(** Modelled from the spec: the errors that reach a callback (module
    [./errors] is not part of the sources at hand).
    [StatusError status params] is an instance of the constructor
    [errors.getProtocolErrorContructor(status)] returns;
    [errors.NoSuchElementError] is the kind of status 7 of the wire
    protocol; [ProtocolError] is the malformed-response kind. These are
    the kinds of the taxonomy and carry a [parametrize] method.
    [PlainError] is a built-in [Error] object ([new Error(msg)], or what
    Node's [http] emits on a connection failure): it is not made by the
    taxonomy and has no [parametrize] property. *)
Inductive error : Type :=
| StatusError (status : json) (params : context)
| ProtocolError (message : string) (params : context)
| PlainError (message : string).

Definition NoSuchElementError (params : context) : error :=
  StatusError (JNum 7) params.

(** [err instanceof errors.NoSuchElementError]. *)
Definition is_NoSuchElementError (e : error) : bool :=
  match e with
  | StatusError (JNum 7) _ => true
  | _ => false
  end.

(** Modelled from the spec: what [parametrize] records, merging the new
    context into the recorded one key by key (so that it is idempotent). *)
Definition merge_context (old new : context) : context :=
  fold_left (fun acc kv => obj_set (fst kv) (snd kv) acc) new old.

(** Modelled from the spec: [err.parametrize(ctx)]; [None] when [err]
    has no such method, in which case the call raises a [TypeError]. *)
Definition parametrize (e : error) (ctx : context) : option error :=
  match e with
  | StatusError s ps => Some (StatusError s (merge_context ps ctx))
  | ProtocolError m ps => Some (ProtocolError m (merge_context ps ctx))
  | PlainError _ => None
  end.

Definition error_params (e : error) : option context :=
  match e with
  | StatusError _ ps | ProtocolError _ ps => Some ps
  | PlainError _ => None
  end.

(** ** Driver, requests and responses *)

Record RequestParams : Type := {
  rp_host : string;
  rp_port : Z;
  rp_method : string
}.

Record WebDriver : Type := {
  requestParams : RequestParams;
  sessionBasePath : string;
  sessionId : option json;
  desiredCapabilities : json;
  defaults_using : string;
  timeouts : list (string * json);
  _protocolTimeoutsHash : list (string * json)
}.

(** The argument of [_cmd]. *)
Record cmd_params : Type := {
  path : string;
  method : option string;
  data : option json;
  resNeeded : bool
}.

Record request : Type := {
  req_host : string;
  req_port : Z;
  req_path : string;
  req_method : string;
  req_content_type : string;
  req_content_length : nat;
  req_data : option string
}.

(** What the transport hands to [_cmd]'s response handler: the headers
    and the raw body text. *)
Record response : Type := {
  headers : list (string * string);
  body : string
}.

Inductive http_result : Type :=
| HttpError (e : error)
| HttpResponse (res : response).

(** The stub transport: the requests issued so far, latest first, decide
    the outcome of the latest one. *)
Definition transport := list request -> http_result.

(** Values handed to callbacks. [VSelf] is the driver ([self], returned
    for chaining); [VRes] is the response object [res] after its [data]
    was replaced by the parsed envelope; [VElement id] is
    [new WebElement(id, self)]. *)
Inductive value : Type :=
| VUndefined
| VJson (j : json)
| VSelf
| VRes (hdrs : list (string * string)) (envelope : json)
| VElement (id : option json)
| VList (elements : list value).

(** How a call into the library ends. [Unanswered]: control left the
    library without the callback being invoked by it. *)
Inductive outcome : Type :=
| Callback (err : option error) (v : value)
| Throw (e : error)
| Unanswered.

Definition TypeError (msg : string) : error := PlainError ("TypeError: " ++ msg).

(** [_strip]: drops every character whose code is 0. *)
Fixpoint _strip (str : string) : string :=
  match str with
  | EmptyString => EmptyString
  | String c rest =>
      if Ascii.eqb c Ascii.zero then _strip rest else String c (_strip rest)
  end.

(** The result-unwrapping expression of [_cmd] (lines 155-161), for
    [resNeeded] unset: [field] is [res.data.value]. *)
Definition unwrap (field : option json) : value :=
  match field with
  | None => VSelf
  | Some JNull => VSelf
  | Some v =>
      if Array_isArray v || negb (isObject v) || negb (isEmptyObject v)
      then VJson v else VSelf
  end.

(** What the platform and the files read at load time supply:
    [JSON.parse] (a failure carries the exception's message),
    [JSON.stringify], the text of [jqueryInjection] (built from
    [injections/jquery.min.js]), the text of [jqueryGetElementsInjection]
    and the text of the selection snippet that [jqueryGetElementIds]
    passes to [utils.getInjectionSource]. *)
Record platform : Type := {
  JSON_parse : string -> json + string;
  JSON_stringify : json -> string;
  jqueryInjection : string;
  jqueryGetElementsInjection : string;
  selectSnippet : string
}.

Definition build_request (P : platform) (self : WebDriver) (params : cmd_params)
  : request :=
  let stringData :=
    match data params with
    | Some d => if truthy d then Some (JSON_stringify P d) else None
    | None => None
    end in
  let buferData :=
    match stringData with
    | Some s => if str_truthy s then Some s else None
    | None => None
    end in
  {| req_host := rp_host (requestParams self);
     req_port := rp_port (requestParams self);
     req_path := sessionBasePath self ++ path params;
     req_method :=
       match method params with
       | Some m => if str_truthy m then m else rp_method (requestParams self)
       | None => rp_method (requestParams self)
       end;
     req_content_type := "application/json; charset=UTF-8";
     req_content_length :=
       match buferData with
       | Some s => String.length s
       | None => 0
       end;
     req_data := buferData |}.

(** The text [JSON.parse] is applied to (line 139). *)
Definition body_text (res : response) : string :=
  if str_truthy (body res) then _strip (body res) else "{}".

(** The response handler of [_cmd] (lines 137-162). *)
Definition handle_response (P : platform) (params : cmd_params) (r : http_result)
  : outcome :=
  match r with
  | HttpError err => Callback (Some err) VUndefined
  | HttpResponse res =>
      match JSON_parse P (body_text res) with
      | inr message =>
          Callback (Some (ProtocolError
            ("Can`t parse json from response of " ++ path params ++ ": " ++
             message ++ String (ascii_of_nat 10) " Raw response data: " ++
             body_text res) []))
            VUndefined
      | inl envelope =>
          if truthy envelope && truthy_opt (prop envelope "status") then
            match prop envelope "status" with
            | Some status => Callback (Some (StatusError status [])) VUndefined
            | None => Callback None VUndefined
            end
          else
            match envelope with
            | JNull => Throw (TypeError "Cannot read property 'value' of null")
            | _ =>
                Callback None
                  (if resNeeded params then VRes (headers res) envelope
                   else unwrap (prop envelope "value"))
            end
      end
  end.

(** [_cmd]: issues the request and handles its outcome. The state
    threaded through is the list of requests issued, latest first. *)
Definition _cmd (P : platform) (net : transport) (self : WebDriver)
           (params : cmd_params) (sent : list request)
  : list request * outcome :=
  let sent' := build_request P self params :: sent in
  (sent', handle_response P params (net sent')).

(** ** Selector resolution *)

(** ToString of a wire value, as string concatenation applies it. A
    number prints in plain decimal; that is what JavaScript prints for
    the integers it represents exactly ([prints_plainly] below). *)
Fixpoint js_toString (j : json) : string :=
  match j with
  | JNull => "null"
  | JBool b => if b then "true" else "false"
  | JNum n => NilZero.string_of_int (Z.to_int n)
  | JStr s => s
  | JArr items =>
      (fix join (l : list json) : string :=
         match l with
         | [] => ""
         | x :: tl =>
             (match x with JNull => "" | _ => js_toString x end) ++
             (match tl with [] => "" | _ => "," ++ join tl end)
         end) items
  | JObj _ => "[object Object]"
  end.

(** The values whose text [js_toString] gives as JavaScript does: every
    string, boolean and plain object, [null], and the integers up to
    2^53 in magnitude. *)
Definition prints_plainly (j : json) : Prop :=
  match j with
  | JNum n => (Z.abs n <= 9007199254740992)%Z
  | JArr _ => False
  | _ => True
  end.

(** [s.replace(/pat/g, rep)] for a literal pattern: leftmost matches,
    not overlapping. [skip] counts the characters of a match still to be
    dropped. *)
Fixpoint replace_from (pat rep s : string) (skip : nat) : string :=
  match s with
  | EmptyString => EmptyString
  | String c rest =>
      match skip with
      | S k => replace_from pat rep rest k
      | O =>
          if String.prefix pat s
          then rep ++ replace_from pat rep rest (String.length pat - 1)
          else String c (replace_from pat rep rest 0)
      end
  end.

Definition replace_all (pat rep s : string) : string := replace_from pat rep s 0.

Definition dquote : string := String (ascii_of_nat 34) EmptyString.

Definition style_has (decl : string) : string :=
  "[style*=" ++ dquote ++ decl ++ dquote ++ "]".

Definition sweetenCssSelector (value : string) : string :=
  let value := replace_all ":visible"
    (":not(" ++ style_has "display:none" ++ "):not(" ++
     style_has "display: none" ++ ")") value in
  replace_all ":hidden"
    (style_has "display:none" ++ "," ++ style_has "display: none" ++ "," ++
     style_has "opacity: 0" ++ "," ++ style_has "opacity:0") value.

(** One step of a traversal chain: a plain object, as its key/value list. *)
Definition chain_step := list (string * json).

(** The [params] object of [get], [getList] and [_getIds]. [noError] is
    the truth value of [params.noError]; [using_] is [params.using]. *)
Record selector_params : Type := {
  parent : option value;
  parentId : option json;
  using_ : option string;
  noError : bool;
  chain : option (list chain_step);
  isSingle : bool
}.

(** The [{}] that stands in for omitted params. *)
Definition no_params : selector_params :=
  {| parent := None; parentId := None; using_ := None; noError := false;
     chain := None; isSingle := false |}.

Definition value_truthy (v : value) : bool :=
  match v with
  | VUndefined => false
  | VJson j => truthy j
  | _ => true
  end.

Definition to_value (o : option json) : value :=
  match o with
  | Some j => VJson j
  | None => VUndefined
  end.

(** [items.map(function(item) { return item.ELEMENT; })]: [None] when an
    item is [null], on which the property access raises. *)
Fixpoint map_ELEMENT (items : list json) : option (list value) :=
  match items with
  | [] => Some []
  | JNull :: _ => None
  | item :: tl =>
      match map_ELEMENT tl with
      | Some ids => Some (to_value (prop item "ELEMENT") :: ids)
      | None => None
      end
  end.

(** The three texts [execute] of [jqueryGetElementIds] can be given to
    prepend: nothing, [jqueryGetElementsInjection], or
    [jqueryAndGetElementsInjection]. *)
Inductive injection : Type :=
| Bare
| GetElementsInjection
| JqueryAndGetElementsInjection.

Definition injection_text (P : platform) (inj : injection) : string :=
  match inj with
  | Bare => ""
  | GetElementsInjection => jqueryGetElementsInjection P
  | JqueryAndGetElementsInjection =>
      jqueryInjection P ++ jqueryGetElementsInjection P
  end.

(** [WebDriver.prototype.execute], called with all four arguments. *)
Definition execute (P : platform) (net : transport) (self : WebDriver)
           (script : string) (args : list json) (isAsync : bool)
           (sent : list request) : list request * outcome :=
  _cmd P net self
    {| path := "/execute" ++ (if isAsync then "_async" else "");
       method := Some "POST";
       data := Some (JObj [("script", JStr script); ("args", JArr args)]);
       resNeeded := false |} sent.

(** [params.parentId && {ELEMENT: params.parentId}], as it is serialized
    inside the argument array ([undefined] becomes [null] there). *)
Definition parent_arg (params : selector_params) : json :=
  match parentId params with
  | None => JNull
  | Some id => if truthy id then JObj [("ELEMENT", id)] else id
  end.

Definition chain_arg (params : selector_params) : json :=
  match chain params with
  | None => JNull
  | Some steps => JArr (map JObj steps)
  end.

Definition select_args (selector : string) (params : selector_params)
  : list json :=
  [JStr selector; parent_arg params; chain_arg params].

Definition select_context (selector : string) (using' : option string)
  : context :=
  ("element", JStr selector) ::
  match using' with
  | Some u => [("using", JStr u)]
  | None => []
  end.

(** What [jqueryGetElementIds] does with a result that is an array
    (lines 314-329). *)
Definition on_elements (selector : string) (params : selector_params)
           (result : list json) : outcome :=
  match map_ELEMENT result with
  | None => Throw (TypeError "Cannot read property 'ELEMENT' of null")
  | Some [] =>
      if isSingle params
      then Callback (Some (NoSuchElementError
                             (select_context selector (using_ params))))
                    VUndefined
      else Callback None (VList [])
  | Some elements => Callback None (VList elements)
  end.

(** [jqueryGetElementIds]: its inner [execute(addInjection)], which calls
    itself on every string result. [fuel] bounds the number of calls;
    [None] is "fuel exhausted". *)
Fixpoint jquery_execute (P : platform) (net : transport) (self : WebDriver)
         (selector : string) (params : selector_params) (fuel : nat)
         (addInjection : injection) (sent : list request)
  : list request * option outcome :=
  match fuel with
  | O => (sent, None)
  | S fuel' =>
      let '(sent', r) :=
        execute P net self (injection_text P addInjection ++ selectSnippet P)
                (select_args selector params) false sent in
      match r with
      | Throw e => (sent', Some (Throw e))
      | Unanswered => (sent', Some Unanswered)
      | Callback (Some err) _ => (sent', Some (Callback (Some err) VUndefined))
      | Callback None (VJson (JStr result)) =>
          jquery_execute P net self selector params fuel'
            (if String.eqb result "needJquery"
             then JqueryAndGetElementsInjection else GetElementsInjection)
            sent'
      | Callback None (VJson (JArr result)) =>
          (sent', Some (on_elements selector params result))
      | Callback None _ =>
          (sent', Some (Throw (TypeError "elements.map is not a function")))
      end
  end.

Definition jqueryGetElementIds (P : platform) (net : transport)
           (self : WebDriver) (selector : string) (params : selector_params)
           (fuel : nat) (sent : list request) : list request * option outcome :=
  jquery_execute P net self selector params fuel Bare sent.

(** Property names every object literal inherits from [Object.prototype];
    [k in obj] and [obj[k]] see them besides the own keys. *)
Definition Object_prototype_keys : list string :=
  ["constructor"; "hasOwnProperty"; "isPrototypeOf"; "propertyIsEnumerable";
   "toLocaleString"; "toString"; "valueOf"; "__proto__";
   "__defineGetter__"; "__defineSetter__"; "__lookupGetter__";
   "__lookupSetter__"].

Definition inherited (k : string) : bool :=
  existsb (String.eqb k) Object_prototype_keys.

(** [k in obj] for an object literal [obj]. *)
Definition js_in {A : Type} (k : string) (obj : list (string * A)) : bool :=
  match assoc k obj with
  | Some _ => true
  | None => inherited k
  end.

(** What [customStrategyHash[params.using]] finds: the jquery strategy,
    a member inherited from [Object.prototype] (truthy, so it is applied
    in place of a strategy and never invokes the callback), or nothing. *)
Inductive strategy : Type :=
| JqueryStrategy
| InheritedMember
| NativeStrategy.

(** Applying an inherited member as
    [customStrategy.call(this, selector, params, callback)] raises a
    [TypeError] for three of them: [__proto__] is an object and has no
    [call]; [__defineGetter__] and [__defineSetter__] refuse [params],
    which is no function, as the accessor. The others return. *)
Definition raises_when_applied (using' : string) : bool :=
  String.eqb using' "__proto__" || String.eqb using' "__defineGetter__" ||
  String.eqb using' "__defineSetter__".

Definition customStrategyHash (using' : string) : strategy :=
  if String.eqb using' "jquery" then JqueryStrategy
  else if inherited using' then InheritedMember
  else NativeStrategy.

(** [parametrizeError] of [_getIds]: [inr] is the [TypeError] raised when
    [err] has no [parametrize] method. *)
Definition parametrizeError (selector : string) (using' : string)
           (err : option error) : option error + error :=
  match err with
  | None => inl None
  | Some e =>
      match parametrize e [("element", JStr selector); ("using", JStr using')] with
      | Some e' => inl (Some e')
      | None => inr (TypeError "err.parametrize is not a function")
      end
  end.

Definition is_WebElement (v : value) : bool :=
  match v with
  | VElement _ => true
  | _ => false
  end.

(** [params.using || this.defaults.using]. *)
Definition effective_using (self : WebDriver) (params : selector_params)
  : string :=
  match using_ params with
  | Some u => if str_truthy u then u else defaults_using self
  | None => defaults_using self
  end.

(** The callback [_getIds] hands to a custom strategy (lines 400-405). *)
Definition custom_callback (selector : string) (using' : string)
           (params : selector_params) (r : outcome) : outcome :=
  match r with
  | Callback (Some err) _ =>
      if noError params && is_NoSuchElementError err
      then Callback None (VJson JNull)
      else match parametrizeError selector using' (Some err) with
           | inl e => Callback e (VJson (JBool false))
           | inr t => Throw t
           end
  | Callback None (VList elements) =>
      Callback None (if isSingle params then nth 0 elements VUndefined
                     else VList elements)
  | Callback None elements =>
      Callback None (if isSingle params then VUndefined else elements)
  | other => other
  end.

(** The callback [_getIds] hands to [_cmd] (lines 418-425). *)
Definition native_callback (selector : string) (using' : string)
           (params : selector_params) (r : outcome) : outcome :=
  match r with
  | Callback (Some err) _ =>
      if noError params && is_NoSuchElementError err
      then Callback None (VJson JNull)
      else match parametrizeError selector using' (Some err) with
           | inl e => Callback e (VJson (JBool false))
           | inr t => Throw t
           end
  | Callback None v =>
      if isSingle params then
        match v with
        | VJson j => Callback None (to_value (prop j "ELEMENT"))
        | _ => Callback None VUndefined
        end
      else
        match v with
        | VJson (JArr items) =>
            match map_ELEMENT items with
            | Some ids => Callback None (VList ids)
            | None => Throw (TypeError "Cannot read property 'ELEMENT' of null")
            end
        | _ => Throw (TypeError "value.map is not a function")
        end
  | other => other
  end.

(** [params.parent && !(params.parent instanceof WebElement)]. *)
Definition bad_parent (params : selector_params) : bool :=
  match parent params with
  | Some p => value_truthy p && negb (is_WebElement p)
  | None => false
  end.

(** [params] after lines 392-397: [parent] moved to [parentId], [using]
    defaulted. *)
Definition normalize (self : WebDriver) (params : selector_params)
  : selector_params :=
  {| parent := match parent params with
               | Some (VElement _) => None
               | other => other
               end;
     parentId := match parent params with
                 | Some (VElement id) => id
                 | _ => parentId params
                 end;
     using_ := Some (effective_using self params);
     noError := noError params;
     chain := chain params;
     isSingle := isSingle params |}.

(** The command of the native strategy (lines 407-417), for normalized
    [params]. *)
Definition find_params (self : WebDriver) (selector : string)
           (params : selector_params) : cmd_params :=
  let plural := if isSingle params then "" else "s" in
  let parentPath :=
    match parentId params with
    | Some id =>
        if truthy id then "/" ++ js_toString id ++ "/element" ++ plural
        else plural
    | None => plural
    end in
  {| path := "/element" ++ parentPath;
     method := Some "POST";
     data := Some (JObj [("using", JStr (effective_using self params));
                         ("value", JStr (sweetenCssSelector selector))]);
     resNeeded := false |}.

(** [_getIds], called with [selector], [params] and a callback. *)
Definition _getIds (P : platform) (net : transport) (self : WebDriver)
           (selector : string) (params : selector_params) (fuel : nat)
           (sent : list request) : list request * option outcome :=
  if bad_parent params
  then (sent, Some (Throw (PlainError "Parent should be instanceof WebElement")))
  else
    let params' := normalize self params in
    let using' := effective_using self params in
    match customStrategyHash using' with
    | JqueryStrategy =>
        let '(sent', r) :=
          jqueryGetElementIds P net self selector params' fuel sent in
        (sent', option_map (custom_callback selector using' params') r)
    | InheritedMember =>
        (sent,
         Some (if raises_when_applied using'
               then Throw (TypeError
                             (if String.eqb using' "__proto__"
                              then "customStrategy.call is not a function"
                              else "Object.prototype." ++ using' ++
                                   ": Expecting function"))
               else Unanswered))
    | NativeStrategy =>
        let '(sent', r) :=
          _cmd P net self (find_params self selector params') sent in
        (sent', Some (native_callback selector using' params' r))
    end.

Definition with_isSingle (b : bool) (params : selector_params)
  : selector_params :=
  {| parent := parent params; parentId := parentId params;
     using_ := using_ params; noError := noError params;
     chain := chain params; isSingle := b |}.

(** [params] as [get] and [getList] take it: omitted, it is [{}]. *)
Definition given (params : option selector_params) : selector_params :=
  match params with
  | Some p => p
  | None => no_params
  end.

(** [WebDriver.prototype.get]. *)
Definition get (P : platform) (net : transport) (self : WebDriver)
           (selector : string) (params : option selector_params) (fuel : nat)
           (sent : list request) : list request * option outcome :=
  let '(sent', r) :=
    _getIds P net self selector (with_isSingle true (given params)) fuel sent in
  (sent',
   option_map (fun o =>
     match o with
     | Callback (Some err) _ => Callback (Some err) (VJson (JBool false))
     | Callback None id =>
         Callback None
           (match id with
            | VJson j => if truthy j then VElement (Some j) else VJson j
            | VUndefined => VUndefined
            | _ => VElement None
            end)
     | other => other
     end) r).

(** [WebDriver.prototype.getList]. *)
Definition getList (P : platform) (net : transport) (self : WebDriver)
           (selector : string) (params : option selector_params) (fuel : nat)
           (sent : list request) : list request * option outcome :=
  let '(sent', r) :=
    _getIds P net self selector (with_isSingle false (given params)) fuel sent in
  (sent',
   option_map (fun o =>
     match o with
     | Callback (Some err) _ => Callback (Some err) (VJson (JBool false))
     | Callback None (VList ids) =>
         Callback None
           (VList (map (fun id => match id with
                                  | VJson j => VElement (Some j)
                                  | _ => VElement None
                                  end) ids))
     | Callback None _ => Throw (TypeError "ids.map is not a function")
     | other => other
     end) r).

(** ** Timeouts and session set-up *)

Definition set_timeouts (self : WebDriver) (t : list (string * json))
  : WebDriver :=
  {| requestParams := requestParams self;
     sessionBasePath := sessionBasePath self;
     sessionId := sessionId self;
     desiredCapabilities := desiredCapabilities self;
     defaults_using := defaults_using self;
     timeouts := t;
     _protocolTimeoutsHash := _protocolTimeoutsHash self |}.

(** [WebDriver.prototype.setTimeout]: the driver afterwards, the requests
    issued, and how the callback was invoked. *)
Definition setTimeout (P : platform) (net : transport) (self : WebDriver)
           (type : string) (timeout : json) (sent : list request)
  : WebDriver * list request * outcome :=
  if js_in type (_protocolTimeoutsHash self) then
    let '(sent', r) :=
      _cmd P net self
        {| path := "/timeouts";
           method := Some "POST";
           data := Some (JObj [("type", JStr type); ("ms", timeout)]);
           resNeeded := false |} sent in
    match r with
    | Callback (Some err) _ => (self, sent', Callback (Some err) VUndefined)
    | Callback None _ =>
        (set_timeouts self (obj_set type timeout (timeouts self)), sent',
         Callback None VSelf)
    | other => (self, sent', other)
    end
  else
    (set_timeouts self (obj_set type timeout (timeouts self)), sent,
     Callback None VSelf).

(** The [for..in] loop of [setTimeouts] over the keys still to visit.
    [current] is the counter of [callbackWrapper], [count] the number of
    keys; the result lists the invocations of [setTimeouts]' callback, in
    order. An exception ends the loop. *)
Fixpoint setTimeouts_loop (P : platform) (net : transport) (self : WebDriver)
         (todo : list (string * json)) (count current : nat)
         (sent : list request) : WebDriver * list request * list outcome :=
  match todo with
  | [] => (self, sent, [])
  | (type, timeout) :: rest =>
      let '(self', sent', r) := setTimeout P net self type timeout sent in
      match r with
      | Callback (Some err) _ =>
          let '(self'', sent'', calls) :=
            setTimeouts_loop P net self' rest count current sent' in
          (self'', sent'', Callback (Some err) VUndefined :: calls)
      | Callback None _ =>
          let '(self'', sent'', calls) :=
            setTimeouts_loop P net self' rest count (S current) sent' in
          (self'', sent'',
           if Nat.eqb (S current) count
           then Callback None VUndefined :: calls else calls)
      | other => (self', sent', [other])
      end
  end.

(** [WebDriver.prototype.setTimeouts]. *)
Definition setTimeouts (P : platform) (net : transport) (self : WebDriver)
           (t : list (string * json)) (sent : list request)
  : WebDriver * list request * list outcome :=
  setTimeouts_loop P net self t (List.length t) 0 sent.

(** The constructor's [params]. *)
Record driver_options : Type := {
  opt_host : option string;
  opt_port : option Z;
  opt_method : option string;
  opt_desiredCapabilities : list (string * json);
  opt_defaults_using : option string;
  opt_timeouts : list (string * json)
}.

Definition str_or (o : option string) (dflt : string) : string :=
  match o with
  | Some s => if str_truthy s then s else dflt
  | None => dflt
  end.

(** Modelled from the spec: [utils.extend], the collaborator's deep merge
    of plain option objects, on the flat objects it is given here. *)
Definition extend {A : Type} (target source : list (string * A))
  : list (string * A) :=
  fold_left (fun acc kv => obj_set (fst kv) (snd kv) acc) source target.

(** [new WebDriver(params)]. *)
Definition new_WebDriver (params : driver_options) : WebDriver :=
  {| requestParams :=
       {| rp_host := str_or (opt_host params) "127.0.0.1";
          rp_port := match opt_port params with
                     | Some p => if Z.eqb p 0 then 4444%Z else p
                     | None => 4444%Z
                     end;
          rp_method := str_or (opt_method params) "POST" |};
     sessionBasePath := "/wd/hub/session";
     sessionId := None;
     desiredCapabilities :=
       JObj (extend [("browserName", JStr "firefox"); ("version", JStr "");
                     ("javascriptEnabled", JBool true); ("platform", JStr "ANY")]
                    (opt_desiredCapabilities params));
     defaults_using := str_or (opt_defaults_using params) "css selector";
     timeouts :=
       extend [("page load", JNum 3500); ("script", JNum 1000);
               ("implicit", JNum 0); ("waitFor", JNum 3000)]
              (opt_timeouts params);
     _protocolTimeoutsHash :=
       [("page load", JNum 1); ("script", JNum 1); ("implicit", JNum 1)] |}.

(** [s.split('/')], last part. *)
Fixpoint last_part (s : string) (acc : string) : string :=
  match s with
  | EmptyString => acc
  | String c rest =>
      if Ascii.eqb c "/"%char then last_part rest EmptyString
      else last_part rest (acc ++ String c EmptyString)
  end.

Definition set_session (self : WebDriver) (id : json) : WebDriver :=
  {| requestParams := requestParams self;
     sessionBasePath := sessionBasePath self ++ "/" ++ js_toString id;
     sessionId := Some id;
     desiredCapabilities := desiredCapabilities self;
     defaults_using := defaults_using self;
     timeouts := timeouts self;
     _protocolTimeoutsHash := _protocolTimeoutsHash self |}.

(** The session id [init] reads off the response (lines 193-201). *)
Definition session_id_of (hdrs : list (string * string)) (envelope : json)
  : option json :=
  if truthy_opt (prop envelope "sessionId") then prop envelope "sessionId"
  else match assoc "location" hdrs with
       | Some location =>
           if str_truthy location then Some (JStr (last_part location ""))
           else None
       | None => None
       end.

Definition init_params (self : WebDriver) : cmd_params :=
  {| path := "";
     method := None;
     data := Some (JObj [("desiredCapabilities", desiredCapabilities self)]);
     resNeeded := true |}.

(** [WebDriver.prototype.init]: the driver afterwards, the requests
    issued, and the invocations of [init]'s callback. *)
Definition init (P : platform) (net : transport) (self : WebDriver)
           (sent : list request) : WebDriver * list request * list outcome :=
  let '(sent', r) := _cmd P net self (init_params self) sent in
  match r with
  | Callback (Some err) _ => (self, sent', [Callback (Some err) VUndefined])
  | Callback None (VRes hdrs envelope) =>
      match session_id_of hdrs envelope with
      | Some id =>
          let self' := set_session self id in
          let '(self'', sent'', calls) :=
            setTimeouts P net self' (timeouts self') sent' in
          (self'', sent'',
           map (fun o => match o with
                         | Callback err _ => Callback err VSelf
                         | other => other
                         end) calls)
      | None =>
          (self, sent',
           [Callback (Some (PlainError "Can`t determine session id")) VUndefined])
      end
  | Callback None _ =>
      (self, sent', [Throw (TypeError "Cannot read property 'sessionId' of undefined")])
  | other => (self, sent', [other])
  end.

(** ** The delegated element surface ([_initElement]) *)

(** What a call into the library does, given the requests issued so far;
    [None] is "fuel exhausted". *)
Definition comp : Type := list request -> list request * option outcome.

(** A JavaScript argument: [APrimitive] is [null], a boolean, a number or
    a string; [AObject] is an object, through the fields [get] reads;
    [AFunction] is a Node-style callback. *)
Inductive arg : Type :=
| AUndefined
| APrimitive (j : json)
| AObject (p : selector_params)
| AFunction (f : option error -> value -> comp).

Definition throw (e : error) : comp := fun sent => (sent, Some (Throw e)).

(** Running [c] and handing what it passes to its callback on to [k]. *)
Definition andThen (c : comp) (k : option error -> value -> comp) : comp :=
  fun sent =>
    match c sent with
    | (sent', Some (Callback err v)) => k err v sent'
    | other => other
    end.

(** [f(err, v)] for an argument [f]. *)
Definition call (f : arg) (err : option error) (v : value) : comp :=
  match f with
  | AFunction k => k err v
  | _ => throw (TypeError "callback is not a function")
  end.

Section ElementSurface.

(** [utils.isSelectorParams] and the enumerable members of
    [WebElement.prototype] come from modules that are not part of the
    sources at hand; a member takes [this] and the argument list. *)
Variable isSelectorParams : arg -> bool.
Variable WebElement_prototype : list (string * (value -> list arg -> comp)).

Variable P : platform.
Variable net : transport.
Variable self : WebDriver.
Variable fuel : nat.

(** [element[method].apply(element, methodArgs)]. *)
Definition invoke (element : value) (method : string) (methodArgs : list arg)
  : comp :=
  match element with
  | VElement _ =>
      match assoc method WebElement_prototype with
      | Some m => m element methodArgs
      | None => throw (TypeError "Cannot read property 'apply' of undefined")
      end
  | _ => throw (TypeError "Cannot read property of a value that is no element")
  end.

(** [self.get.apply(self, getArgs)] where [getArgs] is [selector], then
    [params] if any, then the function [k]. Under ['use strict'],
    [params.isSingle = true] raises on a primitive and on [undefined]. *)
Definition get_apply (selector : string) (params : option arg)
           (k : option error -> value -> comp) : comp :=
  match params with
  | None => andThen (get P net self selector None fuel) k
  | Some (AObject p) => andThen (get P net self selector (Some p) fuel) k
  | Some (AFunction f) => andThen (get P net self selector None fuel) f
  | Some _ => throw (TypeError "Cannot assign to property 'isSingle'")
  end.

(** [self.element[method]], applied to [selector] and the remaining
    arguments [rest] (lines 86-103). *)
Definition element_method (method : string) (selector : string)
           (rest : list arg) : comp :=
  let params := nth 0 rest AUndefined in
  let getParams := if isSelectorParams params then Some params else None in
  let methodArgs := if isSelectorParams params then skipn 1 rest else rest in
  let callback := last methodArgs AUndefined in
  get_apply selector getParams
    (fun err element =>
       match err with
       | Some e => call callback (Some e) VUndefined
       | None => invoke element method methodArgs
       end).

(** The object [self.element]: one entry per member of
    [WebElement.prototype] whose name does not start with [_]. *)
Definition element (method : string)
  : option (string -> list arg -> comp) :=
  if String.prefix "_" method then None
  else match assoc method WebElement_prototype with
       | Some _ => Some (element_method method)
       | None => None
       end.

(** The same thing by hand: [driver.get(selector, params?, cb)] and, in
    [cb], the element's method on [args] and [callback]. *)
Definition get_then_method (method : string) (selector : string)
           (params : option selector_params) (args : list arg)
           (callback : option error -> value -> comp) : comp :=
  andThen (get P net self selector params fuel)
    (fun err element =>
       match err with
       | Some e => callback (Some e) VUndefined
       | None => invoke element method (args ++ [AFunction callback])
       end).

End ElementSurface.

(** ** URL-change condition *)

(** [oldUrl] and [newUrl]: [undefined] or [null], a string, or a regular
    expression (its source text and what [test] answers). *)
Inductive url_pattern : Type :=
| NoUrl
| UrlString (s : string)
| UrlRegExp (source : string) (test : string -> bool).

Definition url_truthy (u : url_pattern) : bool :=
  match u with
  | NoUrl => false
  | UrlString s => str_truthy s
  | UrlRegExp _ _ => true
  end.

(** The characters the [.] of a regular expression does not match: line
    feed, carriage return, and U+2028 and U+2029 (the bytes E2 80 A8 and
    E2 80 A9). *)
Definition line_terminators : list string :=
  [String (ascii_of_nat 10) EmptyString;
   String (ascii_of_nat 13) EmptyString;
   String (ascii_of_nat 226)
          (String (ascii_of_nat 128) (String (ascii_of_nat 168) EmptyString));
   String (ascii_of_nat 226)
          (String (ascii_of_nat 128) (String (ascii_of_nat 169) EmptyString))].

(** [s] begins with a line terminator. *)
Definition line_terminator (s : string) : bool :=
  existsb (fun t => String.prefix t s) line_terminators.

Fixpoint has_line_terminator (s : string) : bool :=
  match s with
  | EmptyString => false
  | String c rest =>
      line_terminator (String c rest) || has_line_terminator rest
  end.

(** [url.replace(/\?.*$/, '')]: [.*$] has to reach the end of the text,
    so the cut is at the first [?] that no line terminator follows. *)
Fixpoint strip_query (url : string) : string :=
  match url with
  | EmptyString => EmptyString
  | String c rest =>
      if Ascii.eqb c "?"%char && negb (has_line_terminator rest)
      then EmptyString
      else String c (strip_query rest)
  end.

(** The value passed to [waitCallback] (lines 577-580); [url] is already
    stripped. *)
Definition url_changed (oldUrl newUrl : url_pattern) (url : string) : bool :=
  (match oldUrl with
   | UrlRegExp _ test => negb (test url)
   | UrlString s => negb (String.eqb s url)
   | NoUrl => true
   end) &&
  (negb (url_truthy newUrl) ||
   match newUrl with
   | UrlRegExp _ test => test url
   | UrlString s => String.eqb s url
   | NoUrl => false
   end).

Definition url_text (u : url_pattern) : string :=
  match u with
  | NoUrl => "undefined"
  | UrlString s => s
  | UrlRegExp source _ => "/" ++ source ++ "/"
  end.

(** ** Polling engine ([waitFor]) *)

(** What one call [func(waitcb)] does: it calls [waitcb(done)] after
    [after] ms (0: before returning), or calls the outer callback with an
    error itself, or raises, or never answers. *)
Inductive behaviour : Type :=
| Reports (after : nat) (done : bool)
| Fails (after : nat) (err : error)
| Crashes (e : error)
| Silent.

(** What the event loop has pending: the two timers [execute] arms, and
    the answers of [func] still under way. *)
Inductive event : Type :=
| Poll
| Deadline
| Report (done : bool)
| Failure (err : error).

Record wait_params : Type := {
  wp_timeout : option nat;
  wp_noError : bool;
  wp_errorMessage : option string
}.

(** The closure state of one [waitFor] call and the event loop around it:
    the clock, the pending events in firing order, the two flags, the
    number of calls of [func] so far, and the invocations of [callback]
    with their times, latest first. *)
Record loop : Type := {
  now : nat;
  queue : list (nat * event);
  isDone : bool;
  isTimeoutExceeded : bool;
  attempts : nat;
  calls : list (nat * outcome)
}.

(** Arming a timer: it fires after everything due at the same time or
    earlier that was armed before it. *)
Fixpoint schedule (t : nat) (e : event) (q : list (nat * event))
  : list (nat * event) :=
  match q with
  | [] => [(t, e)]
  | (t', e') :: tl =>
      if Nat.ltb t t' then (t, e) :: q else (t', e') :: schedule t e tl
  end.

Definition arm (after : nat) (e : event) (st : loop) : loop :=
  {| now := now st; queue := schedule (now st + after) e (queue st);
     isDone := isDone st; isTimeoutExceeded := isTimeoutExceeded st;
     attempts := attempts st; calls := calls st |}.

Definition invoke_callback (o : outcome) (st : loop) : loop :=
  {| now := now st; queue := queue st;
     isDone := isDone st; isTimeoutExceeded := isTimeoutExceeded st;
     attempts := attempts st; calls := (now st, o) :: calls st |}.

Definition set_isDone (done : bool) (st : loop) : loop :=
  {| now := now st; queue := queue st;
     isDone := done; isTimeoutExceeded := isTimeoutExceeded st;
     attempts := attempts st; calls := calls st |}.

Definition set_isTimeoutExceeded (st : loop) : loop :=
  {| now := now st; queue := queue st;
     isDone := isDone st; isTimeoutExceeded := true;
     attempts := attempts st; calls := calls st |}.

Definition count_attempt (st : loop) : loop :=
  {| now := now st; queue := queue st;
     isDone := isDone st; isTimeoutExceeded := isTimeoutExceeded st;
     attempts := S (attempts st); calls := calls st |}.

Definition crash (e : error) (st : loop) : loop :=
  {| now := now st; queue := [];
     isDone := isDone st; isTimeoutExceeded := isTimeoutExceeded st;
     attempts := attempts st; calls := (now st, Throw e) :: calls st |}.

Definition delay : nat := 20.

Definition string_of_nat (n : nat) : string :=
  NilZero.string_of_uint (Nat.to_uint n).

Definition timeout_message (timeout : nat) (params : wait_params) : string :=
  "Timeout (" ++ string_of_nat timeout ++ " ms) exceeded" ++
  match wp_errorMessage params with
  | Some m => if str_truthy m then " while " ++ m else ""
  | None => ""
  end.

Section WaitFor.

Variable func : nat -> behaviour.
Variable params : wait_params.
Variable timeout : nat.

(** [execute] of [waitFor] (lines 670-690): arms the poll timer and a
    deadline timer. *)
Definition wait_execute (st : loop) : loop :=
  arm timeout Deadline (arm delay Poll st).

(** The function handed to [func] (lines 672-679). *)
Definition report (done : bool) (st : loop) : loop :=
  let st := set_isDone done st in
  if done && negb (isTimeoutExceeded st)
  then invoke_callback (Callback None VSelf) st
  else if negb (isTimeoutExceeded st) then wait_execute st
  else st.

(** The deadline timer's function (lines 681-689). *)
Definition deadline (st : loop) : loop :=
  if negb (isDone st) then
    invoke_callback
      (Callback (if wp_noError params then None
                 else Some (PlainError (timeout_message timeout params)))
                VUndefined)
      (set_isTimeoutExceeded st)
  else st.

Definition fire (e : event) (st : loop) : loop :=
  match e with
  | Poll =>
      let st' := count_attempt st in
      match func (attempts st) with
      | Reports O done => report done st'
      | Reports after done => arm after (Report done) st'
      | Fails O err => invoke_callback (Callback (Some err) VUndefined) st'
      | Fails after err => arm after (Failure err) st'
      | Crashes e => crash e st'
      | Silent => st'
      end
  | Deadline => deadline st
  | Report done => report done st
  | Failure err => invoke_callback (Callback (Some err) VUndefined) st
  end.

(** The event loop: fires what is due first until nothing is pending. *)
Fixpoint run (fuel : nat) (st : loop) : option loop :=
  match fuel with
  | O => None
  | S fuel' =>
      match queue st with
      | [] => Some st
      | (t, e) :: q =>
          run fuel'
            (fire e {| now := t; queue := q; isDone := isDone st;
                       isTimeoutExceeded := isTimeoutExceeded st;
                       attempts := attempts st; calls := calls st |})
      end
  end.

End WaitFor.

(** [params.timeout || self.timeouts.waitFor], as the delay the deadline
    timer is armed with and the number the timeout message shows. The two
    are this one number when the value in force is a whole number of
    milliseconds from 1 to 2^31-1 ([numeric_timeout] below); any other
    value the timer clamps to 1 ms, while the message shows it as it
    is. *)
Definition wait_timeout (self : WebDriver) (params : wait_params) : nat :=
  match wp_timeout params with
  | Some (S t) => S t
  | _ =>
      match assoc "waitFor" (timeouts self) with
      | Some (JNum n) => Z.to_nat n
      | _ => 0
      end
  end.

(** The timeout in force is [n] ms, a delay the timer takes as it is:
    [params.timeout] when that is given and positive, else the number
    under [waitFor] in the driver's timeouts table. *)
Definition numeric_timeout (self : WebDriver) (params : wait_params)
           (n : nat) : Prop :=
  (1 <= Z.of_nat n <= 2147483647)%Z /\
  match wp_timeout params with
  | Some (S t) => n = S t
  | _ => assoc "waitFor" (timeouts self) = Some (JNum (Z.of_nat n))
  end.

Definition idle : loop :=
  {| now := 0; queue := []; isDone := false; isTimeoutExceeded := false;
     attempts := 0; calls := [] |}.

(** [WebDriver.prototype.waitFor]: every invocation of [callback], with
    its time, in order; [None] is "fuel exhausted". *)
Definition waitFor (self : WebDriver) (func : nat -> behaviour)
           (params : wait_params) (fuel : nat) : option (list (nat * outcome)) :=
  let timeout := wait_timeout self params in
  option_map (fun st => rev (calls st))
             (run func params timeout fuel (wait_execute timeout idle)).

(** [WebDriver.prototype.getUrl]. *)
Definition getUrl_params : cmd_params :=
  {| path := "/url"; method := Some "GET"; data := None; resNeeded := false |}.

Definition getUrl (P : platform) (net : transport) (self : WebDriver)
           (sent : list request) : list request * outcome :=
  _cmd P net self getUrl_params sent.

(** The predicate [waitForUrlChange] polls with (lines 572-581): its
    [k]-th call issues the [k]-th [getUrl]; [latency k] is the time that
    request takes. *)
Definition url_predicate (P : platform) (net : transport) (self : WebDriver)
           (oldUrl newUrl : url_pattern) (latency : nat -> nat)
           (sent : list request) (k : nat) : behaviour :=
  match snd (getUrl P net self
               (repeat (build_request P self getUrl_params) k ++ sent)) with
  | Callback (Some err) _ => Fails (latency k) err
  | Callback None (VJson (JStr url)) =>
      Reports (latency k) (url_changed oldUrl newUrl (strip_query url))
  | Callback None _ => Crashes (TypeError "url.replace is not a function")
  | Throw e => Crashes e
  | Unanswered => Silent
  end.

(** [WebDriver.prototype.waitForUrlChange]. The timeout handed on is
    [timeouts.waitForUrlChange] when that is a number of milliseconds. *)
Definition waitForUrlChange (P : platform) (net : transport) (self : WebDriver)
           (oldUrl newUrl : url_pattern) (latency : nat -> nat)
           (sent : list request) (fuel : nat)
  : option (list (nat * outcome)) :=
  if negb (url_truthy oldUrl) && negb (url_truthy newUrl) then
    Some [(0, Callback (Some (PlainError "Both of new and old url can`t be falsy."))
                       VUndefined)]
  else
    waitFor self (url_predicate P net self oldUrl newUrl latency sent)
      {| wp_timeout :=
           match assoc "waitForUrlChange" (timeouts self) with
           | Some (JNum n) => Some (Z.to_nat n)
           | _ => None
           end;
         wp_noError := false;
         wp_errorMessage :=
           Some ("waiting for url change" ++
                 (if url_truthy oldUrl then " from " ++ url_text oldUrl else "") ++
                 (if url_truthy newUrl then " to " ++ url_text newUrl else "")) |}
      fuel.

(** ** The remote end *)

(** The snippets [jqueryGetElementIds] injects run in the browser; the
    page is what they see there. Elements are named by the identifiers
    the remote end gives them on the wire. *)

(** What the variable [elements] of [___nwdJqGetElements] holds: a
    selection of the library, or any other value a function of the
    library returned ([attr] returns a string, [index] a number, ...),
    described by its JSON form; [None] is [undefined]. *)
Inductive jq_value : Type :=
| Selected (elements : list json)
| Plain (v : option json).

(** What [elements[func]] is: absent or falsy; a truthy value that is no
    function (such as [length] of a non-empty selection); or a function,
    applied to the argument array and to [elements] as [this] ([None]:
    the function raises). *)
Inductive jq_property : Type :=
| PMissing
| PData
| PMethod (f : list json -> jq_value -> option jq_value).

(** The page: whether the library and the selection function are
    installed, what [$(selector, parent)] selects, and the members of a
    value: those of the selection library on a selection, those of the
    language on any other value ([substr] on a string, ...). *)
Record page : Type := {
  window_jquery : bool;
  window_getElements : bool;
  jq_select : string -> json -> list json;
  jq_member : jq_value -> string -> jq_property
}.

Inductive script_result : Type :=
| Returns (j : json)
| Raises (message : string).

(** The inner [$.each(object, ...)] of lines 271-275: the last key of
    the step and its value; [null] for both on an empty object. *)
Definition step_func (step : chain_step) : string :=
  match rev step with
  | (key, _) :: _ => key
  | [] => "null"
  end.

Definition step_args (step : chain_step) : list json :=
  match rev step with
  | (_, JArr args) :: _ => args
  | (_, args) :: _ => [args]
  | [] => [JNull]
  end.

(** [undefined] and [null] have no members: reading one raises. *)
Definition nullish (v : jq_value) : bool :=
  match v with
  | Plain None => true
  | Plain (Some JNull) => true
  | _ => false
  end.

(** The outer [$.each(chain, ...)] of lines 268-282: each step looks its
    function up on what the step before returned. *)
Fixpoint apply_chain (pg : page) (steps : list chain_step)
         (elements : jq_value) : jq_value + string :=
  match steps with
  | [] => inl elements
  | step :: rest =>
      if nullish elements
      then inr ("TypeError: Cannot read property '" ++ step_func step ++ "'")
      else
        match jq_member pg elements (step_func step) with
        | PMissing => inr ("Unknown jquery method: " ++ step_func step)
        | PData => inr "TypeError: elements[func].apply is not a function"
        | PMethod f =>
            match f (step_args step) elements with
            | Some elements' => apply_chain pg rest elements'
            | None => inr ("Error in jquery method: " ++ step_func step)
            end
        end
  end.

Definition element_ref (id : json) : json := JObj [("ELEMENT", id)].

(** [elements && elements.length] as a condition. *)
Definition has_length (v : jq_value) : bool :=
  match v with
  | Selected elements => match elements with [] => false | _ => true end
  | Plain (Some (JStr s)) => str_truthy s
  | Plain (Some (JArr items)) => match items with [] => false | _ => true end
  | Plain (Some (JObj fields)) => truthy_opt (assoc "length" fields)
  | Plain _ => false
  end.

(** [___nwdJqGetElements(selector, parent, chain)] (lines 263-285). The
    last line asks a value with a truthy [length] for its [get()]; only
    a selection has that function. *)
Definition ___nwdJqGetElements (pg : page) (selector : string) (parent' : json)
           (chain' : option (list chain_step)) : script_result :=
  let elements := jq_select pg selector parent' in
  let traversed :=
    match elements, chain' with
    | _ :: _, Some steps => apply_chain pg steps (Selected elements)
    | _, _ => inl (Selected elements)
    end in
  match traversed with
  | inl (Selected elements') => Returns (JArr (map element_ref elements'))
  | inl (Plain v) =>
      if has_length (Plain v)
      then Raises "TypeError: elements.get is not a function"
      else Returns (JArr [])
  | inr message => Raises message
  end.

(** The snippet of lines 296-305, run after the text [inj] stands for. *)
Definition select_snippet (inj : injection) (pg : page) (selector : string)
           (params : selector_params) : script_result :=
  let declares_jquery :=
    match inj with JqueryAndGetElementsInjection => true | _ => false end in
  let declares_getElements :=
    match inj with Bare => false | _ => true end in
  if negb (window_jquery pg) && negb declares_jquery
  then Returns (JStr "needJquery")
  else if negb (window_getElements pg) && negb declares_getElements
  then Returns (JStr "needFunc")
  else ___nwdJqGetElements pg selector (parent_arg params) (chain params).

(** Modelled from the spec: the remote end is an external collaborator
    with the wire protocol as its contract. A script's value comes back
    under status 0; a script that raises is status 17; a find-element
    command with no match is status 7 ("no such element"); a
    find-elements command answers the list of matches under status 0. *)
Definition remote_execute (r : script_result) : json :=
  match r with
  | Returns j => JObj [("status", JNum 0); ("value", j)]
  | Raises message =>
      JObj [("status", JNum 17); ("value", JObj [("message", JStr message)])]
  end.

(** Modelled from the spec: the remote end's answer to the find-element
    ([single]) and find-elements commands, for the matches [found]. *)
Definition remote_find (single : bool) (found : list json) : json :=
  if single then
    match found with
    | [] => JObj [("status", JNum 7);
                  ("value", JObj [("message", JStr "no such element")])]
    | id :: _ => JObj [("status", JNum 0); ("value", element_ref id)]
    end
  else JObj [("status", JNum 0); ("value", JArr (map element_ref found))].

(** The transport's outcome is a response whose body parses to
    [envelope]. *)
Definition replies (P : platform) (r : http_result) (envelope : json) : Prop :=
  exists res, r = HttpResponse res /\ JSON_parse P (body_text res) = inl envelope.

(** The command [jqueryGetElementIds] issues through [execute] for the
    injection [inj]. *)
Definition select_command (P : platform) (inj : injection)
           (selector : string) (params : selector_params) : cmd_params :=
  {| path := "/execute";
     method := Some "POST";
     data := Some (JObj [("script",
                          JStr (injection_text P inj ++ selectSnippet P));
                         ("args", JArr (select_args selector params))]);
     resNeeded := false |}.

Definition select_request (P : platform) (self : WebDriver) (inj : injection)
           (selector : string) (params : selector_params) : request :=
  build_request P self (select_command P inj selector params).

(** The remote end runs the selection snippet as written: whatever was
    issued before, the request carrying [inj] is answered with what the
    snippet yields on the page as it is at that moment. *)
Definition runs_select_snippet (P : platform) (net : transport)
           (self : WebDriver) (selector : string) (params : selector_params)
           (pages : list request -> page) : Prop :=
  forall sent inj,
    replies P (net (select_request P self inj selector params :: sent))
            (remote_execute (select_snippet inj (pages sent) selector params)).

(** The same, except that any request may also fail: in the transport,
    with a body that does not parse, or with a protocol error. *)
Definition runs_select_snippet_or_fails (P : platform) (net : transport)
           (self : WebDriver) (selector : string) (params : selector_params)
           (pages : list request -> page) : Prop :=
  forall sent inj,
    (exists e v,
        handle_response P (select_command P inj selector params)
          (net (select_request P self inj selector params :: sent)) =
        Callback (Some e) v) \/
    replies P (net (select_request P self inj selector params :: sent))
            (remote_execute (select_snippet inj (pages sent) selector params)).

(** The remote end answers the find command for [params] as for a
    selector with the matches [found]. *)
Definition runs_find (P : platform) (net : transport) (self : WebDriver)
           (selector : string) (params : selector_params)
           (sent : list request) (found : list json) : Prop :=
  replies P
    (net (build_request P self (find_params self selector params) :: sent))
    (remote_find (isSingle params) found).

(** ** A stub platform and stub servers

    Concrete inputs on which the development is exercised: [JSON.stringify]
    on strings free of control characters, [JSON.parse] on the finitely
    many bodies a stub server sends, and servers that answer by table. *)

Fixpoint escape (s : string) : string :=
  match s with
  | EmptyString => EmptyString
  | String c rest =>
      if Ascii.eqb c (ascii_of_nat 34) || Ascii.eqb c (ascii_of_nat 92)
      then String (ascii_of_nat 92) (String c (escape rest))
      else String c (escape rest)
  end.

Definition quoted (s : string) : string := dquote ++ escape s ++ dquote.

Fixpoint stringify (j : json) : string :=
  match j with
  | JNull => "null"
  | JBool b => if b then "true" else "false"
  | JNum n => NilZero.string_of_int (Z.to_int n)
  | JStr s => quoted s
  | JArr items =>
      "[" ++
      (fix join (l : list json) : string :=
         match l with
         | [] => ""
         | x :: tl =>
             stringify x ++ (match tl with [] => "" | _ => "," ++ join tl end)
         end) items ++ "]"
  | JObj fields =>
      "{" ++
      (fix join (l : list (string * json)) : string :=
         match l with
         | [] => ""
         | (k, v) :: tl =>
             quoted k ++ ":" ++ stringify v ++
             (match tl with [] => "" | _ => "," ++ join tl end)
         end) fields ++ "}"
  end.

(** [JSON.parse] on the bodies [stringify] makes of [envelopes]; any other
    text is a syntax error. *)
Definition parse_table (envelopes : list json) (text : string) : json + string :=
  match assoc text (map (fun j => (stringify j, j)) envelopes) with
  | Some j => inl j
  | None => inr "Unexpected token"
  end.

Definition stub_platform (envelopes : list json) : platform :=
  {| JSON_parse := parse_table envelopes;
     JSON_stringify := stringify;
     jqueryInjection := "function ___nwdJquery() {/* jquery.min.js */}";
     jqueryGetElementsInjection := "function ___nwdJqGetElements() {/* ... */}";
     selectSnippet := "return ___nwdJqGetElements(arguments[0], arguments[1], arguments[2]);" |}.

Definition answer (envelope : json) : http_result :=
  HttpResponse {| headers := []; body := stringify envelope |}.

Definition connection_refused : error := PlainError "connect ECONNREFUSED".

(** A server that answers the latest request by the first entry of
    [table] with the same path and body, and refuses any other. *)
Definition request_matches (r1 r2 : request) : bool :=
  String.eqb (req_path r1) (req_path r2) &&
  match req_data r1, req_data r2 with
  | Some a, Some b => String.eqb a b
  | None, None => true
  | _, _ => false
  end.

Fixpoint lookup_request (req : request) (table : list (request * http_result))
  : http_result :=
  match table with
  | [] => HttpError connection_refused
  | (r, a) :: tl => if request_matches req r then a else lookup_request req tl
  end.

Definition table_server (table : list (request * http_result)) : transport :=
  fun sent =>
    match sent with
    | req :: _ => lookup_request req table
    | [] => HttpError connection_refused
    end.

Definition injections : list injection :=
  [Bare; GetElementsInjection; JqueryAndGetElementsInjection].

(** The envelopes a browser showing [pg] answers the selection snippet
    with, one per injection. *)
Definition snippet_envelopes (pg : page) (selector : string)
           (params : selector_params) : list json :=
  map (fun inj => remote_execute (select_snippet inj pg selector params))
      injections.

(** A browser that shows the page [pg] throughout. *)
Definition browser (P : platform) (pg : page) (self : WebDriver)
           (selector : string) (params : selector_params) : transport :=
  table_server
    (map (fun inj =>
            (select_request P self inj selector params,
             answer (remote_execute (select_snippet inj pg selector params))))
         injections).

(** ** The unwrapping rule, as the specification words it *)

(** [v] is a payload to hand over: not [null], and an array, or no plain
    object, or a plain object with at least one key. *)
Definition real_value (v : json) : Prop :=
  v <> JNull /\
  ((exists items, v = JArr items) \/
   (forall fields, v <> JObj fields) \/
   (exists fields, v = JObj fields /\ fields <> [])).

(** The [value] field is absent, [null], or an empty plain object. *)
Definition no_value (field : option json) : Prop :=
  field = None \/ field = Some JNull \/ field = Some (JObj []).

(** ** The bootstrap sequences of the jquery strategy *)

(** The injections of the successive executions of one resolution, in
    the order they are issued: bare alone; bare and, on [needJquery], both
    pieces; bare and, on [needFunc], the selection function; or bare,
    the selection function on [needFunc] and, on [needJquery] after that,
    both pieces. *)
Definition bootstrap_sequences : list (list injection) :=
  [ [Bare];
    [Bare; JqueryAndGetElementsInjection];
    [Bare; GetElementsInjection];
    [Bare; GetElementsInjection; JqueryAndGetElementsInjection] ].

(** The requests a resolution issues for [injs], latest first. *)
Definition select_requests (P : platform) (self : WebDriver)
           (selector : string) (params : selector_params)
           (injs : list injection) : list request :=
  rev (map (fun inj => select_request P self inj selector params) injs).

(** What the resolution passes on once the snippet has run the selection
    function: the selection's elements, or status 17 if it raised. *)
Definition settle (selector : string) (params : selector_params)
           (r : script_result) : outcome :=
  match r with
  | Returns (JArr items) => on_elements selector params items
  | Returns _ => Throw (TypeError "elements.map is not a function")
  | Raises _ => Callback (Some (StatusError (JNum 17) [])) VUndefined
  end.

(** What the selection function does on the page as it is after the
    requests [sent]. *)
Definition selected_on (pages : list request -> page) (selector : string)
           (params : selector_params) (sent : list request) : script_result :=
  ___nwdJqGetElements (pages sent) selector (parent_arg params) (chain params).

(** [select_request], with the injection last. *)
Definition request_for (P : platform) (self : WebDriver) (selector : string)
           (params : selector_params) (inj : injection) : request :=
  select_request P self inj selector params.

(** How a resolution ends: with what the selection function did on the
    page of some execution, or with the error of a request that failed. *)
Definition settled (P : platform) (net : transport) (self : WebDriver)
           (selector : string) (params : selector_params)
           (pages : list request -> page) (o : outcome) : Prop :=
  (exists last_sent,
      o = settle selector params (selected_on pages selector params last_sent)) \/
  (exists e v inj sent',
      handle_response P (select_command P inj selector params)
        (net (select_request P self inj selector params :: sent')) =
      Callback (Some e) v /\
      o = Callback (Some e) VUndefined).

(** ** The installation sequence, as the specification words it *)

(** The error a command ended with, if it did. *)
Definition failure_of (o : outcome) : option error :=
  match o with
  | Callback (Some e) _ => Some e
  | _ => None
  end.

(** The sentinel a run of the snippet answered, if it answered one. *)
Definition answer_sentinel (r : script_result) : option string :=
  match r with
  | Returns (JStr s) => Some s
  | _ => None
  end.

(** What is prepended after the sentinel [s] (line 311). *)
Definition after_sentinel (s : string) : injection :=
  if String.eqb s "needJquery"
  then JqueryAndGetElementsInjection else GetElementsInjection.

(** The source of the piece the sentinel [s] reports missing. *)
Definition missing_piece (P : platform) (s : string) : string :=
  if String.eqb s "needJquery" then jqueryInjection P
  else jqueryGetElementsInjection P.

(** One resolution, in at most three executions: the bare attempt; if
    that answers a sentinel, a second execution with what the sentinel
    asks for prepended; if that answers a sentinel again, a third one
    with both pieces prepended. The execution that answers no sentinel,
    or fails, or comes third, is the last: the resolution ends with the
    error of the failed request, or with what the selection function
    did. *)
Definition installation (P : platform) (net : transport) (self : WebDriver)
           (selector : string) (params : selector_params)
           (pages : list request -> page) (sent : list request)
  : list request * option outcome :=
  let request inj := select_request P self inj selector params in
  let failed inj history :=
    failure_of (handle_response P (select_command P inj selector params)
                                (net (request inj :: history))) in
  let snippet inj history :=
    select_snippet inj (pages history) selector params in
  let last inj history :=
    (request inj :: history,
     Some match failed inj history with
          | Some e => Callback (Some e) VUndefined
          | None => settle selector params (snippet inj history)
          end) in
  match failed Bare sent, answer_sentinel (snippet Bare sent) with
  | None, Some first =>
      let sent1 := request Bare :: sent in
      match failed (after_sentinel first) sent1,
            answer_sentinel (snippet (after_sentinel first) sent1) with
      | None, Some second =>
          last JqueryAndGetElementsInjection
               (request (after_sentinel first) :: sent1)
      | _, _ => last (after_sentinel first) sent1
      end
  | _, _ => last Bare sent
  end.

(** ** Zero matches, as the specification words the results *)

(** The context [_getIds] attaches to its errors. *)
Definition resolution_context (self : WebDriver) (selector : string)
           (params : option selector_params) : context :=
  [("element", JStr selector);
   ("using", JStr (effective_using self (given params)))].

(** A single-result query yields a "no such element" error, or
    [(null, null)] under [noError]; a multi-result query yields
    [(null, [])]. *)
Definition zero_match_results (P : platform) (net : transport)
           (self : WebDriver) (selector : string)
           (params : option selector_params) (fuel : nat)
           (sent : list request) : Prop :=
  (noError (given params) = false ->
   snd (get P net self selector params fuel sent) =
   Some (Callback
           (Some (NoSuchElementError (resolution_context self selector params)))
           (VJson (JBool false)))) /\
  (noError (given params) = true ->
   snd (get P net self selector params fuel sent) =
   Some (Callback None (VJson JNull))) /\
  snd (getList P net self selector params fuel sent) =
  Some (Callback None (VList [])).

(** ** Concrete drivers, pages and servers *)

Definition no_options : driver_options :=
  {| opt_host := None; opt_port := None; opt_method := None;
     opt_desiredCapabilities := []; opt_defaults_using := None;
     opt_timeouts := [] |}.

(** A driver as [new WebDriver()] makes it, in session [abc123]. *)
Definition driver_abc123 : WebDriver :=
  set_session (new_WebDriver no_options) (JStr "abc123").

Definition using_jquery : selector_params :=
  {| parent := None; parentId := None; using_ := Some "jquery";
     noError := false; chain := None; isSingle := false |}.

(** A page on which nothing is installed yet, on which every selector
    selects [found], and whose selection library knows [closest] and
    [next], which return a selection, and [attr], which returns a
    string; a string has the function [substr], here returning the empty
    string as [substr(0, 0)] does. *)
Definition fresh_page (found : list json) : page :=
  {| window_jquery := false;
     window_getElements := false;
     jq_select := fun _ _ => found;
     jq_member := fun elements name =>
       match elements with
       | Selected selection =>
           if String.eqb name "closest" || String.eqb name "next"
           then PMethod (fun _ this => Some this)
           else if String.eqb name "attr"
           then PMethod (fun _ _ => Some (Plain (Some (JStr "top_search_form"))))
           else if String.eqb name "length"
           then match selection with [] => PMissing | _ => PData end
           else PMissing
       | Plain (Some (JStr s)) =>
           if String.eqb name "substr"
           then PMethod (fun _ _ => Some (Plain (Some (JStr ""))))
           else if String.eqb name "length"
           then if str_truthy s then PData else PMissing
           else PMissing
       | Plain _ => PMissing
       end |}.

(** A server on which no selector of the native strategy matches. *)
Definition empty_document (P : platform) (self : WebDriver)
           (selector : string) (params : selector_params) : transport :=
  table_server
    (map (fun single =>
            (build_request P self
               (find_params self selector
                  (normalize self (with_isSingle single params))),
             answer (remote_find single [])))
         [true; false]).

(** ** Unknown traversal operations *)








(** ** Polling: a predicate that is never satisfied *)

Definition never_ready (k : nat) : behaviour := Reports 0 false.

Definition wait_50ms : wait_params :=
  {| wp_timeout := Some 50; wp_noError := false; wp_errorMessage := None |}.

Definition timed_out_50ms : outcome :=
  Callback (Some (PlainError "Timeout (50 ms) exceeded")) VUndefined.

(** ** A concrete element surface *)

(** Objects are selector params; nothing else is. *)
Definition objects_are_params (a : arg) : bool :=
  match a with
  | AObject _ => true
  | _ => false
  end.

(** A prototype with [getValue(callback)], which answers [patrik], and
    the internal [_cmd]. *)
Definition sample_prototype : list (string * (value -> list arg -> comp)) :=
  [("getValue",
    fun _ args => call (last args AUndefined) None (VJson (JStr "patrik")));
   ("_cmd", fun _ _ => throw (PlainError "internal"))].

(** A callback that hands its arguments back. *)
Definition finish : option error -> value -> comp :=
  fun err v sent => (sent, Some (Callback err v)).

(** ** Session set-up, as the specification words it *)

(** Everything of the driver but its timeouts table. *)
Definition same_session (a b : WebDriver) : Prop :=
  requestParams a = requestParams b /\
  sessionBasePath a = sessionBasePath b /\
  sessionId a = sessionId b /\
  desiredCapabilities a = desiredCapabilities b /\
  defaults_using a = defaults_using b /\
  _protocolTimeoutsHash a = _protocolTimeoutsHash b.

(** The driver, the requests and the callback invocations of a run of
    [init]. *)
Definition init_driver (x : WebDriver * list request * list outcome)
  : WebDriver := fst (fst x).
Definition init_sent (x : WebDriver * list request * list outcome)
  : list request := snd (fst x).
Definition init_calls (x : WebDriver * list request * list outcome)
  : list outcome := snd x.

Definition with_method (m : string) : driver_options :=
  {| opt_host := None; opt_port := None; opt_method := Some m;
     opt_desiredCapabilities := []; opt_defaults_using := None;
     opt_timeouts := [] |}.

(** A server that creates a session and names it in the [Location]
    header only, and accepts every other command. *)
Definition created : json := JObj [("status", JNum 0)].

Definition location_server : transport :=
  fun sent =>
    match sent with
    | [_] =>
        HttpResponse
          {| headers := [("location", "http://127.0.0.1:4444/wd/hub/session/abc123")];
             body := stringify created |}
    | _ => answer created
    end.

Definition refusing : transport := fun _ => HttpError connection_refused.

(** ** The URL-change condition, as the specification words it *)





Definition terms_html : string := "file:///fixtures/github/terms.html".

(** A server whose current URL is the terms page, with a query string. *)
Definition on_terms : json :=
  JObj [("status", JNum 0); ("value", JStr (terms_html ++ "?x=1"))].



(** ** Characters of a string *)

(** [c] occurs in [s]. *)
Fixpoint occurs (c : ascii) (s : string) : bool :=
  match s with
  | EmptyString => false
  | String a rest => Ascii.eqb a c || occurs c rest
  end.

(** ** [waitForElementAbsent] *)

(** [utils.extend({noError: true}, params)]: the fields of [params], with
    [noError] defaulting to [true]. [own_noError] tells whether [params]
    has a [noError] property of its own, which then wins. *)
Definition absent_params (params : option selector_params)
           (own_noError : bool) : selector_params :=
  {| parent := parent (given params);
     parentId := parentId (given params);
     using_ := using_ (given params);
     noError := if own_noError then noError (given params) else true;
     chain := chain (given params);
     isSingle := isSingle (given params) |}.

(** [WebDriver.prototype.waitForElementAbsent]. [waitForDisappear] is the
    element's method of that name, applied to the element and the
    callback; it belongs to [WebElement], which is not part of the
    sources at hand. *)
Definition waitForElementAbsent (P : platform) (net : transport)
           (self : WebDriver) (selector : string)
           (params : option selector_params) (own_noError : bool)
           (waitForDisappear : value -> comp) (fuel : nat) : comp :=
  fun sent =>
    match get P net self selector (Some (absent_params params own_noError))
              fuel sent with
    | (sent', Some (Callback (Some err) _)) =>
        (sent', Some (Callback (Some err) VUndefined))
    | (sent', Some (Callback None element)) =>
        if value_truthy element then waitForDisappear element sent'
        else (sent', Some (Callback None VSelf))
    | other => other
    end.

(** [{noError: true}] and [{parent: '#form'}]. *)
Definition just_noError : selector_params :=
  {| parent := None; parentId := None; using_ := None; noError := true;
     chain := None; isSingle := false |}.

Definition string_parent : selector_params :=
  {| parent := Some (VJson (JStr "#form")); parentId := None; using_ := None;
     noError := false; chain := None; isSingle := false |}.

(** ** [getTimeout] *)

(** What [obj[k]] finds on an object literal: a property of its own, a
    member inherited from [Object.prototype], or nothing. *)
Inductive member : Type :=
| Own (j : json)
| FromPrototype
| Missing.

Definition js_get (k : string) (obj : list (string * json)) : member :=
  match assoc k obj with
  | Some j => Own j
  | None => if inherited k then FromPrototype else Missing
  end.

(** [WebDriver.prototype.getTimeout]. *)
Definition getTimeout (self : WebDriver) (type : string) : member :=
  js_get type (timeouts self).

(** No invocation with a null error: not a report of success. *)
Definition no_success (calls : list outcome) : Prop :=
  Forall (fun o => forall v, o <> Callback None v) calls.

(** The remote end accepts every command: whatever was sent, the response
    handler finds a response without error. *)
Definition accepts_everything (P : platform) (net : transport) : Prop :=
  forall sent params, exists v,
    handle_response P params (net sent) = Callback None v.

(** ** Invariant of the polling engine *)

(** The predicate only ever answers through [waitcb], or not at all. *)
Definition answers_through_waitcb (func : nat -> behaviour) : Prop :=
  forall k, match func k with
            | Reports _ _ | Silent => True
            | Fails _ _ | Crashes _ => False
            end.

(** Polls under way: poll timers armed and answers of [func] awaited. *)
Fixpoint pending (q : list (nat * event)) : nat :=
  match q with
  | [] => 0
  | (_, Poll) :: tl | (_, Report _) :: tl => S (pending tl)
  | _ :: tl => pending tl
  end.

Definition no_failure_pending (q : list (nat * event)) : Prop :=
  Forall (fun te => forall err, snd te <> Failure err) q.

(** An invocation by the deadline timer: an error or [null], and nothing
    else. *)
Definition by_deadline (call : nat * outcome) : Prop :=
  exists err, snd call = Callback err VUndefined.

(** What every state of one [waitFor] satisfies: at most one poll is under
    way, and the callback either was not invoked yet (and the deadline has
    not passed); or was invoked once, with success, after which no poll is
    under way; or was invoked by deadline timers only. *)
Definition polling_invariant (st : loop) : Prop :=
  pending (queue st) <= 1 /\
  no_failure_pending (queue st) /\
  ((calls st = [] /\ isTimeoutExceeded st = false) \/
   (exists t, calls st = [(t, Callback None VSelf)] /\
              isDone st = true /\ pending (queue st) = 0) \/
   (isTimeoutExceeded st = true /\ Forall by_deadline (calls st))).

(** ** [waitForRedirect], [getCookie] *)

(** [WebDriver.prototype.waitForRedirect]. *)
Definition waitForRedirect (P : platform) (net : transport) (self : WebDriver)
           (newUrl : url_pattern) (latency : nat -> nat)
           (sent : list request) (fuel : nat)
  : option (list (nat * outcome)) :=
  waitForUrlChange P net self (UrlString "") newUrl latency sent fuel.

(** The command of [getCookie] for [name], with the method to use. *)
Definition cookie_params (name : option string) (method' : string)
  : cmd_params :=
  {| path := match name with
             | Some n => if str_truthy n then "/cookie/" ++ n else "/cookie"
             | None => "/cookie"
             end;
     method := Some method';
     data := None;
     resNeeded := false |}.

(** [WebDriver.prototype.getCookie]: it passes no callback to [_cmd], so
    where [_cmd] would invoke its callback, calling [undefined] raises. *)
Definition getCookie (P : platform) (net : transport) (self : WebDriver)
           (name : option string) (sent : list request)
  : list request * outcome :=
  let '(sent', r) := _cmd P net self (cookie_params name "GET") sent in
  (sent',
   match r with
   | Callback _ _ => Throw (TypeError "callback is not a function")
   | other => other
   end).

(** ** The retry loop of [waitForElement] *)

(** [params] as a call of [get] leaves the object it was given. *)
Definition after_get (self : WebDriver) (params : selector_params)
  : selector_params :=
  normalize self (with_isSingle true params).

(** How one call of the predicate of [waitForElement] ends: it calls
    [waitCallback(done)], or it calls the outer callback itself, or an
    exception escapes. *)
Inductive poll_answer : Type :=
| WaitCallback (done : bool)
| OuterCallback (err : error)
| Escapes (o : outcome).

(** [getElement] of [waitForElement] (lines 520-532): it calls [get] and,
    on "no such element", itself again at once. [n] bounds the number of
    calls; [None] is "not finished within [n] calls". *)
Fixpoint getElement (P : platform) (net : transport) (self : WebDriver)
         (selector : string) (params : selector_params) (fuel : nat)
         (n : nat) (sent : list request)
  : list request * option poll_answer :=
  match n with
  | O => (sent, None)
  | S n' =>
      match get P net self selector (Some params) fuel sent with
      | (sent', Some (Callback (Some err) _)) =>
          if is_NoSuchElementError err
          then getElement P net self selector (after_get self params) fuel n'
                          sent'
          else (sent', Some (OuterCallback err))
      | (sent', Some (Callback None element)) =>
          (sent', Some (WaitCallback (value_truthy element)))
      | (sent', Some other) => (sent', Some (Escapes other))
      | (sent', None) => (sent', None)
      end
  end.

(** ** [waitForDocumentReady] *)

(** [String(v)], as string concatenation applies it. *)
Definition value_text (v : value) : string :=
  match v with
  | VJson j => js_toString j
  | VUndefined => "undefined"
  | _ => "[object Object]"
  end.

(** The command of [waitForDocumentReady]: an asynchronous script, the
    snippet of lines 610-628 (its text is [readySnippet]) with
    [jqueryInjection] prepended or not, and [timeouts.waitFor] as its
    argument. *)
Definition ready_command (P : platform) (self : WebDriver)
           (readySnippet : string) (addInjection : bool) : cmd_params :=
  {| path := "/execute_async";
     method := Some "POST";
     data := Some (JObj [("script",
                          JStr ((if addInjection then jqueryInjection P else "")
                                ++ readySnippet));
                         ("args",
                          JArr [match assoc "waitFor" (timeouts self) with
                                | Some j => j
                                | None => JNull
                                end])]);
     resNeeded := false |}.

(** [result === 'needJquery']. *)
Definition is_needJquery (result : value) : bool :=
  match result with
  | VJson (JStr s) => String.eqb s "needJquery"
  | _ => false
  end.

(** What the callback gets for any other result (lines 636-645). *)
Definition ready_outcome (result : value) : outcome :=
  match result with
  | VJson (JBool true) => Callback None VSelf
  | VJson (JBool false) =>
      Callback
        (Some (PlainError "Timeout exceeded while waiting for document ready"))
        VUndefined
  | _ =>
      Callback
        (Some (PlainError
                 ("Unexpected result while waiting for document ready: "
                  ++ value_text result)))
        VUndefined
  end.

(** [execute] of [waitForDocumentReady] (lines 608-649), which calls
    itself on [needJquery]. [None] is "fuel exhausted". *)
Fixpoint ready_execute (P : platform) (net : transport) (self : WebDriver)
         (readySnippet : string) (fuel : nat) (addInjection : bool)
         (sent : list request) : list request * option outcome :=
  match fuel with
  | O => (sent, None)
  | S fuel' =>
      let '(sent', r) :=
        _cmd P net self (ready_command P self readySnippet addInjection) sent in
      match r with
      | Callback (Some err) _ => (sent', Some (Callback (Some err) VUndefined))
      | Callback None result =>
          if is_needJquery result
          then ready_execute P net self readySnippet fuel' true sent'
          else (sent', Some (ready_outcome result))
      | other => (sent', Some other)
      end
  end.

(** [WebDriver.prototype.waitForDocumentReady]. *)
Definition waitForDocumentReady (P : platform) (net : transport)
           (self : WebDriver) (readySnippet : string) (fuel : nat)
           (sent : list request) : list request * option outcome :=
  ready_execute P net self readySnippet fuel false sent.

(** What the snippet of lines 610-628 hands to the script's callback
    first, on a page where [window.___nwdJquery] is a function or not and
    where the document gets ready within the timeout or not. *)
Definition ready_snippet (injected has_jquery ready_in_time : bool) : json :=
  if negb has_jquery && negb injected then JStr "needJquery"
  else JBool ready_in_time.

(** The remote end runs that snippet as written, on a page that may
    change between executions; any request may also fail. *)
Definition runs_ready_snippet_or_fails (P : platform) (net : transport)
           (self : WebDriver) (readySnippet : string)
           (pages : list request -> bool * bool) : Prop :=
  forall sent injected,
    (exists e v,
        handle_response P (ready_command P self readySnippet injected)
          (net (build_request P self
                  (ready_command P self readySnippet injected) :: sent)) =
        Callback (Some e) v) \/
    replies P
      (net (build_request P self
              (ready_command P self readySnippet injected) :: sent))
      (remote_execute
         (Returns (ready_snippet injected (fst (pages sent))
                                 (snd (pages sent))))).

(** What the callback gets when the snippet tells whether the document
    got ready in time. *)
Definition ready_report (ready_in_time : bool) : outcome :=
  if ready_in_time then Callback None VSelf
  else Callback
         (Some (PlainError "Timeout exceeded while waiting for document ready"))
         VUndefined.

(** A browser whose page lacks the library and is ready in time. *)
Definition ready_browser (P : platform) (self : WebDriver)
           (readySnippet : string) : transport :=
  table_server
    (map (fun injected =>
            (build_request P self (ready_command P self readySnippet injected),
             answer (remote_execute
                       (Returns (ready_snippet injected false true)))))
         [false; true]).

(** * Properties *)

(** ** The timeout in force *)

Lemma wait_timeout_numeric (self : WebDriver) (params : wait_params)
      (n : nat) :
  numeric_timeout self params n -> wait_timeout self params = n.
Proof.
  unfold numeric_timeout, wait_timeout. intros [_ H].
  destruct (wp_timeout params) as [[| t] |].
  - rewrite H. apply Nat2Z.id.
  - symmetry. exact H.
  - rewrite H. apply Nat2Z.id.
Qed.

(** ** The embedding at work *)

Example strip_drops_nul :
  _strip (String Ascii.zero "{}" ++ String Ascii.zero "") = "{}".
Proof. reflexivity. Qed.

Example sweeten_visible :
  sweetenCssSelector "a:visible" =
  "a:not(" ++ style_has "display:none" ++ "):not(" ++
  style_has "display: none" ++ ")".
Proof. reflexivity. Qed.

Example last_part_of_location :
  last_part "http://127.0.0.1:4444/wd/hub/session/abc123" "" = "abc123".
Proof. reflexivity. Qed.

Example strip_query_of_terms :
  strip_query (terms_html ++ "?x=1") = terms_html.
Proof. reflexivity. Qed.

Example constructor_is_inherited :
  js_in "constructor" (_protocolTimeoutsHash driver_abc123) = true /\
  js_in "waitFor" (_protocolTimeoutsHash driver_abc123) = false /\
  js_in "script" (_protocolTimeoutsHash driver_abc123) = true.
Proof. repeat split. Qed.

(** A predicate satisfied on its second poll: one success, at 40 ms. *)
Example waitFor_succeeds_once :
  waitFor driver_abc123 (fun k => Reports 0 (Nat.eqb k 1)) wait_50ms 100 =
  Some [(40, Callback None VSelf)].
Proof. vm_compute. reflexivity. Qed.

(** Resolving [form] with jquery on a fresh page: the bare execution
    answers [needJquery], the second one carries both pieces. *)
Example jquery_get_on_fresh_page :
  snd (get (stub_platform (snippet_envelopes (fresh_page [JNum 5]) "form"
                                             using_jquery))
           (browser (stub_platform (snippet_envelopes (fresh_page [JNum 5])
                                                      "form" using_jquery))
                    (fresh_page [JNum 5]) driver_abc123 "form" using_jquery)
           driver_abc123 "form" (Some using_jquery) 3 []) =
  Some (Callback None (VElement (Some (JNum 5)))).
Proof. vm_compute. reflexivity. Qed.

(** ** Command dispatcher *)

Lemma unwrap_real (v : json) : real_value v -> unwrap (Some v) = VJson v.
Proof.
  intros [Hnull [[items ->] | [Hobj | [fields [-> Hne]]]]].
  - reflexivity.
  - destruct v; try reflexivity; try congruence.
  - destruct fields; [congruence | reflexivity].
Qed.

Lemma unwrap_none (field : option json) : no_value field -> unwrap field = VSelf.
Proof. intros [-> | [-> | ->]]; reflexivity. Qed.

Lemma unwrap_cases (field : option json) :
  (exists v, field = Some v /\ real_value v /\ unwrap field = VJson v) \/
  (no_value field /\ unwrap field = VSelf).
Proof.
  destruct field as [v |]; [| right; split; [left | ]; reflexivity].
  destruct v as [| b | n | s | items | fields].
  - right; split; [right; left |]; reflexivity.
  - left; exists (JBool b); repeat split; try discriminate; right; left; discriminate.
  - left; exists (JNum n); repeat split; try discriminate; right; left; discriminate.
  - left; exists (JStr s); repeat split; try discriminate; right; left; discriminate.
  - left; exists (JArr items); repeat split; try discriminate; left; eauto.
  - destruct fields as [| f fs].
    + right; split; [right; right |]; reflexivity.
    + left; exists (JObj (f :: fs)); repeat split; try discriminate.
      right; right; eexists; split; [reflexivity | discriminate].
Qed.

(** What [_cmd] does with a parsed envelope whose [status] is not truthy. *)
Lemma handle_success (P : platform) (params : cmd_params) (res : response)
      (fields : list (string * json)) :
  JSON_parse P (body_text res) = inl (JObj fields) ->
  truthy_opt (assoc "status" fields) = false ->
  handle_response P params (HttpResponse res) =
  Callback None (if resNeeded params then VRes (headers res) (JObj fields)
                 else unwrap (assoc "value" fields)).
Proof.
  intros Hparse Hstatus. unfold handle_response. rewrite Hparse. cbn.
  rewrite Hstatus. reflexivity.
Qed.

(** What [_cmd] does with a parsed envelope whose [status] is truthy. *)
Lemma handle_status (P : platform) (params : cmd_params) (res : response)
      (fields : list (string * json)) (status : json) :
  JSON_parse P (body_text res) = inl (JObj fields) ->
  assoc "status" fields = Some status ->
  truthy status = true ->
  handle_response P params (HttpResponse res) =
  Callback (Some (StatusError status [])) VUndefined.
Proof.
  intros Hparse Hstatus Htruthy. unfold handle_response. rewrite Hparse. cbn.
  rewrite Hstatus. cbn. rewrite Htruthy. reflexivity.
Qed.

(** C1. A command whose response envelope has status 0: when the
    descriptor asks for the raw envelope, the callback gets the response
    with the envelope; otherwise it gets the [value] field exactly when
    that field is a real value (present, not null, and an array, a
    non-object or a non-empty plain object), and the driver itself exactly
    when the field is absent, null or an empty plain object. *)
Theorem cmd_unwrapping_rule (P : platform) (net : transport) (self : WebDriver)
        (params : cmd_params) (sent : list request) (res : response)
        (fields : list (string * json)) :
  net (build_request P self params :: sent) = HttpResponse res ->
  JSON_parse P (body_text res) = inl (JObj fields) ->
  assoc "status" fields = Some (JNum 0) ->
  let result := snd (_cmd P net self params sent) in
  (resNeeded params = true ->
   result = Callback None (VRes (headers res) (JObj fields))) /\
  (resNeeded params = false ->
   (forall v, (assoc "value" fields = Some v /\ real_value v) <->
              (assoc "value" fields = Some v /\ result = Callback None (VJson v))) /\
   (no_value (assoc "value" fields) <-> result = Callback None VSelf)).
Proof.
  intros Hnet Hparse Hstatus result.
  assert (Hresult : result =
            Callback None (if resNeeded params then VRes (headers res) (JObj fields)
                           else unwrap (assoc "value" fields))).
  { unfold result, _cmd. cbn [snd]. rewrite Hnet.
    apply handle_success; [assumption | rewrite Hstatus; reflexivity]. }
  split; intros Hres; rewrite Hres in Hresult; [assumption |].
  rewrite Hresult.
  destruct (unwrap_cases (assoc "value" fields))
    as [[v [Hv [Hreal Hun]]] | [Hno Hun]]; rewrite Hun.
  - split.
    + intros w; split; intros [Hw Hrest]; split; try assumption.
      * congruence.
      * rewrite Hw in Hv; injection Hv as ->; assumption.
    + split; [| discriminate].
      intros Hno. apply unwrap_none in Hno. congruence.
  - split; [| tauto].
    intros w; split; intros [Hw Hrest]; [| discriminate].
    exfalso. rewrite Hw in Hun. rewrite (unwrap_real w Hrest) in Hun.
    discriminate.
Qed.

Lemma cmd_unwrapping_rule_witness :
  let envelope := JObj [("status", JNum 0); ("value", JArr [])] in
  snd (_cmd (stub_platform [envelope]) (fun _ => answer envelope)
            driver_abc123 getUrl_params []) =
  Callback None (VJson (JArr [])).
Proof.
  intros envelope.
  destruct (cmd_unwrapping_rule
              (stub_platform [envelope]) (fun _ => answer envelope)
              driver_abc123 getUrl_params []
              {| headers := []; body := stringify envelope |}
              [("status", JNum 0); ("value", JArr [])]
              eq_refl eq_refl eq_refl) as [_ Hvalue].
  destruct (Hvalue eq_refl) as [Hreal _].
  apply (Hreal (JArr [])). split; [reflexivity |].
  split; [discriminate | left; exists []; reflexivity].
Defined.

(** ** Script-injection strategy *)

Lemma replies_returns (P : platform) (params : cmd_params) (r : http_result)
      (j : json) :
  replies P r (remote_execute (Returns j)) ->
  resNeeded params = false ->
  handle_response P params r = Callback None (unwrap (Some j)).
Proof.
  intros [res [-> Hparse]] Hraw.
  rewrite (handle_success P params res _ Hparse eq_refl), Hraw. reflexivity.
Qed.

Lemma replies_raises (P : platform) (params : cmd_params) (r : http_result)
      (message : string) :
  replies P r (remote_execute (Raises message)) ->
  handle_response P params r =
  Callback (Some (StatusError (JNum 17) [])) VUndefined.
Proof.
  intros [res [-> Hparse]].
  apply (handle_status P params res _ (JNum 17) Hparse); reflexivity.
Qed.

Lemma map_ELEMENT_refs (ids : list json) :
  map_ELEMENT (map element_ref ids) = Some (map VJson ids).
Proof.
  induction ids as [| id ids IH]; [reflexivity |].
  cbn [map map_ELEMENT element_ref]. rewrite IH. reflexivity.
Qed.

(** The selection function answers an array of element references, or
    raises. *)
Lemma getElements_cases (pg : page) (selector : string) (parent' : json)
      (chain' : option (list chain_step)) :
  (exists ids, ___nwdJqGetElements pg selector parent' chain' =
               Returns (JArr (map element_ref ids))) \/
  (exists message, ___nwdJqGetElements pg selector parent' chain' =
                   Raises message).
Proof.
  unfold ___nwdJqGetElements.
  destruct (match jq_select pg selector parent' with
            | [] => _
            | _ :: _ => _
            end) as [[ids | v] | message]; [left; eauto | | right; eauto].
  destruct (has_length (Plain v)); [right; eauto |].
  left. exists []. reflexivity.
Qed.

(** What the snippet yields: a sentinel, or what the selection function
    does. *)
Lemma select_snippet_cases (inj : injection) (pg : page) (selector : string)
      (params : selector_params) :
  select_snippet inj pg selector params = Returns (JStr "needJquery") \/
  select_snippet inj pg selector params = Returns (JStr "needFunc") \/
  select_snippet inj pg selector params =
  ___nwdJqGetElements pg selector (parent_arg params) (chain params).
Proof.
  unfold select_snippet.
  destruct (negb (window_jquery pg) && _); [left; reflexivity |].
  destruct (negb (window_getElements pg) && _); [right; left; reflexivity |].
  right; right; reflexivity.
Qed.

Section JqueryBootstrap.

Variable P : platform.
Variable net : transport.
Variable self : WebDriver.
Variable selector : string.
Variable params : selector_params.
Variable pages : list request -> page.

Local Abbreviation selected := (selected_on pages selector params).
Local Abbreviation request_of := (request_for P self selector params).
Local Abbreviation command_of :=
  (fun inj => select_command P inj selector params).

Lemma jquery_execute_step (fuel : nat) (inj : injection) (sent : list request) :
  jquery_execute P net self selector params (S fuel) inj sent =
  match handle_response P (command_of inj) (net (request_of inj :: sent)) with
  | Throw e => (request_of inj :: sent, Some (Throw e))
  | Unanswered => (request_of inj :: sent, Some Unanswered)
  | Callback (Some err) _ =>
      (request_of inj :: sent, Some (Callback (Some err) VUndefined))
  | Callback None (VJson (JStr result)) =>
      jquery_execute P net self selector params fuel
        (if String.eqb result "needJquery"
         then JqueryAndGetElementsInjection else GetElementsInjection)
        (request_of inj :: sent)
  | Callback None (VJson (JArr result)) =>
      (request_of inj :: sent, Some (on_elements selector params result))
  | Callback None _ =>
      (request_of inj :: sent,
       Some (Throw (TypeError "elements.map is not a function")))
  end.
Proof. reflexivity. Qed.

Lemma jquery_failed (fuel : nat) (inj : injection) (sent : list request)
      (e : error) (v : value) :
  handle_response P (command_of inj) (net (request_of inj :: sent)) =
  Callback (Some e) v ->
  jquery_execute P net self selector params (S fuel) inj sent =
  (request_of inj :: sent, Some (Callback (Some e) VUndefined)).
Proof. intros He. rewrite jquery_execute_step, He. reflexivity. Qed.

Lemma jquery_sentinel (fuel : nat) (inj : injection) (sent : list request)
      (s : string) :
  replies P (net (request_of inj :: sent))
          (remote_execute (select_snippet inj (pages sent) selector params)) ->
  select_snippet inj (pages sent) selector params = Returns (JStr s) ->
  jquery_execute P net self selector params (S fuel) inj sent =
  jquery_execute P net self selector params fuel
    (if String.eqb s "needJquery"
     then JqueryAndGetElementsInjection else GetElementsInjection)
    (request_of inj :: sent).
Proof.
  intros Hr Hs. rewrite Hs in Hr. rewrite jquery_execute_step.
  erewrite replies_returns; [| exact Hr | reflexivity]. reflexivity.
Qed.

Lemma jquery_selected (fuel : nat) (inj : injection) (sent : list request) :
  replies P (net (request_of inj :: sent))
          (remote_execute (select_snippet inj (pages sent) selector params)) ->
  select_snippet inj (pages sent) selector params = selected sent ->
  jquery_execute P net self selector params (S fuel) inj sent =
  (request_of inj :: sent, Some (settle selector params (selected sent))).
Proof.
  intros Hr Hs. rewrite Hs in Hr. rewrite jquery_execute_step.
  unfold selected_on in *.
  destruct (getElements_cases (pages sent) selector (parent_arg params)
                              (chain params)) as [[ids Hids] | [m Hm]].
  - rewrite Hids in *.
    erewrite replies_returns; [| exact Hr | reflexivity]. reflexivity.
  - rewrite Hm in *. erewrite replies_raises; [| exact Hr]. reflexivity.
Qed.

Hypothesis remote :
  runs_select_snippet_or_fails P net self selector params pages.

(** Three executions are enough, and the injections follow one of the
    bootstrap sequences. *)
Lemma jquery_bootstrap (fuel : nat) (sent : list request) :
  3 <= fuel ->
  exists injs o,
    In injs bootstrap_sequences /\
    settled P net self selector params pages o /\
    jqueryGetElementIds P net self selector params fuel sent =
    ((select_requests P self selector params injs ++ sent)%list, Some o).
Proof.
  intros Hfuel.
  destruct fuel as [| [| [| fuel]]]; try lia. clear Hfuel.
  unfold jqueryGetElementIds, bootstrap_sequences, select_requests, settled.
  destruct (remote sent Bare) as [[e [v He]] | Hr0].
  { exists [Bare]. rewrite (jquery_failed _ _ _ _ _ He). eexists.
    split; [cbn; tauto |]. split; [right; eauto 6 | reflexivity]. }
  destruct (window_jquery (pages sent)) eqn:Hj.
  2:{ (* needJquery at once *)
    rewrite (jquery_sentinel _ Bare sent "needJquery" Hr0)
      by (unfold select_snippet; rewrite Hj; reflexivity).
    rewrite String.eqb_refl.
    exists [Bare; JqueryAndGetElementsInjection].
    destruct (remote (request_of Bare :: sent) JqueryAndGetElementsInjection)
      as [[e [v He]] | Hr1].
    - rewrite (jquery_failed _ _ _ _ _ He). eexists.
      split; [cbn; tauto |]. split; [right; eauto 6 | reflexivity].
    - rewrite (jquery_selected _ _ _ Hr1)
        by (unfold select_snippet, selected_on; cbn; rewrite !andb_false_r;
            reflexivity).
      eexists. split; [cbn; tauto |]. split; [left; eauto | reflexivity]. }
  destruct (window_getElements (pages sent)) eqn:Hg.
  { (* both pieces installed *)
    rewrite (jquery_selected _ _ _ Hr0)
      by (unfold select_snippet; rewrite Hj, Hg; reflexivity).
    exists [Bare]. eexists.
    split; [cbn; tauto |]. split; [left; eauto | reflexivity]. }
  rewrite (jquery_sentinel _ Bare sent "needFunc" Hr0)
    by (unfold select_snippet; rewrite Hj, Hg; reflexivity).
  change (String.eqb "needFunc" "needJquery") with false. cbv iota.
  set (sent1 := request_of Bare :: sent).
  destruct (remote sent1 GetElementsInjection) as [[e [v He]] | Hr1].
  { exists [Bare; GetElementsInjection].
    rewrite (jquery_failed _ _ _ _ _ He). eexists.
    split; [cbn; tauto |]. split; [right; eauto 6 | reflexivity]. }
  destruct (window_jquery (pages sent1)) eqn:Hj1.
  - rewrite (jquery_selected _ _ _ Hr1)
      by (unfold select_snippet, selected_on; rewrite Hj1; cbn;
          rewrite ?andb_false_r; reflexivity).
    exists [Bare; GetElementsInjection]. eexists.
    split; [cbn; tauto |]. split; [left; eauto | reflexivity].
  - rewrite (jquery_sentinel _ GetElementsInjection sent1 "needJquery" Hr1)
      by (unfold select_snippet; rewrite Hj1; reflexivity).
    rewrite String.eqb_refl.
    exists [Bare; GetElementsInjection; JqueryAndGetElementsInjection].
    destruct (remote (request_of GetElementsInjection :: sent1)
                     JqueryAndGetElementsInjection) as [[e [v He]] | Hr2].
    + rewrite (jquery_failed _ _ _ _ _ He). eexists.
      split; [cbn; tauto |]. split; [right; eauto 6 | reflexivity].
    + rewrite (jquery_selected _ _ _ Hr2)
        by (unfold select_snippet, selected_on; cbn; rewrite !andb_false_r;
            reflexivity).
      eexists. split; [cbn; tauto |]. split; [left; eauto | reflexivity].
Qed.

(** What the last execution passes on, in the two ways it can end. *)
Lemma last_execution_failed (inj : injection) (sent : list request)
      (e : error) (v : value) :
  handle_response P (select_command P inj selector params) (net (select_request P self inj selector params :: sent)) =
  Callback (Some e) v ->
  match failure_of (handle_response P (select_command P inj selector params)
                                    (net (select_request P self inj selector params :: sent))) with
  | Some e' => Callback (Some e') VUndefined
  | None => settle selector params
                   (select_snippet inj (pages sent) selector params)
  end = Callback (Some e) VUndefined.
Proof. intros He. rewrite He. reflexivity. Qed.

Lemma last_execution_selected (inj : injection) (sent : list request) :
  replies P (net (select_request P self inj selector params :: sent))
          (remote_execute (select_snippet inj (pages sent) selector params)) ->
  select_snippet inj (pages sent) selector params = selected sent ->
  match failure_of (handle_response P (select_command P inj selector params)
                                    (net (select_request P self inj selector params :: sent))) with
  | Some e' => Callback (Some e') VUndefined
  | None => settle selector params
                   (select_snippet inj (pages sent) selector params)
  end = settle selector params (selected sent).
Proof.
  intros Hr Hs. rewrite Hs in *. unfold selected_on in *.
  destruct (getElements_cases (pages sent) selector (parent_arg params)
                              (chain params)) as [[ids Hids] | [m Hm]].
  - rewrite Hids in *.
    erewrite replies_returns; [| exact Hr | reflexivity]. reflexivity.
  - rewrite Hm in *. erewrite replies_raises; [| exact Hr]. reflexivity.
Qed.

Lemma sentinel_answered (inj : injection) (sent : list request) (s : string) :
  replies P (net (select_request P self inj selector params :: sent))
          (remote_execute (select_snippet inj (pages sent) selector params)) ->
  select_snippet inj (pages sent) selector params = Returns (JStr s) ->
  failure_of (handle_response P (select_command P inj selector params)
                              (net (select_request P self inj selector params :: sent))) = None.
Proof.
  intros Hr Hs. rewrite Hs in Hr.
  erewrite replies_returns; [| exact Hr | reflexivity]. reflexivity.
Qed.

Lemma selection_is_no_sentinel (sent : list request) :
  answer_sentinel (selected sent) = None.
Proof.
  unfold selected_on.
  destruct (getElements_cases (pages sent) selector (parent_arg params)
                              (chain params)) as [[ids ->] | [m ->]];
    reflexivity.
Qed.

(** A resolution is the installation sequence. *)
Lemma resolution_is_installation (fuel : nat) (sent : list request) :
  3 <= fuel ->
  jqueryGetElementIds P net self selector params fuel sent =
  installation P net self selector params pages sent.
Proof.
  intros Hfuel.
  destruct fuel as [| [| [| fuel]]]; try lia. clear Hfuel.
  unfold jqueryGetElementIds, installation. cbv beta zeta.
  destruct (remote sent Bare) as [[e [v He]] | Hr0].
  { rewrite (jquery_failed _ _ _ _ _ He). unfold request_for.
    rewrite (last_execution_failed _ _ _ _ He). rewrite He. reflexivity. }
  destruct (window_jquery (pages sent)) eqn:Hj.
  2:{ (* needJquery at once *)
    assert (Hs : select_snippet Bare (pages sent) selector params =
                 Returns (JStr "needJquery"))
      by (unfold select_snippet; rewrite Hj; reflexivity).
    rewrite (jquery_sentinel _ Bare sent "needJquery" Hr0 Hs). unfold request_for.
    rewrite (sentinel_answered _ _ _ Hr0 Hs). rewrite Hs.
    cbn [answer_sentinel]. unfold after_sentinel. rewrite String.eqb_refl.
    assert (Hs1 : select_snippet JqueryAndGetElementsInjection
                    (pages (select_request P self Bare selector params :: sent)) selector params =
                  selected (select_request P self Bare selector params :: sent))
      by (unfold select_snippet, selected_on; cbn; rewrite !andb_false_r;
          reflexivity).
    destruct (remote (select_request P self Bare selector params :: sent) JqueryAndGetElementsInjection)
      as [[e [v He]] | Hr1].
    - rewrite (jquery_failed _ _ _ _ _ He). unfold request_for.
      rewrite (last_execution_failed _ _ _ _ He). rewrite He. reflexivity.
    - rewrite (jquery_selected _ _ _ Hr1 Hs1). unfold request_for.
      rewrite (last_execution_selected _ _ Hr1 Hs1).
      rewrite Hs1, selection_is_no_sentinel.
      destruct (failure_of _); reflexivity. }
  destruct (window_getElements (pages sent)) eqn:Hg.
  { (* both pieces installed *)
    assert (Hs : select_snippet Bare (pages sent) selector params =
                 selected sent)
      by (unfold select_snippet; rewrite Hj, Hg; reflexivity).
    rewrite (jquery_selected _ _ _ Hr0 Hs). unfold request_for.
    rewrite (last_execution_selected _ _ Hr0 Hs).
    rewrite Hs, selection_is_no_sentinel.
    destruct (failure_of _); reflexivity. }
  assert (Hs : select_snippet Bare (pages sent) selector params =
               Returns (JStr "needFunc"))
    by (unfold select_snippet; rewrite Hj, Hg; reflexivity).
  rewrite (jquery_sentinel _ Bare sent "needFunc" Hr0 Hs). unfold request_for.
  rewrite (sentinel_answered _ _ _ Hr0 Hs). rewrite Hs.
  cbn [answer_sentinel]. unfold after_sentinel.
  change (String.eqb "needFunc" "needJquery") with false. cbv iota.
  set (sent1 := select_request P self Bare selector params :: sent).
  destruct (remote sent1 GetElementsInjection) as [[e [v He]] | Hr1].
  { rewrite (jquery_failed _ _ _ _ _ He). unfold request_for.
    rewrite (last_execution_failed _ _ _ _ He). rewrite He. reflexivity. }
  destruct (window_jquery (pages sent1)) eqn:Hj1.
  - assert (Hs1 : select_snippet GetElementsInjection (pages sent1) selector
                                 params = selected sent1)
      by (unfold select_snippet, selected_on; rewrite Hj1; cbn;
          rewrite ?andb_false_r; reflexivity).
    rewrite (jquery_selected _ _ _ Hr1 Hs1). unfold request_for.
    rewrite (last_execution_selected _ _ Hr1 Hs1).
    rewrite Hs1, selection_is_no_sentinel.
    destruct (failure_of _); reflexivity.
  - assert (Hs1 : select_snippet GetElementsInjection (pages sent1) selector
                                 params = Returns (JStr "needJquery"))
      by (unfold select_snippet; rewrite Hj1; reflexivity).
    rewrite (jquery_sentinel _ GetElementsInjection sent1 "needJquery" Hr1 Hs1). unfold request_for.
    rewrite (sentinel_answered _ _ _ Hr1 Hs1). rewrite Hs1.
    cbn [answer_sentinel]. rewrite String.eqb_refl.
    assert (Hs2 : select_snippet JqueryAndGetElementsInjection
                    (pages (select_request P self GetElementsInjection selector params :: sent1))
                    selector params =
                  selected (select_request P self GetElementsInjection selector params :: sent1))
      by (unfold select_snippet, selected_on; cbn; rewrite !andb_false_r;
          reflexivity).
    destruct (remote (select_request P self GetElementsInjection selector params :: sent1)
                     JqueryAndGetElementsInjection) as [[e [v He]] | Hr2].
    + rewrite (jquery_failed _ _ _ _ _ He). unfold request_for.
      rewrite (last_execution_failed _ _ _ _ He). reflexivity.
    + rewrite (jquery_selected _ _ _ Hr2 Hs2). unfold request_for.
      rewrite (last_execution_selected _ _ Hr2 Hs2). reflexivity.
Qed.

End JqueryBootstrap.

(** The installation sequence ends, after three requests at most. *)
Lemma installation_ends (P : platform) (net : transport)
      (self : WebDriver) (selector : string) (params : selector_params)
      (pages : list request -> page) (sent : list request) :
  (exists o, snd (installation P net self selector params pages sent) = Some o)
  /\ List.length (fst (installation P net self selector params pages sent)) <=
     List.length sent + 3.
Proof.
  unfold installation.
  destruct (failure_of _); [split; [eexists; reflexivity | cbn; lia] |].
  destruct (answer_sentinel _); [| split; [eexists; reflexivity | cbn; lia]].
  destruct (failure_of _); [split; [eexists; reflexivity | cbn; lia] |].
  destruct (answer_sentinel _); split; (eexists; reflexivity) || (cbn; lia).
Qed.

Lemma runs_then_runs_or_fails (P : platform) (net : transport)
      (self : WebDriver) (selector : string) (params : selector_params)
      (pages : list request -> page) :
  runs_select_snippet P net self selector params pages ->
  runs_select_snippet_or_fails P net self selector params pages.
Proof. intros H sent inj. right. apply H. Qed.

(** With a remote end that always answers, a resolution ends with what
    the selection function did on the page of one of its executions. *)
Lemma jquery_resolves (P : platform) (net : transport) (self : WebDriver)
      (selector : string) (params : selector_params)
      (pages : list request -> page) (fuel : nat) (sent : list request) :
  runs_select_snippet P net self selector params pages ->
  3 <= fuel ->
  exists sent' last_sent,
    jqueryGetElementIds P net self selector params fuel sent =
    (sent', Some (settle selector params
                    (___nwdJqGetElements (pages last_sent) selector
                                         (parent_arg params) (chain params)))).
Proof.
  intros Hruns Hfuel.
  destruct (jquery_bootstrap P net self selector params pages
              (runs_then_runs_or_fails _ _ _ _ _ _ Hruns) fuel sent Hfuel)
    as [injs [o [_ [[[last_sent ->] | [e [v [inj [s [He ->]]]]]] Heq]]]].
  - eauto.
  - (* a request that "failed" can only be a snippet that raised *)
    pose proof (Hruns s inj) as Hr. rewrite Heq. exists (select_requests P self selector params injs ++ sent)%list, s.
    destruct (select_snippet_cases inj (pages s) selector params)
      as [Hs | [Hs | Hs]]; rewrite Hs in Hr.
    + erewrite replies_returns in He; [| exact Hr | reflexivity]. discriminate.
    + erewrite replies_returns in He; [| exact Hr | reflexivity]. discriminate.
    + destruct (getElements_cases (pages s) selector (parent_arg params)
                                  (chain params)) as [[ids Hids] | [m Hm]].
      * rewrite Hids in Hr.
        erewrite replies_returns in He; [| exact Hr | reflexivity].
        discriminate.
      * rewrite Hm in *.
        erewrite replies_raises in He; [| exact Hr].
        injection He as <- _. reflexivity.
Qed.

(** ** Selector resolution *)

Lemma replies_status (P : platform) (params : cmd_params) (r : http_result)
      (fields : list (string * json)) (status : json) :
  replies P r (JObj fields) ->
  assoc "status" fields = Some status ->
  truthy status = true ->
  handle_response P params r = Callback (Some (StatusError status [])) VUndefined.
Proof.
  intros [res [-> Hparse]] Hs Ht. eapply handle_status; eassumption.
Qed.

Lemma getElements_zero (pg : page) (selector : string) (parent' : json)
      (chain' : option (list chain_step)) :
  jq_select pg selector parent' = [] ->
  ___nwdJqGetElements pg selector parent' chain' = Returns (JArr []).
Proof. intros H. unfold ___nwdJqGetElements. rewrite H. reflexivity. Qed.

(** [_getIds] on the native strategy, for a selector without matches. *)
Lemma getIds_native_zero (P : platform) (net : transport) (self : WebDriver)
      (selector : string) (params : selector_params) (fuel : nat)
      (sent : list request) :
  bad_parent params = false ->
  customStrategyHash (effective_using self params) = NativeStrategy ->
  runs_find P net self selector (normalize self params) sent [] ->
  snd (_getIds P net self selector params fuel sent) =
  Some (if isSingle params then
          if noError params then Callback None (VJson JNull)
          else Callback
                 (Some (NoSuchElementError
                          [("element", JStr selector);
                           ("using", JStr (effective_using self params))]))
                 (VJson (JBool false))
        else Callback None (VList [])).
Proof.
  intros Hparent Hstrategy Hfind.
  unfold _getIds. rewrite Hparent, Hstrategy. cbn [_cmd snd].
  unfold runs_find in Hfind. cbn [isSingle normalize] in Hfind.
  unfold native_callback.
  destruct (isSingle params) eqn:Hsingle.
  - erewrite replies_status; [| exact Hfind | reflexivity | reflexivity].
    cbn [noError normalize is_NoSuchElementError].
    destruct (noError params); reflexivity.
  - erewrite replies_returns; [| exact Hfind | reflexivity].
    cbn. rewrite Hsingle. reflexivity.
Qed.

(** [_getIds] on the jquery strategy, for a selector without matches. *)
Lemma getIds_jquery_zero (P : platform) (net : transport) (self : WebDriver)
      (selector : string) (params : selector_params)
      (pages : list request -> page) (fuel : nat) (sent : list request) :
  bad_parent params = false ->
  customStrategyHash (effective_using self params) = JqueryStrategy ->
  runs_select_snippet P net self selector (normalize self params) pages ->
  (forall s, jq_select (pages s) selector (parent_arg (normalize self params)) = []) ->
  3 <= fuel ->
  snd (_getIds P net self selector params fuel sent) =
  Some (if isSingle params then
          if noError params then Callback None (VJson JNull)
          else Callback
                 (Some (NoSuchElementError
                          [("element", JStr selector);
                           ("using", JStr (effective_using self params))]))
                 (VJson (JBool false))
        else Callback None (VList [])).
Proof.
  intros Hparent Hstrategy Hruns Hzero Hfuel.
  unfold _getIds. rewrite Hparent, Hstrategy.
  destruct (jquery_resolves P net self selector (normalize self params) pages
              fuel sent Hruns Hfuel) as [sent' [last_sent ->]].
  rewrite getElements_zero by apply Hzero.
  cbn [snd option_map settle]. unfold on_elements, custom_callback.
  cbn [map_ELEMENT isSingle noError normalize].
  destruct (isSingle params), (noError params); cbn; reflexivity.
Qed.

Lemma get_of_getIds (P : platform) (net : transport) (self : WebDriver)
      (selector : string) (params : option selector_params) (fuel : nat)
      (sent : list request) (err : option error) (id : value) :
  snd (_getIds P net self selector (with_isSingle true (given params)) fuel sent)
  = Some (Callback err id) ->
  snd (get P net self selector params fuel sent) =
  Some (match err with
        | Some e => Callback (Some e) (VJson (JBool false))
        | None =>
            Callback None
              (match id with
               | VJson j => if truthy j then VElement (Some j) else VJson j
               | VUndefined => VUndefined
               | _ => VElement None
               end)
        end).
Proof.
  unfold get. destruct (_getIds _ _ _ _ _ _ _) as [sent' r]. cbn [snd].
  intros ->. destruct err; reflexivity.
Qed.

Lemma getList_of_getIds (P : platform) (net : transport) (self : WebDriver)
      (selector : string) (params : option selector_params) (fuel : nat)
      (sent : list request) (ids : list value) :
  snd (_getIds P net self selector (with_isSingle false (given params)) fuel sent)
  = Some (Callback None (VList ids)) ->
  snd (getList P net self selector params fuel sent) =
  Some (Callback None
          (VList (map (fun id => match id with
                                 | VJson j => VElement (Some j)
                                 | _ => VElement None
                                 end) ids))).
Proof.
  unfold getList. destruct (_getIds _ _ _ _ _ _ _) as [sent' r]. cbn [snd].
  intros ->. reflexivity.
Qed.

(** C3. A selector with zero matches: [get] yields a "no such element"
    error when [noError] is unset and [(null, null)] when it is set;
    [getList] yields [(null, [])] whatever [noError] is. This holds on the
    native strategy (the remote end answers find-element with status 7
    and find-elements with an empty list) and on the jquery strategy (the
    remote end runs the injected snippet on pages where the selector
    selects nothing). *)
Theorem zero_matches (P : platform) (net : transport) (self : WebDriver)
        (selector : string) (params : option selector_params)
        (pages : list request -> page) (fuel : nat) (sent : list request) :
  bad_parent (given params) = false ->
  3 <= fuel ->
  (customStrategyHash (effective_using self (given params)) = NativeStrategy ->
   (forall single,
       runs_find P net self selector
         (normalize self (with_isSingle single (given params))) sent []) ->
   zero_match_results P net self selector params fuel sent) /\
  (customStrategyHash (effective_using self (given params)) = JqueryStrategy ->
   (forall single,
       runs_select_snippet P net self selector
         (normalize self (with_isSingle single (given params))) pages) ->
   (forall s, jq_select (pages s) selector
                        (parent_arg (normalize self (given params))) = []) ->
   zero_match_results P net self selector params fuel sent).
Proof.
  intros Hparent Hfuel.
  assert (Hresults :
    (forall single,
      snd (_getIds P net self selector (with_isSingle single (given params))
                   fuel sent) =
      Some (if single then
              if noError (given params) then Callback None (VJson JNull)
              else Callback
                     (Some (NoSuchElementError
                              (resolution_context self selector params)))
                     (VJson (JBool false))
            else Callback None (VList []))) ->
    zero_match_results P net self selector params fuel sent).
  { intros H. unfold zero_match_results. repeat split.
    - intros Hno. pose proof (H true) as Ht. rewrite Hno in Ht.
      rewrite (get_of_getIds _ _ _ _ _ _ _ _ _ Ht). reflexivity.
    - intros Hno. pose proof (H true) as Ht. rewrite Hno in Ht.
      rewrite (get_of_getIds _ _ _ _ _ _ _ _ _ Ht). reflexivity.
    - rewrite (getList_of_getIds _ _ _ _ _ _ _ _ (H false)). reflexivity. }
  split; intros Hstrategy Hremote.
  - apply Hresults. intros single.
    apply (getIds_native_zero P net self selector
             (with_isSingle single (given params)) fuel sent);
      [exact Hparent | exact Hstrategy | apply Hremote].
  - intros Hzero. apply Hresults. intros single.
    apply (getIds_jquery_zero P net self selector
             (with_isSingle single (given params)) pages fuel sent);
      [exact Hparent | exact Hstrategy | apply Hremote | exact Hzero
      | exact Hfuel].
Qed.

Lemma append_empty (s : string) : s ++ "" = s.
Proof. induction s as [| c s IH]; [reflexivity | cbn; rewrite IH; reflexivity]. Qed.

(** C4. On the jquery strategy, with a remote end that runs the injected
    snippet as written (on pages that may change between executions, and
    where any request may fail instead), one resolution is the
    installation sequence: the snippet is executed bare first; a
    sentinel answer makes the client execute it again with the piece
    the sentinel reports missing prepended ([needJquery]: the library
    and the selection function; [needFunc]: the selection function); a
    second sentinel, with both pieces prepended; and the execution that
    answers no sentinel, or fails, ends the resolution. That is three
    executions at most, and three units of fuel always suffice: the retry
    sequence is bounded. *)
Theorem jquery_installation_is_bounded (P : platform) (net : transport)
        (self : WebDriver) (selector : string) (params : selector_params)
        (pages : list request -> page) (fuel : nat) (sent : list request) :
  runs_select_snippet_or_fails P net self selector params pages ->
  3 <= fuel ->
  jqueryGetElementIds P net self selector params fuel sent =
  installation P net self selector params pages sent /\
  (exists o,
      snd (jqueryGetElementIds P net self selector params fuel sent) = Some o)
  /\
  List.length (fst (jqueryGetElementIds P net self selector params fuel sent))
  <= List.length sent + 3 /\
  (forall s,
      exists before after,
        injection_text P (after_sentinel s) =
        before ++ missing_piece P s ++ after) /\
  injection_text P JqueryAndGetElementsInjection =
  jqueryInjection P ++ jqueryGetElementsInjection P.
Proof.
  intros Hremote Hfuel.
  rewrite (resolution_is_installation P net self selector params pages Hremote fuel
                               sent Hfuel).
  split; [reflexivity |].
  split; [apply installation_ends |].
  split; [apply installation_ends |].
  split; [| reflexivity].
  intros s. unfold after_sentinel, missing_piece.
  destruct (String.eqb s "needJquery"); cbn [injection_text].
  - exists "", (jqueryGetElementsInjection P). reflexivity.
  - exists "", "". cbn [append]. symmetry. apply append_empty.
Qed.

Lemma zero_matches_witness :
  zero_match_results
    (stub_platform [remote_find true []; remote_find false []])
    (empty_document (stub_platform [remote_find true []; remote_find false []])
                    driver_abc123 ".missing" no_params)
    driver_abc123 ".missing" None 3 [] /\
  zero_match_results
    (stub_platform (snippet_envelopes (fresh_page []) ".missing" using_jquery))
    (browser (stub_platform (snippet_envelopes (fresh_page []) ".missing"
                                               using_jquery))
             (fresh_page []) driver_abc123 ".missing" using_jquery)
    driver_abc123 ".missing" (Some using_jquery) 3 [].
Proof.
  split.
  - refine (proj1 (zero_matches _ _ driver_abc123 ".missing" None
                                (fun _ => fresh_page []) 3 []
                                eq_refl (le_n 3)) eq_refl _).
    intros [|]; eexists; split; reflexivity.
  - refine (proj2 (zero_matches _ _ driver_abc123 ".missing"
                                (Some using_jquery)
                                (fun _ => fresh_page []) 3 []
                                eq_refl (le_n 3)) eq_refl _ _).
    + intros [|] sent [| |]; eexists; split; reflexivity.
    + reflexivity.
Defined.

Lemma jquery_installation_is_bounded_witness :
  jqueryGetElementIds
    (stub_platform (snippet_envelopes (fresh_page [JNum 5]) "form" using_jquery))
    (browser (stub_platform (snippet_envelopes (fresh_page [JNum 5]) "form"
                                               using_jquery))
             (fresh_page [JNum 5]) driver_abc123 "form" using_jquery)
    driver_abc123 "form" using_jquery 3 [] =
  ([select_request
      (stub_platform (snippet_envelopes (fresh_page [JNum 5]) "form"
                                        using_jquery))
      driver_abc123 JqueryAndGetElementsInjection "form" using_jquery;
    select_request
      (stub_platform (snippet_envelopes (fresh_page [JNum 5]) "form"
                                        using_jquery))
      driver_abc123 Bare "form" using_jquery],
   Some (Callback None (VList [VJson (JNum 5)]))).
Proof.
  refine (eq_trans (proj1 (jquery_installation_is_bounded
                             _ _ driver_abc123 "form" using_jquery
                             (fun _ => fresh_page [JNum 5]) 3 [] _ (le_n 3)))
                   _).
  - intros sent [| |]; right; eexists; split; reflexivity.
  - vm_compute. reflexivity.
Defined.

(** ** Chained traversal *)







(** ** Polling engine *)

(** C2, at an input where the code departs from it. A predicate that
    answers "not yet" at once on every poll, with a timeout of 50 ms:
    [execute] arms a new deadline timer on each of the three polls that
    start before the deadline, and every one of these timers invokes the
    callback: three timeout errors, at 50, 70 and 90 ms. *)
Theorem waitFor_times_out_three_times :
  waitFor driver_abc123 never_ready wait_50ms 100 =
  Some [(50, timed_out_50ms); (70, timed_out_50ms); (90, timed_out_50ms)].
Proof. vm_compute. reflexivity. Qed.

(** ** Delegated element surface *)

(** C6. For a member [method] of the element surface (a member of
    [WebElement.prototype] whose name does not start with an underscore),
    [driver.element.method(selector, params?, args..., callback)] does
    what [driver.get(selector, params?, cb)] followed by the element's
    [method] on [args..., callback] does, and hands a failure of [get] to
    [callback] unchanged. The optional [params] is what
    [utils.isSelectorParams] recognizes: given, it is recognized; omitted,
    the first of the trailing arguments is not. *)
Theorem element_method_delegates
        (isSelectorParams : arg -> bool)
        (WebElement_prototype : list (string * (value -> list arg -> comp)))
        (P : platform) (net : transport) (self : WebDriver) (fuel : nat)
        (method : string) (m : string -> list arg -> comp)
        (selector : string) (params : option selector_params)
        (args : list arg) (callback : option error -> value -> comp)
        (sent : list request) :
  element isSelectorParams WebElement_prototype P net self fuel method = Some m ->
  (forall p, params = Some p -> isSelectorParams (AObject p) = true) ->
  (params = None ->
   isSelectorParams (nth 0 (args ++ [AFunction callback])%list AUndefined)
   = false) ->
  m selector
    (match params with
     | Some p => AObject p :: args ++ [AFunction callback]
     | None => args ++ [AFunction callback]
     end)%list sent =
  get_then_method WebElement_prototype P net self fuel method selector params
                  args callback sent.
Proof.
  intros Hmember Hgiven Homitted.
  unfold element in Hmember.
  destruct (String.prefix "_" method); [discriminate |].
  destruct (assoc method WebElement_prototype); [| discriminate].
  injection Hmember as <-.
  unfold element_method, get_then_method.
  destruct params as [p |].
  - cbn [nth]. rewrite (Hgiven p eq_refl). cbn [skipn get_apply].
    rewrite last_last. reflexivity.
  - rewrite (Homitted eq_refl). cbn [get_apply].
    rewrite last_last. reflexivity.
Qed.

Lemma element_method_delegates_witness :
  element_method objects_are_params sample_prototype
    (stub_platform [remote_find true [JNum 5]])
    (fun _ => answer (remote_find true [JNum 5]))
    driver_abc123 3 "getValue" "#login" [AFunction finish] [] =
  get_then_method sample_prototype
    (stub_platform [remote_find true [JNum 5]])
    (fun _ => answer (remote_find true [JNum 5]))
    driver_abc123 3 "getValue" "#login" None [] finish [].
Proof.
  apply (element_method_delegates objects_are_params sample_prototype
           (stub_platform [remote_find true [JNum 5]])
           (fun _ => answer (remote_find true [JNum 5]))
           driver_abc123 3 "getValue" (element_method _ _ _ _ _ _ "getValue")
           "#login" None [] finish []);
    [reflexivity | discriminate | reflexivity].
Defined.

(** ** Session set-up *)

Lemma same_session_refl (a : WebDriver) : same_session a a.
Proof. unfold same_session. tauto. Qed.

Lemma same_session_set_timeouts (a : WebDriver) (t : list (string * json)) :
  same_session (set_timeouts a t) a.
Proof. unfold same_session. cbn. tauto. Qed.

Lemma same_session_trans (a b c : WebDriver) :
  same_session a b -> same_session b c -> same_session a c.
Proof. unfold same_session. intuition congruence. Qed.

(** [setTimeout] touches the timeouts table only, and issues at most one
    request. *)
Lemma setTimeout_frame (P : platform) (net : transport) (self : WebDriver)
      (type : string) (timeout : json) (sent : list request) :
  same_session (fst (fst (setTimeout P net self type timeout sent))) self /\
  exists later, snd (fst (setTimeout P net self type timeout sent)) =
                (later ++ sent)%list.
Proof.
  unfold setTimeout.
  destruct (js_in type (_protocolTimeoutsHash self)).
  - cbn [_cmd].
    destruct (handle_response P _ _) as [[err |] v | e |]; cbn [fst snd];
      (split; [first [apply same_session_refl | apply same_session_set_timeouts]
              | eexists [_]; reflexivity]).
  - cbn [fst snd]. split; [apply same_session_set_timeouts |].
    exists []. reflexivity.
Qed.

Lemma setTimeouts_loop_frame (P : platform) (net : transport)
      (todo : list (string * json)) :
  forall (self : WebDriver) (count current : nat) (sent : list request),
    same_session
      (fst (fst (setTimeouts_loop P net self todo count current sent))) self /\
    exists later,
      snd (fst (setTimeouts_loop P net self todo count current sent)) =
      (later ++ sent)%list.
Proof.
  induction todo as [| [type timeout] rest IH]; intros self count current sent.
  - cbn. split; [apply same_session_refl | exists []; reflexivity].
  - cbn [setTimeouts_loop].
    destruct (setTimeout_frame P net self type timeout sent)
      as [Hsame [later Hlater]].
    destruct (setTimeout P net self type timeout sent) as [[self' sent'] r].
    cbn [fst snd] in Hsame, Hlater. subst sent'.
    destruct r as [[err |] v | e |].
    + destruct (IH self' count current (later ++ sent)%list)
        as [Hsame' [later' Hlater']].
      destruct (setTimeouts_loop P net self' rest count current _)
        as [[self'' sent''] calls].
      cbn [fst snd] in *. split; [eapply same_session_trans; eassumption |].
      exists (later' ++ later)%list. rewrite Hlater', app_assoc. reflexivity.
    + destruct (IH self' count (S current) (later ++ sent)%list)
        as [Hsame' [later' Hlater']].
      destruct (setTimeouts_loop P net self' rest count (S current) _)
        as [[self'' sent''] calls].
      cbn [fst snd] in *. split; [eapply same_session_trans; eassumption |].
      exists (later' ++ later)%list. rewrite Hlater', app_assoc. reflexivity.
    + cbn [fst snd]. split; [assumption | eauto].
    + cbn [fst snd]. split; [assumption | eauto].
Qed.

(** Where the session id comes from. *)
Lemma session_id_from_body (hdrs : list (string * string))
      (fields : list (string * json)) (id : json) :
  assoc "sessionId" fields = Some id -> truthy id = true ->
  session_id_of hdrs (JObj fields) = Some id.
Proof.
  intros Hid Htruthy. unfold session_id_of. cbn [prop]. rewrite Hid.
  cbn [truthy_opt]. rewrite Htruthy. reflexivity.
Qed.

Lemma session_id_from_location (hdrs : list (string * string))
      (fields : list (string * json)) (location : string) :
  truthy_opt (assoc "sessionId" fields) = false ->
  assoc "location" hdrs = Some location -> location <> "" ->
  session_id_of hdrs (JObj fields) = Some (JStr (last_part location "")).
Proof.
  intros Hid Hloc Hne. unfold session_id_of. cbn [prop]. rewrite Hid, Hloc.
  unfold str_truthy. destruct (String.eqb_spec location ""); [congruence |].
  reflexivity.
Qed.

Lemma session_id_missing (hdrs : list (string * string))
      (fields : list (string * json)) :
  truthy_opt (assoc "sessionId" fields) = false ->
  assoc "location" hdrs = None ->
  session_id_of hdrs (JObj fields) = None.
Proof.
  intros Hid Hloc. unfold session_id_of. cbn [prop]. rewrite Hid, Hloc.
  reflexivity.
Qed.

(** What [init] does once the session id is known. *)
Lemma init_with_session (P : platform) (net : transport) (self : WebDriver)
      (sent : list request) (res : response) (fields : list (string * json))
      (id : json) :
  net (build_request P self (init_params self) :: sent) = HttpResponse res ->
  JSON_parse P (body_text res) = inl (JObj fields) ->
  truthy_opt (assoc "status" fields) = false ->
  session_id_of (headers res) (JObj fields) = Some id ->
  same_session (init_driver (init P net self sent)) (set_session self id).
Proof.
  intros Hnet Hparse Hstatus Hid.
  unfold init, init_driver. cbn [_cmd]. rewrite Hnet.
  rewrite (handle_success P _ res fields Hparse Hstatus).
  cbn [resNeeded init_params]. rewrite Hid. unfold setTimeouts.
  pose proof (setTimeouts_loop_frame P net (timeouts (set_session self id))
                (set_session self id)
                (List.length (timeouts (set_session self id))) 0
                (build_request P self (init_params self) :: sent)) as [Hsame _].
  destruct (setTimeouts_loop P net (set_session self id) _ _ _ _)
    as [[self' sent'] calls].
  exact Hsame.
Qed.

Lemma init_sent_extends (P : platform) (net : transport) (self : WebDriver)
      (sent : list request) :
  exists later,
    init_sent (init P net self sent) =
    (later ++ build_request P self (init_params self) :: sent)%list.
Proof.
  unfold init, init_sent. cbn [_cmd].
  destruct (handle_response P (init_params self) _) as [[err |] v | e |];
    try (exists []; reflexivity).
  destruct v; try (exists []; reflexivity).
  destruct (session_id_of hdrs envelope) as [id |]; [| exists []; reflexivity].
  unfold setTimeouts.
  pose proof (setTimeouts_loop_frame P net (timeouts (set_session self id))
                (set_session self id)
                (List.length (timeouts (set_session self id))) 0
                (build_request P self (init_params self) :: sent))
    as [_ [later Hlater]].
  destruct (setTimeouts_loop P net (set_session self id) _ _ _ _)
    as [[self' sent'] calls].
  exists later. exact Hlater.
Qed.

(** C7, as the code has it. [init] on a new driver issues one request to
    [/wd/hub/session] carrying [{desiredCapabilities}], with the driver's
    default method: [POST] unless the constructor was given a [method]
    option. The session id is the response body's [sessionId] when that
    is truthy, else the last part of the [Location] header; when neither
    is there, [init] fails with an error and leaves the driver as it was.
    Once the id is known, the path of every command is prefixed with
    [/wd/hub/session/<id>], [<id>] being the id as text: the string
    itself, or what [js_toString] gives for an id that is no string and
    that it renders as JavaScript does ([prints_plainly]). *)
Theorem init_creates_session (P : platform) (net : transport)
        (options : driver_options) (sent : list request) :
  let self := new_WebDriver options in
  let request := build_request P self (init_params self) in
  let run := init P net self sent in
  (data (init_params self) =
     Some (JObj [("desiredCapabilities", desiredCapabilities self)]) /\
   (JSON_stringify P
      (JObj [("desiredCapabilities", desiredCapabilities self)]) <> "" ->
    req_data request =
    Some (JSON_stringify P
            (JObj [("desiredCapabilities", desiredCapabilities self)]))) /\
   req_path request = "/wd/hub/session" /\
   req_method request = str_or (opt_method options) "POST" /\
   exists later, init_sent run = (later ++ request :: sent)%list) /\
  (forall res fields,
      net (request :: sent) = HttpResponse res ->
      JSON_parse P (body_text res) = inl (JObj fields) ->
      truthy_opt (assoc "status" fields) = false ->
      (forall id,
          (assoc "sessionId" fields = Some id /\ truthy id = true) \/
          (truthy_opt (assoc "sessionId" fields) = false /\
           exists location,
             assoc "location" (headers res) = Some location /\
             location <> "" /\ id = JStr (last_part location "")) ->
          sessionId (init_driver run) = Some id /\
          (prints_plainly id ->
           forall params,
             req_path (build_request P (init_driver run) params) =
             "/wd/hub/session/" ++ js_toString id ++ path params) /\
          (forall s params,
              id = JStr s ->
              req_path (build_request P (init_driver run) params) =
              "/wd/hub/session/" ++ s ++ path params)) /\
      (truthy_opt (assoc "sessionId" fields) = false ->
       assoc "location" (headers res) = None ->
       run = (self, request :: sent,
              [Callback (Some (PlainError "Can`t determine session id"))
                        VUndefined]))).
Proof.
  intros self request run. split.
  - split; [reflexivity |]. split.
    { intros Hbody. unfold request, build_request. cbn [req_data data init_params truthy].
      unfold str_truthy. apply String.eqb_neq in Hbody. rewrite Hbody.
      reflexivity. }
    split; [reflexivity |]. split; [reflexivity |].
    apply init_sent_extends.
  - intros res fields Hnet Hparse Hstatus. split.
    + intros id Hid.
      assert (Hsession : session_id_of (headers res) (JObj fields) = Some id).
      { destruct Hid as [[Hbody Htruthy] | [Hbody [location [Hloc [Hne ->]]]]].
        - apply session_id_from_body; assumption.
        - apply session_id_from_location; assumption. }
      destruct (init_with_session P net self sent res fields id Hnet Hparse
                                  Hstatus Hsession)
        as [_ [Hbase [Hsid _]]].
      fold run in Hbase, Hsid. split; [rewrite Hsid; reflexivity |].
      split.
      * intros _ params. unfold build_request. cbn [req_path].
        rewrite Hbase. reflexivity.
      * intros s params ->. unfold build_request. cbn [req_path].
        rewrite Hbase. reflexivity.
    + intros Hbody Hloc. unfold run, init. cbn [_cmd]. fold request.
      rewrite Hnet. rewrite (handle_success P _ res fields Hparse Hstatus).
      cbn [resNeeded init_params].
      rewrite (session_id_missing _ _ Hbody Hloc). reflexivity.
Qed.

Lemma init_creates_session_witness :
  sessionId (init_driver (init (stub_platform [created]) location_server
                               (new_WebDriver no_options) [])) =
  Some (JStr "abc123") /\
  req_path (build_request (stub_platform [created])
              (init_driver (init (stub_platform [created]) location_server
                                 (new_WebDriver no_options) []))
              getUrl_params) =
  "/wd/hub/session/abc123/url".
Proof.
  destruct (init_creates_session (stub_platform [created]) location_server
                                 no_options []) as [_ Hsession].
  destruct (Hsession
              {| headers := [("location",
                              "http://127.0.0.1:4444/wd/hub/session/abc123")];
                 body := stringify created |}
              [("status", JNum 0)] eq_refl eq_refl eq_refl) as [Hid _].
  destruct (Hid (JStr "abc123")) as [Hsid [_ Hpaths]].
  - right. split; [reflexivity |].
    exists "http://127.0.0.1:4444/wd/hub/session/abc123".
    split; [reflexivity |]. split; [discriminate | reflexivity].
  - split; [exact Hsid | exact (Hpaths "abc123" getUrl_params eq_refl)].
Defined.

(** C7, as stated, fails: a driver constructed with [method: 'GET']
    issues its session request as a [GET]. *)
Lemma init_is_not_always_a_post :
  map (fun r => (req_method r, req_path r))
      (init_sent (init (stub_platform []) refusing
                       (new_WebDriver (with_method "GET")) [])) =
  [("GET", "/wd/hub/session")] /\
  req_method (build_request (stub_platform [])
                (new_WebDriver (with_method "GET"))
                (init_params (new_WebDriver (with_method "GET")))) <> "POST".
Proof. split; [vm_compute; reflexivity | vm_compute; discriminate]. Qed.

(** ** URL-change wait *)

(** Stripping leaves a text without [?] in front as it is. *)
Lemma strip_query_keeps_prefix (t : string) :
  occurs "?"%char t = false ->
  forall s, String.prefix t s = true ->
            String.prefix t (strip_query s) = true.
Proof.
  induction t as [| b t IH]; intros Hocc s Hpre;
    [destruct (strip_query s); reflexivity |].
  cbn [occurs] in Hocc. apply orb_false_iff in Hocc as [Hb Ht].
  destruct s as [| a s]; [discriminate |].
  cbn [String.prefix] in Hpre.
  destruct (ascii_dec b a) as [<- | _]; [| discriminate].
  cbn [strip_query]. rewrite Hb. cbn [andb String.prefix].
  destruct (ascii_dec b b) as [_ | Hne]; [| contradiction].
  exact (IH Ht s Hpre).
Qed.

Lemma strip_query_keeps_line_terminator (s : string) :
  has_line_terminator s = true -> has_line_terminator (strip_query s) = true.
Proof.
  assert (Hfront : forall x, line_terminator x = true ->
                             line_terminator (strip_query x) = true).
  { intros x Hx. unfold line_terminator in *.
    apply existsb_exists in Hx as [t [Hin Hpre]].
    apply existsb_exists. exists t. split; [exact Hin |].
    apply strip_query_keeps_prefix; [| exact Hpre].
    cbn [line_terminators In] in Hin.
    destruct Hin as [<- | [<- | [<- | [<- | []]]]]; reflexivity. }
  assert (Hhas : forall x, line_terminator x = true ->
                           has_line_terminator x = true).
  { intros [| c x] Hx; [discriminate |].
    cbn [has_line_terminator]. rewrite Hx. reflexivity. }
  induction s as [| a s IH]; [discriminate |].
  cbn [has_line_terminator]. intros H.
  destruct (has_line_terminator s) eqn:Hs.
  - cbn [strip_query]. rewrite Hs. cbn [negb]. rewrite andb_false_r.
    cbn [has_line_terminator]. rewrite (IH eq_refl). apply orb_true_r.
  - rewrite orb_false_r in H. apply Hhas, Hfront. exact H.
Qed.






(** ** Error context *)

(** Errors of the taxonomy get the selector and the strategy attached. *)
Lemma parametrizeError_attaches (selector using' : string) (e : error)
      (ps : context) :
  error_params e = Some ps ->
  exists e',
    parametrizeError selector using' (Some e) = inl (Some e') /\
    error_params e' =
    Some (merge_context ps [("element", JStr selector); ("using", JStr using')]).
Proof.
  destruct e as [status ps' | message ps' | message]; cbn; intros H;
    [injection H as <- | injection H as <- | discriminate];
    eexists; split; reflexivity.
Qed.

(** An error that is a built-in [Error] makes [_getIds] raise on the
    native strategy: the callback is not invoked. *)
Lemma getIds_plain_error_raises (P : platform) (net : transport)
      (self : WebDriver) (selector : string) (params : selector_params)
      (fuel : nat) (sent : list request) (message : string) :
  bad_parent params = false ->
  customStrategyHash (effective_using self params) = NativeStrategy ->
  net (build_request P self (find_params self selector (normalize self params))
       :: sent) = HttpError (PlainError message) ->
  snd (_getIds P net self selector params fuel sent) =
  Some (Throw (TypeError "err.parametrize is not a function")).
Proof.
  intros Hparent Hstrategy Hnet. unfold _getIds.
  rewrite Hparent, Hstrategy. cbn [_cmd snd]. rewrite Hnet.
  cbn [handle_response native_callback is_NoSuchElementError].
  rewrite andb_false_r. reflexivity.
Qed.

(** C9, at an input where the code departs from it. The transport
    refuses the connection while [get] resolves [.login] on the native
    strategy: [parametrizeError] calls [parametrize] on the transport's
    error, which has no such method; the [TypeError] escapes and the
    callback of [get] is never invoked. *)
Theorem transport_error_is_not_parametrized :
  snd (get (stub_platform []) refusing driver_abc123 ".login" None 3 []) =
  Some (Throw (TypeError "err.parametrize is not a function")) /\
  snd (getList (stub_platform []) refusing driver_abc123 ".login" None 3 []) =
  Some (Throw (TypeError "err.parametrize is not a function")).
Proof. split; vm_compute; reflexivity. Qed.

(** ** Timeouts *)

(** A category that [in] does not find in the protocol table is set
    locally: no request, the table updated, the driver yielded. *)
Lemma setTimeout_client_only (P : platform) (net : transport)
      (self : WebDriver) (type : string) (timeout : json)
      (sent : list request) :
  js_in type (_protocolTimeoutsHash self) = false ->
  setTimeout P net self type timeout sent =
  (set_timeouts self (obj_set type timeout (timeouts self)), sent,
   Callback None VSelf).
Proof. intros H. unfold setTimeout. rewrite H. reflexivity. Qed.

(** A server-enforced category whose command fails leaves the driver,
    and with it the timeouts table, as it was. *)
Lemma setTimeout_server_failure (P : platform) (net : transport)
      (self : WebDriver) (type : string) (timeout : json)
      (sent : list request) (err : error) (v : value) :
  js_in type (_protocolTimeoutsHash self) = true ->
  snd (_cmd P net self
         {| path := "/timeouts"; method := Some "POST";
            data := Some (JObj [("type", JStr type); ("ms", timeout)]);
            resNeeded := false |} sent) = Callback (Some err) v ->
  fst (fst (setTimeout P net self type timeout sent)) = self /\
  snd (setTimeout P net self type timeout sent) =
  Callback (Some err) VUndefined.
Proof.
  intros Hin Hcmd. unfold setTimeout. rewrite Hin.
  destruct (_cmd P net self _ sent) as [sent' r]. cbn [snd] in Hcmd.
  subst r. split; reflexivity.
Qed.

(** C10, at an input where the code departs from it. [constructor] is
    not one of [page load], [script] and [implicit], yet
    ['constructor' in this._protocolTimeoutsHash] holds, through
    [Object.prototype]: [setTimeout] issues a [/timeouts] command for it,
    and when that command fails the call fails and the table is left
    without the entry. *)
Theorem setTimeout_inherited_name_goes_to_server :
  assoc "constructor" (_protocolTimeoutsHash driver_abc123) = None /\
  map (fun r => (req_method r, req_path r))
      (snd (fst (setTimeout (stub_platform []) refusing driver_abc123
                            "constructor" (JNum 100) []))) =
  [("POST", "/wd/hub/session/abc123/timeouts")] /\
  snd (setTimeout (stub_platform []) refusing driver_abc123
                  "constructor" (JNum 100) []) =
  Callback (Some connection_refused) VUndefined /\
  assoc "constructor"
        (timeouts (fst (fst (setTimeout (stub_platform []) refusing
                                        driver_abc123 "constructor"
                                        (JNum 100) [])))) = None.
Proof. repeat split; vm_compute; reflexivity. Qed.

(** * Further properties of the code *)

(** ** [_strip] and the response handler of [_cmd] *)

(** X1. [_strip] leaves no character of code 0 in its result, and a
    string without such a character is returned as it is. *)
Theorem strip_removes_nul (str : string) :
  occurs Ascii.zero (_strip str) = false /\
  (occurs Ascii.zero str = false -> _strip str = str).
Proof.
  induction str as [| c rest [IHnone IHsame]]; [split; reflexivity |].
  cbn [_strip occurs]. destruct (Ascii.eqb c Ascii.zero) eqn:Hc.
  - split; [exact IHnone | discriminate].
  - cbn [occurs]. rewrite Hc, IHnone. split; [reflexivity |].
    cbn [orb]. intros Hrest. rewrite (IHsame Hrest). reflexivity.
Qed.

(** X2. [_cmd] lets an exception escape exactly when the response body
    parses to [null] (reading [res.data.value] then raises); in every
    other case the outcome is handed to the callback. *)
Theorem cmd_raises_only_on_null (P : platform) (net : transport)
        (self : WebDriver) (params : cmd_params) (sent : list request) :
  ((exists e, snd (_cmd P net self params sent) = Throw e) <->
   (exists res,
       net (build_request P self params :: sent) = HttpResponse res /\
       JSON_parse P (body_text res) = inl JNull)) /\
  snd (_cmd P net self params sent) <> Unanswered.
Proof.
  unfold _cmd. cbn [snd].
  destruct (net (build_request P self params :: sent)) as [err | res] eqn:Hnet.
  - cbn. split; [| discriminate].
    split; [intros [e He]; discriminate | intros [res [Hres _]]; discriminate].
  - cbn [handle_response].
    destruct (JSON_parse P (body_text res)) as [envelope | message] eqn:Hparse.
    + destruct envelope as [| b | n | s | items | fields]; cbn [truthy andb prop].
      * split; [| discriminate]. split; [| eauto].
        intros _. exists res. split; [reflexivity | exact Hparse].
      * destruct b; cbn; (split; [| discriminate]);
          (split; [intros [e He]; discriminate
                  | intros [res' [Hres Hnull]]; injection Hres as <-;
                    congruence]).
      * destruct (negb (n =? 0)%Z); cbn; (split; [| discriminate]);
          (split; [intros [e He]; discriminate
                  | intros [res' [Hres Hnull]]; injection Hres as <-;
                    congruence]).
      * destruct (negb (s =? "")); cbn; (split; [| discriminate]);
          (split; [intros [e He]; discriminate
                  | intros [res' [Hres Hnull]]; injection Hres as <-;
                    congruence]).
      * cbn. split; [| discriminate].
        split; [intros [e He]; discriminate
               | intros [res' [Hres Hnull]]; injection Hres as <-; congruence].
      * destruct (assoc "status" fields) as [status |]; cbn [truthy_opt].
        -- destruct (truthy status); (split; [| discriminate]);
             (split; [intros [e He]; discriminate
                     | intros [res' [Hres Hnull]]; injection Hres as <-;
                       congruence]).
        -- split; [| discriminate].
           split; [intros [e He]; discriminate
                  | intros [res' [Hres Hnull]]; injection Hres as <-;
                    congruence].
    + split; [| discriminate].
      split; [intros [e He]; discriminate
             | intros [res' [Hres Hnull]]; injection Hres as <-; congruence].
Qed.

(** X3. A response with an empty body is read as [{}]: the command
    succeeds and, unless the raw response was asked for, yields the
    driver itself. *)
Theorem cmd_empty_body_is_success (P : platform) (net : transport)
        (self : WebDriver) (params : cmd_params) (sent : list request)
        (hdrs : list (string * string)) :
  net (build_request P self params :: sent) =
  HttpResponse {| headers := hdrs; body := "" |} ->
  JSON_parse P "{}" = inl (JObj []) ->
  snd (_cmd P net self params sent) =
  Callback None (if resNeeded params then VRes hdrs (JObj []) else VSelf).
Proof.
  intros Hnet Hparse. unfold _cmd. cbn [snd]. rewrite Hnet.
  rewrite (handle_success P params {| headers := hdrs; body := "" |} []
                          Hparse eq_refl).
  reflexivity.
Qed.

Lemma cmd_empty_body_is_success_witness :
  snd (_cmd (stub_platform [JObj []])
            (fun _ => HttpResponse {| headers := []; body := "" |})
            driver_abc123 getUrl_params []) =
  Callback None VSelf.
Proof.
  apply (cmd_empty_body_is_success (stub_platform [JObj []])
           (fun _ => HttpResponse {| headers := []; body := "" |})
           driver_abc123 getUrl_params [] []); reflexivity.
Defined.

(** ** Selector text *)

Lemma prefix_needs_first_char (c : ascii) (pat s : string) :
  occurs c s = false -> String.prefix (String c pat) s = false.
Proof.
  destruct s as [| a rest]; [reflexivity |].
  cbn [occurs String.prefix]. intros H. apply orb_false_iff in H as [Ha _].
  destruct (ascii_dec c a) as [-> |]; [| reflexivity].
  rewrite Ascii.eqb_refl in Ha. discriminate.
Qed.

Lemma replace_all_without_first_char (c : ascii) (pat rep s : string) :
  occurs c s = false -> replace_all (String c pat) rep s = s.
Proof.
  unfold replace_all. induction s as [| a rest IH]; [reflexivity |].
  intros H. cbn [replace_from].
  rewrite (prefix_needs_first_char c pat (String a rest) H).
  cbn [occurs] in H. apply orb_false_iff in H as [_ Hrest].
  rewrite (IH Hrest). reflexivity.
Qed.

(** X4. [sweetenCssSelector] returns a selector without a colon as it
    is. *)
Theorem sweeten_without_colon (selector : string) :
  occurs ":"%char selector = false ->
  sweetenCssSelector selector = selector.
Proof.
  intros H. unfold sweetenCssSelector.
  rewrite (replace_all_without_first_char ":"%char "visible" _ selector H).
  apply (replace_all_without_first_char ":"%char "hidden" _ selector H).
Qed.

Lemma sweeten_without_colon_witness :
  sweetenCssSelector ".js-form-signup-home" = ".js-form-signup-home".
Proof. apply sweeten_without_colon. reflexivity. Defined.

(** ** Session id from the [Location] header *)

Lemma last_part_without_slash (s acc : string) :
  occurs "/"%char s = false -> last_part s acc = acc ++ s.
Proof.
  revert acc. induction s as [| c rest IH]; intros acc H.
  - cbn. induction acc as [| a acc IHacc]; [reflexivity |].
    cbn. rewrite <- IHacc. reflexivity.
  - cbn [occurs] in H. apply orb_false_iff in H as [Hc Hrest].
    cbn [last_part]. rewrite Hc, (IH _ Hrest).
    clear. induction acc as [| a acc IHacc]; [reflexivity |].
    cbn. rewrite IHacc. reflexivity.
Qed.

Lemma last_part_after_slash (before id acc : string) :
  occurs "/"%char id = false ->
  last_part (before ++ "/" ++ id) acc = id.
Proof.
  revert acc. induction before as [| c rest IH]; intros acc H.
  - cbn. apply (last_part_without_slash id "" H).
  - cbn [append last_part].
    destruct (Ascii.eqb c "/"); apply IH; exact H.
Qed.

(** X5. When the response body carries no usable [sessionId] and the
    [Location] header is [<anything>/<id>] with no slash in [<id>],
    [init] takes [<id>] as the session id; a header that ends in a slash
    gives the empty id. *)
Theorem session_id_is_last_segment (hdrs : list (string * string))
        (fields : list (string * json)) (before id : string) :
  truthy_opt (assoc "sessionId" fields) = false ->
  assoc "location" hdrs = Some (before ++ "/" ++ id) ->
  occurs "/"%char id = false ->
  session_id_of hdrs (JObj fields) = Some (JStr id).
Proof.
  intros Hbody Hloc Hid.
  rewrite (session_id_from_location hdrs fields _ Hbody Hloc).
  - rewrite (last_part_after_slash before id "" Hid). reflexivity.
  - destruct before; discriminate.
Qed.

Lemma session_id_is_last_segment_witness :
  session_id_of [("location", "http://127.0.0.1:4444/wd/hub/session" ++ "/" ++ "abc123")]
                (JObj [("status", JNum 0)]) =
  Some (JStr "abc123").
Proof.
  apply (session_id_is_last_segment _ _ "http://127.0.0.1:4444/wd/hub/session"
                                    "abc123"); reflexivity.
Defined.

(** ** Query stripping *)

(** X6. [strip_query], the [url.replace(/\?.*$/, '')] of
    [waitForUrlChange]: a URL without [?] is unchanged; for a URL without
    line terminators the result has no [?] left; and stripping twice is
    stripping once. *)
Theorem strip_query_properties (url : string) :
  (occurs "?"%char url = false -> strip_query url = url) /\
  (has_line_terminator url = false ->
   occurs "?"%char (strip_query url) = false) /\
  strip_query (strip_query url) = strip_query url.
Proof.
  induction url as [| c rest [IHsame [IHnone IHidem]]];
    [repeat split; reflexivity |].
  cbn [strip_query occurs has_line_terminator]. split; [| split].
  - intros H. apply orb_false_iff in H as [Hc Hrest].
    rewrite Hc. cbn [andb]. rewrite (IHsame Hrest). reflexivity.
  - intros H. apply orb_false_iff in H as [_ Hrest]. rewrite Hrest.
    cbn [negb]. rewrite andb_true_r.
    destruct (Ascii.eqb c "?") eqn:Hc; [reflexivity |].
    cbn [occurs]. rewrite Hc. exact (IHnone Hrest).
  - destruct (Ascii.eqb c "?" && negb (has_line_terminator rest)) eqn:Hcut;
      [reflexivity |].
    cbn [strip_query].
    destruct (Ascii.eqb c "?") eqn:Hc.
    + (* the [?] stays because a line terminator follows; it still does *)
      cbn [andb] in Hcut. apply negb_false_iff in Hcut.
      rewrite (strip_query_keeps_line_terminator rest Hcut).
      cbn [negb andb]. rewrite IHidem. reflexivity.
    + cbn [andb]. rewrite IHidem. reflexivity.
Qed.

(** ** Traversal chains *)

(** X7. The steps of a chain are applied from left to right: running a
    chain made of two parts is running the first part and then, unless it
    raised, the second part on what it returned. *)
Theorem apply_chain_app (pg : page) (steps1 steps2 : list chain_step)
        (elements : jq_value) :
  apply_chain pg (steps1 ++ steps2)%list elements =
  match apply_chain pg steps1 elements with
  | inl elements' => apply_chain pg steps2 elements'
  | inr message => inr message
  end.
Proof.
  revert elements. induction steps1 as [| step rest IH]; intros elements.
  - reflexivity.
  - cbn [app apply_chain].
    destruct (nullish elements); [reflexivity |].
    destruct (jq_member pg elements (step_func step)) as [| | f];
      [reflexivity | reflexivity |].
    destruct (f (step_args step) elements) as [elements' |]; [| reflexivity].
    apply IH.
Qed.

(** ** Selector resolution with matches, and with other failures *)

Lemma map_ELEMENT_then_elements (found : list json) :
  map (fun id => match id with
                 | VJson j => VElement (Some j)
                 | _ => VElement None
                 end) (map VJson found) =
  map (fun id => VElement (Some id)) found.
Proof. rewrite map_map. reflexivity. Qed.

(** X8. On the native strategy, when the remote end lists the matches
    [found], [getList] yields one element per match, in that order, and
    [get] yields the element of the first match (for an identifier that
    is not falsy). *)
Theorem native_resolution_yields_matches (P : platform) (net : transport)
        (self : WebDriver) (selector : string)
        (params : option selector_params) (fuel : nat) (sent : list request)
        (found : list json) :
  bad_parent (given params) = false ->
  customStrategyHash (effective_using self (given params)) = NativeStrategy ->
  (forall single,
      runs_find P net self selector
        (normalize self (with_isSingle single (given params))) sent found) ->
  snd (getList P net self selector params fuel sent) =
  Some (Callback None (VList (map (fun id => VElement (Some id)) found))) /\
  (forall id rest,
      found = id :: rest -> truthy id = true ->
      snd (get P net self selector params fuel sent) =
      Some (Callback None (VElement (Some id)))).
Proof.
  intros Hparent Hstrategy Hfind. split.
  - rewrite (getList_of_getIds P net self selector params fuel sent
                               (map VJson found)).
    + rewrite map_ELEMENT_then_elements. reflexivity.
    + unfold _getIds.
      change (bad_parent (with_isSingle false (given params)))
        with (bad_parent (given params)).
      rewrite Hparent.
      change (effective_using self (with_isSingle false (given params)))
        with (effective_using self (given params)).
      rewrite Hstrategy. cbn [_cmd snd].
      pose proof (Hfind false) as Hf. unfold runs_find in Hf.
      cbn [isSingle normalize with_isSingle remote_find] in Hf.
      erewrite replies_returns; [| exact Hf | reflexivity].
      cbn [unwrap Array_isArray orb native_callback isSingle normalize
           with_isSingle].
      rewrite map_ELEMENT_refs. reflexivity.
  - intros id rest -> Hid.
    rewrite (get_of_getIds P net self selector params fuel sent None (VJson id)).
    + rewrite Hid. reflexivity.
    + unfold _getIds.
      change (bad_parent (with_isSingle true (given params)))
        with (bad_parent (given params)).
      rewrite Hparent.
      change (effective_using self (with_isSingle true (given params)))
        with (effective_using self (given params)).
      rewrite Hstrategy. cbn [_cmd snd].
      pose proof (Hfind true) as Hf. unfold runs_find in Hf.
      cbn [isSingle normalize with_isSingle remote_find] in Hf.
      erewrite replies_returns; [| exact Hf | reflexivity].
      reflexivity.
Qed.

Lemma native_resolution_yields_matches_witness :
  snd (getList (stub_platform [remote_find true [JNum 5; JNum 6];
                               remote_find false [JNum 5; JNum 6]])
               (table_server
                  (map (fun single =>
                          (build_request
                             (stub_platform [remote_find true [JNum 5; JNum 6];
                                             remote_find false [JNum 5; JNum 6]])
                             driver_abc123
                             (find_params driver_abc123 ".textfield"
                                (normalize driver_abc123
                                   (with_isSingle single no_params))),
                           answer (remote_find single [JNum 5; JNum 6])))
                       [true; false]))
               driver_abc123 ".textfield" None 3 []) =
  Some (Callback None (VList [VElement (Some (JNum 5)); VElement (Some (JNum 6))])).
Proof.
  refine (proj1 (native_resolution_yields_matches _ _ driver_abc123 ".textfield"
                   None 3 [] [JNum 5; JNum 6] eq_refl eq_refl _)).
  intros [|]; eexists; split; reflexivity.
Defined.

Lemma no_such_element_is_status_7 (status : json) (ps : context) :
  is_NoSuchElementError (StatusError status ps) = true -> status = JNum 7.
Proof.
  destruct status as [| b | n | s | items | fields]; try discriminate.
  destruct n as [| p | p]; try discriminate.
  destruct p as [p | p |]; try discriminate.
  destruct p as [p | p |]; try discriminate.
  destruct p as [p | p |]; try discriminate.
  reflexivity.
Qed.

(** X9. [noError] suppresses "no such element" only: on the native
    strategy, a find command answered with any other non-zero status
    makes [get] and [getList] report that status as an error, with the
    selector and the strategy attached, whether [noError] is set or not. *)
Theorem noError_keeps_other_errors (P : platform) (net : transport)
        (self : WebDriver) (selector : string)
        (params : option selector_params) (fuel : nat) (sent : list request)
        (status : json) :
  bad_parent (given params) = false ->
  customStrategyHash (effective_using self (given params)) = NativeStrategy ->
  truthy status = true ->
  status <> JNum 7 ->
  (forall single,
      replies P
        (net (build_request P self
                (find_params self selector
                   (normalize self (with_isSingle single (given params))))
              :: sent))
        (JObj [("status", status)])) ->
  snd (get P net self selector params fuel sent) =
  Some (Callback (Some (StatusError status
                          (resolution_context self selector params)))
                 (VJson (JBool false))) /\
  snd (getList P net self selector params fuel sent) =
  Some (Callback (Some (StatusError status
                          (resolution_context self selector params)))
                 (VJson (JBool false))).
Proof.
  intros Hparent Hstrategy Htruthy Hnot Hreply.
  assert (Hkind : forall ps, is_NoSuchElementError (StatusError status ps) = false).
  { intros ps. destruct (is_NoSuchElementError (StatusError status ps)) eqn:H;
      [| reflexivity].
    apply no_such_element_is_status_7 in H. contradiction. }
  assert (Hids : forall single,
    snd (_getIds P net self selector (with_isSingle single (given params))
                 fuel sent) =
    Some (Callback (Some (StatusError status
                            (resolution_context self selector params)))
                   (VJson (JBool false)))).
  { intros single. unfold _getIds.
    change (bad_parent (with_isSingle single (given params)))
      with (bad_parent (given params)).
    change (effective_using self (with_isSingle single (given params)))
      with (effective_using self (given params)).
    rewrite Hparent, Hstrategy. cbn [_cmd snd].
    erewrite replies_status;
      [| exact (Hreply single) | reflexivity | exact Htruthy].
    unfold native_callback. rewrite Hkind, andb_false_r. reflexivity. }
  split.
  - rewrite (get_of_getIds P net self selector params fuel sent _ _ (Hids true)).
    reflexivity.
  - unfold getList. pose proof (Hids false) as Hf.
    destruct (_getIds P net self selector (with_isSingle false (given params))
                      fuel sent) as [sent' r].
    cbn [snd] in *. subst r. reflexivity.
Qed.

Lemma noError_keeps_other_errors_witness :
  snd (get (stub_platform [JObj [("status", JNum 10)]])
           (fun _ => answer (JObj [("status", JNum 10)]))
           driver_abc123 ".stale" (Some just_noError) 3 []) =
  Some (Callback (Some (StatusError (JNum 10)
                          [("element", JStr ".stale");
                           ("using", JStr "css selector")]))
                 (VJson (JBool false))).
Proof.
  refine (proj1 (noError_keeps_other_errors
                   (stub_platform [JObj [("status", JNum 10)]])
                   (fun _ => answer (JObj [("status", JNum 10)]))
                   driver_abc123 ".stale" (Some just_noError) 3 [] (JNum 10)
                   eq_refl eq_refl eq_refl _ _)).
  - discriminate.
  - intros single. eexists. split; reflexivity.
Defined.

(** X10. A [parent] that is truthy and no [WebElement] makes [get] and
    [getList] raise before anything is sent: no request is issued and
    the callback is not invoked. *)
Theorem bad_parent_raises_before_any_request (P : platform) (net : transport)
        (self : WebDriver) (selector : string)
        (params : option selector_params) (fuel : nat) (sent : list request) :
  bad_parent (given params) = true ->
  get P net self selector params fuel sent =
  (sent, Some (Throw (PlainError "Parent should be instanceof WebElement"))) /\
  getList P net self selector params fuel sent =
  (sent, Some (Throw (PlainError "Parent should be instanceof WebElement"))).
Proof.
  intros Hparent. unfold get, getList, _getIds.
  change (bad_parent (with_isSingle true (given params)))
    with (bad_parent (given params)).
  change (bad_parent (with_isSingle false (given params)))
    with (bad_parent (given params)).
  rewrite Hparent. split; reflexivity.
Qed.

Lemma bad_parent_raises_before_any_request_witness :
  get (stub_platform []) refusing driver_abc123 "a" (Some string_parent) 3 [] =
  ([], Some (Throw (PlainError "Parent should be instanceof WebElement"))).
Proof.
  refine (proj1 (bad_parent_raises_before_any_request
                   (stub_platform []) refusing driver_abc123 "a"
                   (Some string_parent) 3 [] eq_refl)).
Defined.

(** X11. On the jquery strategy, when the selection function selects
    the elements [found] (not none) on every page the resolution sees,
    [getList] yields one element per selected one, in that order, and
    [get] yields the first (for an identifier that is not falsy). *)
Theorem jquery_resolution_yields_selection (P : platform) (net : transport)
        (self : WebDriver) (selector : string)
        (params : option selector_params) (pages : list request -> page)
        (fuel : nat) (sent : list request) (first : json) (others : list json) :
  bad_parent (given params) = false ->
  customStrategyHash (effective_using self (given params)) = JqueryStrategy ->
  (forall single,
      runs_select_snippet P net self selector
        (normalize self (with_isSingle single (given params))) pages) ->
  (forall s,
      ___nwdJqGetElements (pages s) selector
        (parent_arg (normalize self (given params))) (chain (given params)) =
      Returns (JArr (map element_ref (first :: others)))) ->
  3 <= fuel ->
  snd (getList P net self selector params fuel sent) =
  Some (Callback None
          (VList (map (fun id => VElement (Some id)) (first :: others)))) /\
  (truthy first = true ->
   snd (get P net self selector params fuel sent) =
   Some (Callback None (VElement (Some first)))).
Proof.
  intros Hparent Hstrategy Hruns Hselected Hfuel.
  assert (Hids : forall single,
    snd (_getIds P net self selector (with_isSingle single (given params))
                 fuel sent) =
    Some (Callback None
            (if single then VJson first
             else VList (map VJson (first :: others))))).
  { intros single. unfold _getIds.
    change (bad_parent (with_isSingle single (given params)))
      with (bad_parent (given params)).
    change (effective_using self (with_isSingle single (given params)))
      with (effective_using self (given params)).
    rewrite Hparent, Hstrategy.
    destruct (jquery_resolves P net self selector
                (normalize self (with_isSingle single (given params))) pages
                fuel sent (Hruns single) Hfuel) as [sent' [last_sent ->]].
    change (parent_arg (normalize self (with_isSingle single (given params))))
      with (parent_arg (normalize self (given params))).
    change (chain (normalize self (with_isSingle single (given params))))
      with (chain (given params)).
    rewrite Hselected. cbn [snd option_map settle]. unfold on_elements.
    rewrite map_ELEMENT_refs. cbn [map custom_callback isSingle normalize
                                   with_isSingle nth].
    destruct single; reflexivity. }
  split.
  - rewrite (getList_of_getIds P net self selector params fuel sent _
                               (Hids false)).
    rewrite map_ELEMENT_then_elements. reflexivity.
  - intros Hfirst.
    rewrite (get_of_getIds P net self selector params fuel sent _ _ (Hids true)).
    rewrite Hfirst. reflexivity.
Qed.

Lemma jquery_resolution_yields_selection_witness :
  snd (getList (stub_platform (snippet_envelopes (fresh_page [JNum 5; JNum 6])
                                                 "form" using_jquery))
               (browser (stub_platform (snippet_envelopes
                                          (fresh_page [JNum 5; JNum 6]) "form"
                                          using_jquery))
                        (fresh_page [JNum 5; JNum 6]) driver_abc123 "form"
                        using_jquery)
               driver_abc123 "form" (Some using_jquery) 3 []) =
  Some (Callback None (VList [VElement (Some (JNum 5)); VElement (Some (JNum 6))])).
Proof.
  refine (proj1 (jquery_resolution_yields_selection _ _ driver_abc123 "form"
                   (Some using_jquery) (fun _ => fresh_page [JNum 5; JNum 6])
                   3 [] (JNum 5) [JNum 6] eq_refl eq_refl _ _ (le_n 3))).
  - intros [|] sent [| |]; eexists; split; reflexivity.
  - reflexivity.
Defined.

(** ** Delegated element surface and [waitForElementAbsent] *)

(** X12. [driver.element.method(selector, params, ...)] on a selector
    without matches, with [noError] set in [params]: [get] hands
    [(null, null)] to the internal callback, which then reads the method
    off [null]. A [TypeError] escapes and the caller's callback is not
    invoked. *)
Theorem element_method_raises_on_missing_element
        (isSelectorParams : arg -> bool)
        (WebElement_prototype : list (string * (value -> list arg -> comp)))
        (P : platform) (net : transport) (self : WebDriver) (fuel : nat)
        (method : string) (m : string -> list arg -> comp)
        (selector : string) (p : selector_params) (args : list arg)
        (sent : list request) :
  element isSelectorParams WebElement_prototype P net self fuel method = Some m ->
  isSelectorParams (AObject p) = true ->
  noError p = true ->
  bad_parent p = false ->
  customStrategyHash (effective_using self p) = NativeStrategy ->
  runs_find P net self selector (normalize self (with_isSingle true p)) sent [] ->
  snd (m selector (AObject p :: args) sent) =
  Some (Throw (TypeError "Cannot read property of a value that is no element")).
Proof.
  intros Hmember Hparams HnoError Hparent Hstrategy Hfind.
  unfold element in Hmember.
  destruct (String.prefix "_" method); [discriminate |].
  destruct (assoc method WebElement_prototype); [| discriminate].
  injection Hmember as <-.
  unfold element_method. cbn [nth]. rewrite Hparams. cbn [get_apply].
  assert (Hget : snd (get P net self selector (Some p) fuel sent) =
                 Some (Callback None (VJson JNull))).
  { rewrite (get_of_getIds P net self selector (Some p) fuel sent None
                           (VJson JNull)); [reflexivity |].
    cbn [given].
    rewrite (getIds_native_zero P net self selector (with_isSingle true p)
                                fuel sent Hparent Hstrategy Hfind).
    cbn [isSingle noError with_isSingle]. rewrite HnoError. reflexivity. }
  unfold andThen.
  destruct (get P net self selector (Some p) fuel sent) as [sent' r].
  cbn [snd] in Hget. subst r. reflexivity.
Qed.

Lemma element_method_raises_on_missing_element_witness :
  snd (element_method objects_are_params sample_prototype
         (stub_platform [remote_find true []; remote_find false []])
         (empty_document
            (stub_platform [remote_find true []; remote_find false []])
            driver_abc123 ".missing" just_noError)
         driver_abc123 3 "getValue" ".missing"
         [AObject just_noError; AFunction finish] []) =
  Some (Throw (TypeError "Cannot read property of a value that is no element")).
Proof.
  apply (element_method_raises_on_missing_element objects_are_params
           sample_prototype
           (stub_platform [remote_find true []; remote_find false []])
           (empty_document
              (stub_platform [remote_find true []; remote_find false []])
              driver_abc123 ".missing" just_noError)
           driver_abc123 3 "getValue"
           (element_method _ _ _ _ _ _ "getValue")
           ".missing" just_noError [AFunction finish] []);
    try reflexivity.
  eexists. split; reflexivity.
Defined.

(** X13. [waitForElementAbsent] on a selector without matches (native
    strategy) issues the one lookup and yields the driver at once, without
    consulting the element's [waitForDisappear]. When [params] carries a
    falsy [noError] of its own, that overrides the [{noError: true}]
    default and the call fails with "no such element" instead. *)
Theorem waitForElementAbsent_on_missing_element (P : platform)
        (net : transport) (self : WebDriver) (selector : string)
        (params : option selector_params) (own_noError : bool)
        (waitForDisappear : value -> comp) (fuel : nat) (sent : list request) :
  bad_parent (given params) = false ->
  customStrategyHash (effective_using self (given params)) = NativeStrategy ->
  runs_find P net self selector
    (normalize self (with_isSingle true (absent_params params own_noError)))
    sent [] ->
  snd (waitForElementAbsent P net self selector params own_noError
                            waitForDisappear fuel sent) =
  Some (if own_noError && negb (noError (given params))
        then Callback
               (Some (NoSuchElementError
                        (resolution_context self selector params)))
               VUndefined
        else Callback None VSelf).
Proof.
  intros Hparent Hstrategy Hfind.
  assert (Hids :
    snd (_getIds P net self selector
           (with_isSingle true (given (Some (absent_params params own_noError))))
           fuel sent) =
    Some (if own_noError && negb (noError (given params))
          then Callback
                 (Some (NoSuchElementError
                          (resolution_context self selector params)))
                 (VJson (JBool false))
          else Callback None (VJson JNull))).
  { cbn [given].
    rewrite (getIds_native_zero P net self selector
               (with_isSingle true (absent_params params own_noError))
               fuel sent Hparent Hstrategy Hfind).
    cbn [isSingle noError with_isSingle absent_params].
    destruct own_noError; [| reflexivity].
    destruct (noError (given params)); reflexivity. }
  unfold waitForElementAbsent.
  destruct (own_noError && negb (noError (given params)));
    pose proof (get_of_getIds P net self selector
                  (Some (absent_params params own_noError)) fuel sent _ _ Hids)
      as Hget;
    destruct (get P net self selector
                  (Some (absent_params params own_noError)) fuel sent)
      as [sent' r];
    cbn [snd] in Hget; subst r; reflexivity.
Qed.

Lemma waitForElementAbsent_on_missing_element_witness :
  snd (waitForElementAbsent
         (stub_platform [remote_find true []; remote_find false []])
         (empty_document
            (stub_platform [remote_find true []; remote_find false []])
            driver_abc123 ".missing" no_params)
         driver_abc123 ".missing" None false
         (fun _ => throw (PlainError "not consulted")) 3 []) =
  Some (Callback None VSelf).
Proof.
  apply (waitForElementAbsent_on_missing_element
           (stub_platform [remote_find true []; remote_find false []])
           (empty_document
              (stub_platform [remote_find true []; remote_find false []])
              driver_abc123 ".missing" no_params)
           driver_abc123 ".missing" None false
           (fun _ => throw (PlainError "not consulted")) 3 []);
    try reflexivity.
  eexists. split; reflexivity.
Defined.

(** ** Timeouts *)

Lemma assoc_obj_set_same {A : Type} (k : string) (v : A)
      (l : list (string * A)) :
  assoc k (obj_set k v l) = Some v.
Proof.
  induction l as [| [k' v'] l IH]; cbn.
  - rewrite String.eqb_refl. reflexivity.
  - destruct (String.eqb k k') eqn:Hk; cbn; rewrite Hk; [reflexivity | exact IH].
Qed.

Lemma assoc_obj_set_other {A : Type} (k k' : string) (v : A)
      (l : list (string * A)) :
  k' <> k -> assoc k' (obj_set k v l) = assoc k' l.
Proof.
  intros Hne. induction l as [| [k0 v0] l IH]; cbn.
  - apply String.eqb_neq in Hne. rewrite Hne. reflexivity.
  - destruct (String.eqb k k0) eqn:Hk; cbn.
    + apply String.eqb_eq in Hk. subst k0.
      apply String.eqb_neq in Hne. rewrite Hne. reflexivity.
    + destruct (String.eqb k' k0); [reflexivity | exact IH].
Qed.

(** X14. [setTimeout] and [getTimeout] round trip. When [setTimeout]
    calls back without error, [getTimeout] of that category answers the
    new value and every other category answers what it did before; when
    it calls back with an error, the driver is as it was. ([__proto__] is
    left out: assigning to it creates no property.) *)
Theorem setTimeout_then_getTimeout (P : platform) (net : transport)
        (self : WebDriver) (type : string) (timeout : json)
        (sent : list request) :
  type <> "__proto__" ->
  let self' := fst (fst (setTimeout P net self type timeout sent)) in
  (forall v,
      snd (setTimeout P net self type timeout sent) = Callback None v ->
      getTimeout self' type = Own timeout /\
      forall other, other <> type ->
                    getTimeout self' other = getTimeout self other) /\
  (forall e v,
      snd (setTimeout P net self type timeout sent) = Callback (Some e) v ->
      self' = self).
Proof.
  intros _ self'. unfold self', setTimeout.
  destruct (js_in type (_protocolTimeoutsHash self)).
  - destruct (_cmd P net self _ sent) as [sent' r].
    destruct r as [[err |] v | e |]; cbn [fst snd]; split;
      try (intros; discriminate); try (intros; reflexivity).
    intros _ _. unfold getTimeout, js_get. cbn [timeouts set_timeouts].
    rewrite assoc_obj_set_same. split; [reflexivity |].
    intros other Hother. rewrite (assoc_obj_set_other _ _ _ _ Hother).
    reflexivity.
  - cbn [fst snd]. split; [| intros; discriminate].
    intros _ _. unfold getTimeout, js_get. cbn [timeouts set_timeouts].
    rewrite assoc_obj_set_same. split; [reflexivity |].
    intros other Hother. rewrite (assoc_obj_set_other _ _ _ _ Hother).
    reflexivity.
Qed.

Lemma setTimeout_then_getTimeout_witness :
  getTimeout (fst (fst (setTimeout (stub_platform [created])
                                   (fun _ => answer created) driver_abc123
                                   "script" (JNum 500) [])))
             "script" = Own (JNum 500).
Proof.
  destruct (setTimeout_then_getTimeout (stub_platform [created])
              (fun _ => answer created) driver_abc123 "script" (JNum 500) [])
    as [Hok _]; [discriminate |].
  exact (proj1 (Hok VSelf eq_refl)).
Defined.

Lemma setTimeouts_loop_deficit (P : platform) (net : transport)
      (todo : list (string * json)) :
  forall (self : WebDriver) (count current : nat) (sent : list request),
    current + List.length todo < count ->
    no_success (snd (setTimeouts_loop P net self todo count current sent)).
Proof.
  unfold no_success.
  induction todo as [| [type timeout] rest IH];
    intros self count current sent Hlt.
  - constructor.
  - cbn [setTimeouts_loop List.length] in *.
    destruct (setTimeout P net self type timeout sent) as [[self' sent'] r].
    destruct r as [[err |] v | e |].
    + specialize (IH self' count current sent' ltac:(lia)).
      destruct (setTimeouts_loop P net self' rest count current sent')
        as [[self'' sent''] calls].
      cbn [snd] in *. constructor; [discriminate | exact IH].
    + specialize (IH self' count (S current) sent' ltac:(lia)).
      destruct (setTimeouts_loop P net self' rest count (S current) sent')
        as [[self'' sent''] calls].
      cbn [snd] in *.
      destruct (Nat.eqb_spec (S current) count); [lia | exact IH].
    + cbn [snd]. constructor; [discriminate | constructor].
    + cbn [snd]. constructor; [discriminate | constructor].
Qed.

Lemma setTimeouts_loop_exact (P : platform) (net : transport)
      (todo : list (string * json)) :
  forall (self : WebDriver) (count current : nat) (sent : list request),
    current + List.length todo = count ->
    snd (setTimeouts_loop P net self todo count current sent) =
    [Callback None VUndefined] \/
    no_success (snd (setTimeouts_loop P net self todo count current sent)).
Proof.
  induction todo as [| [type timeout] rest IH];
    intros self count current sent Heq.
  - right. constructor.
  - cbn [setTimeouts_loop List.length] in *.
    destruct (setTimeout P net self type timeout sent) as [[self' sent'] r].
    destruct r as [[err |] v | e |].
    + right.
      pose proof (setTimeouts_loop_deficit P net rest self' count current sent'
                    ltac:(lia)) as Hno.
      destruct (setTimeouts_loop P net self' rest count current sent')
        as [[self'' sent''] calls].
      cbn [snd] in *. constructor; [discriminate | exact Hno].
    + specialize (IH self' count (S current) sent' ltac:(lia)).
      destruct rest as [| next rest].
      * cbn [setTimeouts_loop snd].
        assert (Hc : S current = count) by (cbn in Heq; lia).
        apply Nat.eqb_eq in Hc. rewrite Hc. left. reflexivity.
      * destruct (setTimeouts_loop P net self' (next :: rest) count
                                   (S current) sent')
          as [[self'' sent''] calls].
        cbn [snd] in *.
        destruct (Nat.eqb_spec (S current) count);
          [cbn [List.length] in Heq; lia | exact IH].
    + right. cbn [snd]. constructor; [discriminate | constructor].
    + right. cbn [snd]. constructor; [discriminate | constructor].
Qed.

(** X15. [setTimeouts] reports success at most once and never together
    with an error: its callback is invoked either exactly once, without
    error, or never without error. For an empty table the callback is not
    invoked at all. *)
Theorem setTimeouts_reports (P : platform) (net : transport)
        (self : WebDriver) (t : list (string * json)) (sent : list request) :
  (snd (setTimeouts P net self t sent) = [Callback None VUndefined] \/
   no_success (snd (setTimeouts P net self t sent))) /\
  (t = [] -> snd (setTimeouts P net self t sent) = []).
Proof.
  split.
  - apply setTimeouts_loop_exact. reflexivity.
  - intros ->. reflexivity.
Qed.

Lemma setTimeout_accepted (P : platform) (net : transport) (self : WebDriver)
      (type : string) (timeout : json) (sent : list request) :
  accepts_everything P net ->
  snd (setTimeout P net self type timeout sent) = Callback None VSelf.
Proof.
  intros Haccept. unfold setTimeout.
  destruct (js_in type (_protocolTimeoutsHash self)); [| reflexivity].
  cbn [_cmd].
  destruct (Haccept
              (build_request P self
                 {| path := "/timeouts"; method := Some "POST";
                    data := Some (JObj [("type", JStr type); ("ms", timeout)]);
                    resNeeded := false |} :: sent)
              {| path := "/timeouts"; method := Some "POST";
                 data := Some (JObj [("type", JStr type); ("ms", timeout)]);
                 resNeeded := false |}) as [v ->].
  reflexivity.
Qed.

Lemma setTimeouts_loop_accepted (P : platform) (net : transport)
      (todo : list (string * json)) :
  accepts_everything P net ->
  forall (self : WebDriver) (count current : nat) (sent : list request),
    todo <> [] ->
    current + List.length todo = count ->
    snd (setTimeouts_loop P net self todo count current sent) =
    [Callback None VUndefined].
Proof.
  intros Haccept.
  induction todo as [| [type timeout] rest IH];
    intros self count current sent Hne Heq; [congruence |].
  cbn [setTimeouts_loop List.length] in *.
  pose proof (setTimeout_accepted P net self type timeout sent Haccept) as Hok.
  destruct (setTimeout P net self type timeout sent) as [[self' sent'] r].
  cbn [snd] in Hok. subst r.
  destruct rest as [| next rest].
  - cbn [setTimeouts_loop snd].
    assert (Hc : S current = count) by (cbn in Heq; lia).
    apply Nat.eqb_eq in Hc. rewrite Hc. reflexivity.
  - specialize (IH self' count (S current) sent' ltac:(discriminate)
                   ltac:(cbn [List.length] in *; lia)).
    destruct (setTimeouts_loop P net self' (next :: rest) count (S current)
                               sent') as [[self'' sent''] calls].
    cbn [snd] in *.
    destruct (Nat.eqb_spec (S current) count);
      [cbn [List.length] in Heq; lia | exact IH].
Qed.

Lemma obj_set_not_empty {A : Type} (k : string) (v : A)
      (l : list (string * A)) : obj_set k v l <> [].
Proof.
  destruct l as [| [k' v'] l]; cbn; [discriminate |].
  destruct (String.eqb k k'); discriminate.
Qed.

Lemma extend_not_empty {A : Type} (source target : list (string * A)) :
  target <> [] -> extend target source <> [].
Proof.
  unfold extend. revert target.
  induction source as [| [k v] source IH]; intros target Hne; [exact Hne |].
  cbn [fold_left fst snd]. apply IH. apply obj_set_not_empty.
Qed.

(** X16. Against a remote end that accepts every command and names the
    session, [init] on a new driver invokes its callback exactly once,
    with no error and the driver. *)
Theorem init_reports_once (P : platform) (net : transport)
        (options : driver_options) (sent : list request)
        (res : response) (fields : list (string * json)) (id : json) :
  let self := new_WebDriver options in
  accepts_everything P net ->
  net (build_request P self (init_params self) :: sent) = HttpResponse res ->
  JSON_parse P (body_text res) = inl (JObj fields) ->
  truthy_opt (assoc "status" fields) = false ->
  session_id_of (headers res) (JObj fields) = Some id ->
  init_calls (init P net self sent) = [Callback None VSelf].
Proof.
  intros self Haccept Hnet Hparse Hstatus Hid.
  unfold init, init_calls. cbn [_cmd]. rewrite Hnet.
  rewrite (handle_success P _ res fields Hparse Hstatus).
  cbn [resNeeded init_params]. rewrite Hid. unfold setTimeouts.
  pose proof (setTimeouts_loop_accepted P net
                (timeouts (set_session self id)) Haccept
                (set_session self id)
                (List.length (timeouts (set_session self id))) 0
                (build_request P self (init_params self) :: sent)) as Hcalls.
  destruct (setTimeouts_loop P net (set_session self id) _ _ _ _)
    as [[self' sent'] calls].
  cbn [snd] in *. rewrite Hcalls; [reflexivity | | reflexivity].
  cbn [timeouts set_session self new_WebDriver].
  apply extend_not_empty. discriminate.
Qed.

Lemma init_reports_once_witness :
  init_calls (init (stub_platform [created]) location_server
                   (new_WebDriver no_options) []) =
  [Callback None VSelf].
Proof.
  apply (init_reports_once (stub_platform [created]) location_server
           no_options []
           {| headers := [("location",
                           "http://127.0.0.1:4444/wd/hub/session/abc123")];
              body := stringify created |}
           [("status", JNum 0)] (JStr "abc123"));
    try reflexivity.
  intros sent params. unfold location_server.
  destruct sent as [| r [| r' sent]]; eexists; reflexivity.
Defined.

(** ** Polling engine: what it does guarantee *)

Lemma pending_schedule (t : nat) (e : event) (q : list (nat * event)) :
  pending (schedule t e q) =
  match e with
  | Poll | Report _ => S (pending q)
  | _ => pending q
  end.
Proof.
  induction q as [| [t' e'] q IH]; [destruct e; reflexivity |].
  cbn [schedule]. destruct (Nat.ltb t t').
  - destruct e; reflexivity.
  - destruct e'; cbn [pending]; rewrite IH; destruct e; reflexivity.
Qed.

Lemma no_failure_schedule (t : nat) (e : event) (q : list (nat * event)) :
  (forall err, e <> Failure err) ->
  no_failure_pending q -> no_failure_pending (schedule t e q).
Proof.
  unfold no_failure_pending. intros He.
  induction q as [| [t' e'] q IH]; intros Hq; cbn [schedule].
  - constructor; [exact He | constructor].
  - destruct (Nat.ltb t t').
    + constructor; [exact He | exact Hq].
    + inversion Hq as [| x l Hx Hl]; subst.
      constructor; [exact Hx | apply IH; exact Hl].
Qed.

Section PollingInvariant.

Variable func : nat -> behaviour.
Variable params : wait_params.
Variable timeout : nat.

Hypothesis well_behaved : answers_through_waitcb func.

Lemma invariant_wait_execute (st : loop) :
  pending (queue st) = 0 ->
  no_failure_pending (queue st) ->
  calls st = [] -> isTimeoutExceeded st = false ->
  polling_invariant (wait_execute timeout st).
Proof.
  intros Hpending Hfail Hcalls Hexceeded.
  unfold polling_invariant, wait_execute, arm. cbn [queue calls isTimeoutExceeded].
  rewrite !pending_schedule, Hpending. split; [lia |]. split.
  - apply no_failure_schedule; [discriminate |].
    apply no_failure_schedule; [discriminate | exact Hfail].
  - left. split; assumption.
Qed.

Lemma invariant_report (done : bool) (st : loop) :
  pending (queue st) = 0 ->
  no_failure_pending (queue st) ->
  ((calls st = [] /\ isTimeoutExceeded st = false) \/
   (isTimeoutExceeded st = true /\ Forall by_deadline (calls st))) ->
  polling_invariant (report timeout done st).
Proof.
  intros Hpending Hfail Hcases. unfold report.
  cbn [isTimeoutExceeded set_isDone].
  destruct Hcases as [[Hcalls Hexceeded] | [Hexceeded Hcalls]];
    rewrite Hexceeded; cbn [negb andb].
  - destruct done; cbn [andb].
    + unfold polling_invariant.
      cbn [invoke_callback set_isDone queue calls isDone isTimeoutExceeded now].
      rewrite Hpending, Hcalls. split; [lia |]. split; [exact Hfail |].
      right. left. exists (now st). repeat split.
    + apply invariant_wait_execute; assumption.
  - rewrite andb_false_r. unfold polling_invariant.
    cbn [set_isDone queue calls isDone isTimeoutExceeded].
    rewrite Hpending. split; [lia |]. split; [exact Hfail |].
    right. right. split; assumption.
Qed.

Lemma invariant_fire (t : nat) (e : event) (st : loop)
      (q : list (nat * event)) :
  polling_invariant st ->
  queue st = (t, e) :: q ->
  polling_invariant
    (fire func params timeout e
          {| now := t; queue := q; isDone := isDone st;
             isTimeoutExceeded := isTimeoutExceeded st;
             attempts := attempts st; calls := calls st |}).
Proof.
  intros [Hpending [Hfail Hcases]] Hqueue. rewrite Hqueue in *.
  unfold no_failure_pending in Hfail.
  inversion Hfail as [| x l Hhead Htail]; subst.
  destruct e as [| | done | err].
  - (* the poll timer *)
    cbn [pending] in Hpending.
    assert (Hq : pending q = 0) by lia.
    assert (Hcases' :
      (calls st = [] /\ isTimeoutExceeded st = false) \/
      (isTimeoutExceeded st = true /\ Forall by_deadline (calls st))).
    { destruct Hcases as [H | [[t' [_ [_ H]]] | H]]; [left; exact H | | right; exact H].
      cbn [pending] in H. discriminate. }
    cbn [fire attempts]. pose proof (well_behaved (attempts st)) as Hk.
    destruct (func (attempts st)) as [after done | after err | e |];
      try contradiction.
    + destruct after as [| after].
      * apply invariant_report; cbn [count_attempt queue calls isTimeoutExceeded];
          assumption.
      * unfold polling_invariant, arm, count_attempt.
        cbn [queue calls isDone isTimeoutExceeded].
        rewrite pending_schedule, Hq. split; [lia |]. split.
        -- apply no_failure_schedule; [discriminate | exact Htail].
        -- destruct Hcases' as [H | H]; [left; exact H | right; right; exact H].
    + unfold polling_invariant, count_attempt.
      cbn [queue calls isDone isTimeoutExceeded].
      rewrite Hq. split; [lia |]. split; [exact Htail |].
      destruct Hcases' as [H | H]; [left; exact H | right; right; exact H].
  - (* a deadline timer *)
    cbn [pending] in Hpending. cbn [fire]. unfold deadline.
    cbn [isDone].
    destruct (isDone st) eqn:Hdone; cbn [negb].
    + unfold polling_invariant. cbn [queue calls isDone isTimeoutExceeded].
      split; [exact Hpending |]. split; [exact Htail |].
      destruct Hcases as [H | [[t' [Hc [Hd Hp]]] | H]];
        [left; exact H | | right; right; exact H].
      right. left. exists t'. cbn [pending] in Hp. repeat split; assumption.
    + unfold polling_invariant, invoke_callback, set_isTimeoutExceeded.
      cbn [queue calls isDone isTimeoutExceeded now].
      split; [exact Hpending |]. split; [exact Htail |].
      right. right. split; [reflexivity |].
      constructor; [eexists; reflexivity |].
      destruct Hcases as [[Hc _] | [[t' [_ [Hd _]]] | [_ Hc]]];
        [rewrite Hc; constructor | congruence | exact Hc].
  - (* an answer of the predicate *)
    cbn [pending] in Hpending.
    assert (Hq : pending q = 0) by lia.
    assert (Hcases' :
      (calls st = [] /\ isTimeoutExceeded st = false) \/
      (isTimeoutExceeded st = true /\ Forall by_deadline (calls st))).
    { destruct Hcases as [H | [[t' [_ [_ H]]] | H]]; [left; exact H | | right; exact H].
      cbn [pending] in H. discriminate. }
    cbn [fire]. apply invariant_report; cbn [queue calls isTimeoutExceeded];
      assumption.
  - exfalso. exact (Hhead err eq_refl).
Qed.

Lemma invariant_run (fuel : nat) :
  forall st st',
    polling_invariant st ->
    run func params timeout fuel st = Some st' ->
    polling_invariant st'.
Proof.
  induction fuel as [| fuel IH]; intros st st' Hinv Hrun; [discriminate |].
  cbn [run] in Hrun.
  destruct (queue st) as [| [t e] q] eqn:Hqueue.
  - injection Hrun as <-. exact Hinv.
  - eapply IH; [| exact Hrun]. apply invariant_fire; assumption.
Qed.

End PollingInvariant.

(** X17. For a predicate that only answers through [waitcb]: when
    [waitFor] reports success, that is the only invocation of the
    callback; no timeout report comes before or after it, and success is
    not reported twice. *)
Theorem waitFor_success_is_exclusive (self : WebDriver)
        (func : nat -> behaviour) (params : wait_params) (fuel : nat)
        (calls : list (nat * outcome)) (t : nat) :
  answers_through_waitcb func ->
  waitFor self func params fuel = Some calls ->
  In (t, Callback None VSelf) calls ->
  calls = [(t, Callback None VSelf)].
Proof.
  intros Hfunc Hwait Hin. unfold waitFor in Hwait.
  destruct (run func params (wait_timeout self params) fuel
                (wait_execute (wait_timeout self params) idle))
    as [st |] eqn:Hrun; [| discriminate].
  cbn [option_map] in Hwait. injection Hwait as <-.
  assert (Hinv : polling_invariant st).
  { eapply (invariant_run func params (wait_timeout self params) Hfunc fuel);
      [| exact Hrun].
    apply invariant_wait_execute; try reflexivity. constructor. }
  destruct Hinv as [_ [_ [[Hcalls _] | [[t' [Hcalls _]] | [_ Hall]]]]].
  - rewrite Hcalls in Hin. destruct Hin.
  - rewrite Hcalls in *. cbn in Hin. destruct Hin as [<- | []]. reflexivity.
  - exfalso. apply in_rev in Hin.
    rewrite Forall_forall in Hall. destruct (Hall _ Hin) as [err Herr].
    cbn in Herr. discriminate.
Qed.

Lemma waitFor_success_is_exclusive_witness :
  waitFor driver_abc123 (fun k => Reports 0 (Nat.eqb k 1)) wait_50ms 100 =
  Some [(40, Callback None VSelf)] /\
  [(40, Callback None VSelf)] = [(40, Callback None VSelf)].
Proof.
  split; [vm_compute; reflexivity |].
  apply (waitFor_success_is_exclusive driver_abc123
           (fun k => Reports 0 (Nat.eqb k 1)) wait_50ms 100
           [(40, Callback None VSelf)] 40).
  - intros k. exact I.
  - vm_compute. reflexivity.
  - left. reflexivity.
Defined.

(** X18. With a timeout of [n] ms in force, [n] a whole number from 1
    to 2^31-1, a predicate that never answers its first call is reported
    exactly once, [n] ms after the start: with the error
    [Timeout (n ms) exceeded], or with [null] when [noError] is set. *)
Theorem waitFor_silent_predicate (self : WebDriver) (func : nat -> behaviour)
        (params : wait_params) (fuel n : nat) :
  numeric_timeout self params n ->
  func 0 = Silent ->
  3 <= fuel ->
  waitFor self func params fuel =
  Some [(n,
         Callback (if wp_noError params then None
                   else Some (PlainError
                                ("Timeout (" ++ string_of_nat n ++
                                 " ms) exceeded" ++
                                 match wp_errorMessage params with
                                 | Some m =>
                                     if str_truthy m then " while " ++ m
                                     else ""
                                 | None => ""
                                 end)))
                  VUndefined)].
Proof.
  intros Hn Hsilent Hfuel. destruct fuel as [| [| [| fuel]]]; try lia.
  change ("Timeout (" ++ string_of_nat n ++ " ms) exceeded" ++
          match wp_errorMessage params with
          | Some m => if str_truthy m then " while " ++ m else ""
          | None => ""
          end) with (timeout_message n params).
  rewrite <- (wait_timeout_numeric self params n Hn).
  unfold waitFor. generalize (wait_timeout self params) as T. intros T.
  unfold wait_execute, arm, idle, delay.
  cbn [queue now schedule isDone isTimeoutExceeded attempts calls Nat.add].
  destruct (Nat.ltb T 20) eqn:Hlt.
  - cbn [run queue]. cbn [fire deadline isDone negb].
    cbn [invoke_callback set_isTimeoutExceeded queue now calls attempts
         isDone isTimeoutExceeded].
    cbn [fire attempts]. rewrite Hsilent. cbn [count_attempt queue].
    destruct fuel; reflexivity.
  - cbn [run queue]. cbn [fire attempts]. rewrite Hsilent.
    cbn [count_attempt queue isDone isTimeoutExceeded calls attempts now].
    cbn [fire deadline isDone negb].
    cbn [invoke_callback set_isTimeoutExceeded queue now calls attempts
         isDone isTimeoutExceeded].
    destruct fuel; reflexivity.
Qed.

Lemma waitFor_silent_predicate_witness :
  waitFor driver_abc123 (fun _ => Silent) wait_50ms 3 =
  Some [(50, timed_out_50ms)].
Proof.
  apply (waitFor_silent_predicate driver_abc123 (fun _ => Silent) wait_50ms 3
                                  50);
    [split; [lia | reflexivity] | reflexivity | lia].
Defined.

(** ** [waitForRedirect] and [getCookie] *)

(** X19. [waitForRedirect] waits with the empty string as old URL: a
    falsy [newUrl] fails at once with the local error; for a string
    [newUrl] that is not empty it polls through [waitFor], reporting a
    timeout as an error that names [newUrl], with a predicate that,
    whenever [getUrl] yields a URL, reports whether that URL with its
    query stripped equals [newUrl]. *)
Theorem waitForRedirect_condition (P : platform) (net : transport)
        (self : WebDriver) (newUrl : url_pattern) (latency : nat -> nat)
        (sent : list request) (fuel : nat) :
  (url_truthy newUrl = false ->
   waitForRedirect P net self newUrl latency sent fuel =
   Some [(0, Callback
               (Some (PlainError "Both of new and old url can`t be falsy."))
               VUndefined)]) /\
  (forall s,
      newUrl = UrlString s -> s <> "" ->
      (exists params,
          waitForRedirect P net self newUrl latency sent fuel =
          waitFor self
                  (url_predicate P net self (UrlString "") newUrl latency sent)
                  params fuel /\
          wp_noError params = false /\
          wp_errorMessage params = Some ("waiting for url change to " ++ s)) /\
      forall k url,
        snd (getUrl P net self
               (repeat (build_request P self getUrl_params) k ++ sent)) =
        Callback None (VJson (JStr url)) ->
        url_predicate P net self (UrlString "") newUrl latency sent k =
        Reports (latency k) (String.eqb s (strip_query url))).
Proof.
  split.
  - intros Hnew. unfold waitForRedirect, waitForUrlChange.
    rewrite Hnew. reflexivity.
  - intros s -> Hs. apply String.eqb_neq in Hs. split.
    + unfold waitForRedirect, waitForUrlChange. cbn [url_truthy].
      unfold str_truthy. rewrite Hs. cbn [String.eqb negb andb].
      eexists. split; [reflexivity |]. split; reflexivity.
    + intros k url Hurl. unfold url_predicate. rewrite Hurl. f_equal.
      unfold url_changed. cbn [url_truthy].
      unfold str_truthy. rewrite Hs. cbn [negb orb].
      destruct (String.eqb_spec s (strip_query url)) as [<- | Hne].
      * rewrite String.eqb_sym, Hs. reflexivity.
      * apply andb_false_r.
Qed.

Lemma waitForRedirect_condition_witness :
  url_predicate (stub_platform [on_terms]) (fun _ => answer on_terms)
                driver_abc123 (UrlString "") (UrlString terms_html)
                (fun _ => 5) [] 0 =
  Reports 5 (String.eqb terms_html (strip_query (terms_html ++ "?x=1"))).
Proof.
  refine (proj2 (proj2 (waitForRedirect_condition
                          (stub_platform [on_terms]) (fun _ => answer on_terms)
                          driver_abc123 (UrlString terms_html) (fun _ => 5)
                          [] 100)
                       terms_html eq_refl _)
                0 (terms_html ++ "?x=1") eq_refl).
  discriminate.
Defined.

Lemma handle_response_answers (P : platform) (params : cmd_params)
      (r : http_result) :
  handle_response P params r <> Unanswered.
Proof.
  unfold handle_response. destruct r as [err | res]; [discriminate |].
  destruct (JSON_parse P (body_text res)) as [envelope | message];
    [| discriminate].
  destruct (truthy envelope && truthy_opt (prop envelope "status")).
  - destruct (prop envelope "status"); discriminate.
  - destruct envelope; discriminate.
Qed.

(** X20. [getCookie] issues one [GET] to [/cookie], or to
    [/cookie/<name>] for a name that is not empty, and never delivers
    the answer: it hands no callback to [_cmd], so whatever the remote
    end answers an exception escapes. *)
Theorem getCookie_always_raises (P : platform) (net : transport)
        (self : WebDriver) (name : option string) (sent : list request) :
  (exists e, snd (getCookie P net self name sent) = Throw e) /\
  (exists req,
      fst (getCookie P net self name sent) = req :: sent /\
      req_method req = "GET" /\
      req_path req =
      sessionBasePath self ++
      match name with
      | Some n => if str_truthy n then "/cookie/" ++ n else "/cookie"
      | None => "/cookie"
      end).
Proof.
  unfold getCookie, _cmd. cbn [fst snd]. split.
  - pose proof (handle_response_answers P (cookie_params name "GET")
                  (net (build_request P self (cookie_params name "GET") :: sent)))
      as Hanswers.
    destruct (handle_response P (cookie_params name "GET") _)
      as [err v | e |]; [eauto | eauto | contradiction].
  - eexists. split; [reflexivity |]. split; reflexivity.
Qed.

(** ** The retry loop of [waitForElement] *)

Lemma bad_parent_after_get (self : WebDriver) (p : selector_params) :
  bad_parent p = false -> bad_parent (after_get self p) = false.
Proof.
  unfold bad_parent, after_get. cbn [parent normalize with_isSingle].
  destruct (parent p) as [[| j | | hdrs envelope | id | elements] |];
    try reflexivity; intros H; exact H.
Qed.

Lemma effective_using_after_get (self : WebDriver) (p : selector_params) :
  effective_using self (after_get self p) = effective_using self p.
Proof.
  unfold after_get, effective_using at 1. cbn [using_ normalize with_isSingle].
  change (effective_using self (with_isSingle true p))
    with (effective_using self p).
  destruct (str_truthy (effective_using self p)) eqn:Htruthy; [reflexivity |].
  unfold effective_using in *.
  destruct (using_ p) as [u |]; [| reflexivity].
  destruct (str_truthy u) eqn:Hu; [congruence | reflexivity].
Qed.

Lemma after_get_idempotent (self : WebDriver) (p : selector_params) :
  after_get self (after_get self p) = after_get self p.
Proof.
  pose proof (effective_using_after_get self p) as Husing.
  unfold after_get in *. unfold normalize at 1.
  change (effective_using self
            (with_isSingle true (normalize self (with_isSingle true p))))
    with (effective_using self (normalize self (with_isSingle true p))).
  rewrite Husing. unfold normalize. cbn [parent parentId noError chain isSingle
                                        with_isSingle].
  change (effective_using self (with_isSingle true p))
    with (effective_using self p).
  destruct (parent p) as [[| j | | hdrs envelope | id | elements] |];
    reflexivity.
Qed.

(** X21. The predicate of [waitForElement] on a selector without
    matches (native strategy). With [noError] set it answers "not yet"
    after one lookup. With [noError] unset it looks the element up again
    at once after every "no such element", without a pause and without
    an end: after any number [n] of lookups it has issued [n] requests
    and has not answered, so nothing but the element appearing, or
    another error, stops it. *)
Theorem getElement_on_missing_element (P : platform) (net : transport)
        (self : WebDriver) (selector : string) (params : selector_params)
        (fuel : nat) (sent : list request) :
  bad_parent params = false ->
  customStrategyHash (effective_using self params) = NativeStrategy ->
  (forall sent',
      runs_find P net self selector (after_get self params) sent' []) ->
  (noError params = true ->
   forall n, snd (getElement P net self selector params fuel (S n) sent) =
             Some (WaitCallback false)) /\
  (noError params = false ->
   forall n,
     snd (getElement P net self selector params fuel n sent) = None /\
     List.length (fst (getElement P net self selector params fuel n sent)) =
     n + List.length sent).
Proof.
  intros Hparent Hstrategy Hfind.
  assert (Hget : forall p sent',
    bad_parent p = false ->
    effective_using self p = effective_using self params ->
    after_get self p = after_get self params ->
    exists sent'',
      get P net self selector (Some p) fuel sent' =
      (sent'',
       Some (if noError p then Callback None (VJson JNull)
             else Callback
                    (Some (NoSuchElementError
                             [("element", JStr selector);
                              ("using", JStr (effective_using self p))]))
                    (VJson (JBool false)))) /\
      List.length sent'' = S (List.length sent')).
  { intros p sent' Hp Husing Hafter.
    assert (Hids :
      snd (_getIds P net self selector (with_isSingle true (given (Some p)))
                   fuel sent') =
      Some (if noError p then Callback None (VJson JNull)
            else Callback
                   (Some (NoSuchElementError
                            [("element", JStr selector);
                             ("using", JStr (effective_using self p))]))
                   (VJson (JBool false)))).
    { cbn [given].
      rewrite (getIds_native_zero P net self selector (with_isSingle true p)
                                  fuel sent').
      - reflexivity.
      - exact Hp.
      - change (effective_using self (with_isSingle true p))
          with (effective_using self p).
        rewrite Husing. exact Hstrategy.
      - fold (after_get self p). rewrite Hafter. apply Hfind. }
    pose proof (get_of_getIds P net self selector (Some p) fuel sent')
      as Hwrap.
    assert (Hlen :
      List.length (fst (get P net self selector (Some p) fuel sent')) =
      S (List.length sent')).
    { unfold get, _getIds. cbn [given].
      change (bad_parent (with_isSingle true p)) with (bad_parent p).
      change (effective_using self (with_isSingle true p))
        with (effective_using self p).
      rewrite Hp, Husing, Hstrategy. reflexivity. }
    destruct (noError p).
    - specialize (Hwrap None (VJson JNull) Hids).
      destruct (get P net self selector (Some p) fuel sent') as [sent'' r].
      cbn [fst snd] in *. subst r. eexists. split; [reflexivity | exact Hlen].
    - specialize (Hwrap _ _ Hids).
      destruct (get P net self selector (Some p) fuel sent') as [sent'' r].
      cbn [fst snd] in *. subst r. eexists. split; [reflexivity | exact Hlen]. }
  split.
  - intros HnoError n. cbn [getElement].
    destruct (Hget params sent Hparent eq_refl eq_refl) as [sent'' [-> _]].
    rewrite HnoError. reflexivity.
  - intros HnoError n.
    assert (Hloop : forall n p sent',
      bad_parent p = false ->
      effective_using self p = effective_using self params ->
      after_get self p = after_get self params ->
      noError p = false ->
      snd (getElement P net self selector p fuel n sent') = None /\
      List.length (fst (getElement P net self selector p fuel n sent')) =
      n + List.length sent').
    { clear n. induction n as [| n IH]; intros p sent' Hp Husing Hafter Hno.
      - split; reflexivity.
      - cbn [getElement].
        destruct (Hget p sent' Hp Husing Hafter) as [sent'' [-> Hlen]].
        rewrite Hno. cbn [is_NoSuchElementError NoSuchElementError].
        destruct (IH (after_get self p) sent'') as [Hnone Hcount].
        + apply bad_parent_after_get. exact Hp.
        + rewrite effective_using_after_get. exact Husing.
        + rewrite after_get_idempotent. exact Hafter.
        + exact Hno.
        + split; [exact Hnone | rewrite Hcount, Hlen; lia]. }
    apply Hloop; auto.
Qed.

Lemma getElement_on_missing_element_witness :
  snd (getElement (stub_platform [remote_find true []; remote_find false []])
                  (empty_document
                     (stub_platform [remote_find true []; remote_find false []])
                     driver_abc123 ".missing" no_params)
                  driver_abc123 ".missing" no_params 3 25 []) = None /\
  List.length
    (fst (getElement (stub_platform [remote_find true []; remote_find false []])
                     (empty_document
                        (stub_platform [remote_find true []; remote_find false []])
                        driver_abc123 ".missing" no_params)
                     driver_abc123 ".missing" no_params 3 25 [])) = 25 + 0.
Proof.
  refine (proj2 (getElement_on_missing_element
                   (stub_platform [remote_find true []; remote_find false []])
                   (empty_document
                      (stub_platform [remote_find true []; remote_find false []])
                      driver_abc123 ".missing" no_params)
                   driver_abc123 ".missing" no_params 3 [] eq_refl eq_refl _)
                eq_refl 25).
  intros sent'. eexists. split; reflexivity.
Defined.

(** ** [waitForDocumentReady] *)

Lemma ready_execute_step (P : platform) (net : transport) (self : WebDriver)
      (readySnippet : string) (fuel : nat) (addInjection : bool)
      (sent : list request) :
  ready_execute P net self readySnippet (S fuel) addInjection sent =
  match handle_response P (ready_command P self readySnippet addInjection)
          (net (build_request P self
                  (ready_command P self readySnippet addInjection) :: sent))
  with
  | Callback (Some err) _ =>
      (build_request P self (ready_command P self readySnippet addInjection)
       :: sent, Some (Callback (Some err) VUndefined))
  | Callback None result =>
      if is_needJquery result
      then ready_execute P net self readySnippet fuel true
             (build_request P self
                (ready_command P self readySnippet addInjection) :: sent)
      else (build_request P self
              (ready_command P self readySnippet addInjection) :: sent,
            Some (ready_outcome result))
  | other =>
      (build_request P self (ready_command P self readySnippet addInjection)
       :: sent, Some other)
  end.
Proof.
  cbn [ready_execute _cmd].
  destruct (handle_response P _ _) as [[err |] v | e |]; reflexivity.
Qed.

(** X22. With a remote end that runs the document-ready snippet as
    written (any request may fail instead), [waitForDocumentReady] first
    issues the snippet bare. A request that fails ends the wait with its
    error. On a page that has the library the first answer decides: the
    driver when the document got ready in time, the timeout error when
    not. On a page without the library the answer is [needJquery], and
    the snippet is issued once more with [jqueryInjection] prepended;
    that second answer decides. So two requests at most are issued, and
    two units of fuel suffice. *)
Theorem waitForDocumentReady_is_bounded (P : platform) (net : transport)
        (self : WebDriver) (readySnippet : string)
        (pages : list request -> bool * bool) (fuel : nat)
        (sent : list request) :
  runs_ready_snippet_or_fails P net self readySnippet pages ->
  2 <= fuel ->
  let bare := build_request P self (ready_command P self readySnippet false) in
  let injected :=
    build_request P self (ready_command P self readySnippet true) in
  waitForDocumentReady P net self readySnippet fuel sent =
  match failure_of (handle_response P (ready_command P self readySnippet false)
                                    (net (bare :: sent))) with
  | Some e => (bare :: sent, Some (Callback (Some e) VUndefined))
  | None =>
      if fst (pages sent)
      then (bare :: sent, Some (ready_report (snd (pages sent))))
      else
        match failure_of
                (handle_response P (ready_command P self readySnippet true)
                                 (net (injected :: bare :: sent))) with
        | Some e =>
            (injected :: bare :: sent, Some (Callback (Some e) VUndefined))
        | None =>
            (injected :: bare :: sent,
             Some (ready_report (snd (pages (bare :: sent)))))
        end
  end.
Proof.
  intros Hremote Hfuel bare injected.
  destruct fuel as [| [| fuel]]; try lia. clear Hfuel.
  unfold waitForDocumentReady. rewrite ready_execute_step. fold bare.
  destruct (Hremote sent false) as [[e [v He]] | Hr].
  - fold bare in He. rewrite He. reflexivity.
  - fold bare in Hr.
    rewrite (replies_returns P (ready_command P self readySnippet false)
                             _ _ Hr eq_refl).
    unfold ready_snippet. rewrite andb_true_r.
    destruct (fst (pages sent)); cbn [negb].
    + destruct (snd (pages sent)); reflexivity.
    + cbn [unwrap Array_isArray isObject negb orb is_needJquery failure_of].
      rewrite String.eqb_refl. rewrite ready_execute_step. fold injected.
      destruct (Hremote (bare :: sent) true) as [[e [v He]] | Hr2].
      * fold injected in He. rewrite He. reflexivity.
      * fold injected in Hr2.
        rewrite (replies_returns P (ready_command P self readySnippet true)
                                 _ _ Hr2 eq_refl).
        unfold ready_snippet. rewrite andb_false_r.
        destruct (snd (pages (bare :: sent))); reflexivity.
Qed.

Lemma waitForDocumentReady_is_bounded_witness :
  waitForDocumentReady
    (stub_platform [remote_execute (Returns (JStr "needJquery"));
                    remote_execute (Returns (JBool true))])
    (ready_browser
       (stub_platform [remote_execute (Returns (JStr "needJquery"));
                       remote_execute (Returns (JBool true))])
       driver_abc123 "/* ready */")
    driver_abc123 "/* ready */" 2 [] =
  ([build_request
      (stub_platform [remote_execute (Returns (JStr "needJquery"));
                      remote_execute (Returns (JBool true))])
      driver_abc123
      (ready_command
         (stub_platform [remote_execute (Returns (JStr "needJquery"));
                         remote_execute (Returns (JBool true))])
         driver_abc123 "/* ready */" true);
    build_request
      (stub_platform [remote_execute (Returns (JStr "needJquery"));
                      remote_execute (Returns (JBool true))])
      driver_abc123
      (ready_command
         (stub_platform [remote_execute (Returns (JStr "needJquery"));
                         remote_execute (Returns (JBool true))])
         driver_abc123 "/* ready */" false)],
   Some (Callback None VSelf)).
Proof.
  rewrite (waitForDocumentReady_is_bounded _ _ driver_abc123 "/* ready */"
             (fun _ => (false, true)) 2 []); [reflexivity | | lia].
  intros sent [|]; right; eexists; split; reflexivity.
Defined.

(** ** Polling engine: a predicate that reports failure itself *)

(** X23. With a timeout of [n] ms in force, [n] a whole number from 1
    to 2^31-1: when the predicate, on its first call, hands an error to
    the outer callback itself (as the predicates of [waitForUrlChange]
    and [waitForElement] do when their command fails), polling stops but
    the deadline timer stays armed and [isDone] stays unset: the callback
    is invoked a second time, with the timeout report, when the deadline
    passes. *)
Theorem waitFor_predicate_failure_is_followed_by_timeout
        (self : WebDriver) (func : nat -> behaviour) (params : wait_params)
        (fuel n : nat) (err : error) :
  numeric_timeout self params n ->
  func 0 = Fails 0 err ->
  3 <= fuel ->
  let timed_out :=
    (n,
     Callback (if wp_noError params then None
               else Some (PlainError
                            ("Timeout (" ++ string_of_nat n ++
                             " ms) exceeded" ++
                             match wp_errorMessage params with
                             | Some m =>
                                 if str_truthy m then " while " ++ m else ""
                             | None => ""
                             end)))
              VUndefined) in
  let failed := (20, Callback (Some err) VUndefined) in
  waitFor self func params fuel =
  Some (if Nat.ltb n 20
        then [timed_out; failed] else [failed; timed_out]).
Proof.
  intros Hn Hfails Hfuel. destruct fuel as [| [| [| fuel]]]; try lia.
  change ("Timeout (" ++ string_of_nat n ++ " ms) exceeded" ++
          match wp_errorMessage params with
          | Some m => if str_truthy m then " while " ++ m else ""
          | None => ""
          end) with (timeout_message n params).
  rewrite <- (wait_timeout_numeric self params n Hn).
  unfold waitFor. generalize (wait_timeout self params) as T. intros T.
  unfold wait_execute, arm, idle, delay.
  cbn [queue now schedule isDone isTimeoutExceeded attempts calls Nat.add].
  destruct (Nat.ltb T 20) eqn:Hlt.
  - cbn [run queue]. cbn [fire deadline isDone negb].
    cbn [invoke_callback set_isTimeoutExceeded queue now calls attempts
         isDone isTimeoutExceeded].
    cbn [fire attempts]. rewrite Hfails.
    cbn [count_attempt invoke_callback queue now calls attempts isDone
         isTimeoutExceeded].
    destruct fuel; reflexivity.
  - cbn [run queue]. cbn [fire attempts]. rewrite Hfails.
    cbn [count_attempt invoke_callback queue isDone isTimeoutExceeded calls
         attempts now].
    cbn [fire deadline isDone negb].
    cbn [invoke_callback set_isTimeoutExceeded queue now calls attempts
         isDone isTimeoutExceeded].
    destruct fuel; reflexivity.
Qed.

Lemma waitFor_predicate_failure_is_followed_by_timeout_witness :
  waitFor driver_abc123 (fun _ => Fails 0 connection_refused) wait_50ms 3 =
  Some [(20, Callback (Some connection_refused) VUndefined);
        (50, timed_out_50ms)].
Proof.
  apply (waitFor_predicate_failure_is_followed_by_timeout driver_abc123
           (fun _ => Fails 0 connection_refused) wait_50ms 3 50
           connection_refused);
    [split; [lia | reflexivity] | reflexivity | lia].
Defined.
